(** * SAP maintenance-order adaptor: a shallow embedding and its properties

    The development follows the layout of the Go repository:

    - [Go]        the pieces of the Go runtime the adaptor leans on
                  (error values, [fmt] verbs, the clock, [strconv], [time]);
    - [models]    internal/models/models.go;
    - [config]    internal/config/config.go;
    - [sap]       the SAP client (package sap): live and simulator variants,
                  and the translation functions;
    - [services]  internal/services/maintenance.go;
    - [handlers]  internal/handlers/maintenance.go.

    Log statements are not modelled; every other statement of the
    functions below is. *)

From Stdlib Require Import String Ascii ZArith List Lia Bool DecimalString.
From Stdlib Require Import DecimalZ.
From Stdlib Require DecimalPos.
Import ListNotations.

Local Open Scope list_scope.
Local Open Scope string_scope.

(* ===================================================================== *)
(** * The Go runtime *)
(* ===================================================================== *)

Module Go.

(** Go [error] values.  [errorString] is what [errors.New] and a
    [fmt.Errorf] without the verb %w build; [wrapError] is what
    [fmt.Errorf] builds around the operand of its %w; [Canceled] and
    [DeadlineExceeded] are the two values [ctx.Err()] can return;
    [foreignError] stands for an error made inside a library
    ([net/http], [io], [encoding/json], [net/url]). *)
Inductive error : Type :=
| errorString (s : string)
| wrapError (msg : string) (err : error)
| Canceled
| DeadlineExceeded
| foreignError (pkg : string) (msg : string).

(** The method [Error()]. *)
Definition Error (e : error) : string :=
  match e with
  | errorString s => s
  | wrapError msg _ => msg
  | Canceled => "context canceled"
  | DeadlineExceeded => "context deadline exceeded"
  | foreignError _ msg => msg
  end.

(** [errors.Unwrap]. *)
Definition Unwrap (e : error) : option error :=
  match e with
  | wrapError _ err => Some err
  | _ => None
  end.

(** [fmt.Errorf(prefix + "%w", err)]. *)
Definition Errorf_w (prefix : string) (err : error) : error :=
  wrapError (prefix ++ Error err) err.

(** A Go pair [(T, error)] of which exactly one component is meaningful. *)
Inductive result (A : Type) : Type :=
| Ok (a : A)
| Err (e : error).
Arguments Ok {A} a.
Arguments Err {A} e.

(** The verb %d. *)
Definition itoa (n : Z) : string :=
  NilZero.string_of_int (Z.to_int n).

Fixpoint zeros (k : nat) : string :=
  match k with
  | O => ""
  | S k' => String "0" (zeros k')
  end.

(** The verb %0<width>d: the sign counts towards the width. *)
Definition fmt_0d (width : nat) (n : Z) : string :=
  let digits := NilZero.string_of_uint (N.to_uint (Z.to_N (Z.abs n))) in
  let sign := if (n <? 0)%Z then "-" else "" in
  sign ++ zeros (width - String.length sign - String.length digits) ++ digits.

(** [s[len(s)-1]], when [len(s) > 0]. *)
Fixpoint last_byte (s : string) : option ascii :=
  match s with
  | EmptyString => None
  | String c EmptyString => Some c
  | String _ rest => last_byte rest
  end.

(** [strings.HasPrefix]. *)
Fixpoint HasPrefix (s prefix : string) {struct prefix} : bool :=
  match prefix with
  | EmptyString => true
  | String a prefix' =>
      match s with
      | EmptyString => false
      | String b s' => (a =? b)%char && HasPrefix s' prefix'
      end
  end.

(** [context.Context], as far as the adaptor looks at it: the value of
    [ctx.Err()], [None] while the context is live. *)
Definition Context : Type := option error.

(** What the adaptor uses of [time], [strconv] and [net/http] without
    looking inside.  [time_Format] and [time_Parse] are used at the layout
    [time.RFC3339] only, [strconv_FormatFloat] at [('f', -1, 64)] only and
    [strconv_ParseFloat] at bit size 64 only.  [http_NewRequest] returns
    the error of [http.NewRequestWithContext], [None] when the request
    could be built. *)
Class Runtime : Type := {
  Time : Type;
  time_Unix : Time -> Z;
  time_Add : Time -> Z -> Time;
  time_Format : Time -> string;
  time_Parse : string -> result Time;
  float64 : Type;
  float64_zero : float64;
  strconv_FormatFloat : float64 -> string;
  strconv_ParseFloat : string -> result float64;
  http_NewRequest : string -> string -> option error
}.

(** [time.Hour], in nanoseconds. *)
Definition Hour : Z := 3600 * 1000000000.

(** HTTP status codes of [net/http]. *)
Definition StatusOK : Z := 200.
Definition StatusCreated : Z := 201.
Definition StatusBadRequest : Z := 400.
Definition StatusNotFound : Z := 404.
Definition StatusInternalServerError : Z := 500.

(** Stateful code threads its state explicitly: a computation takes the
    state and returns its value with the new state. *)
Definition State (W A : Type) : Type := W -> A * W.

Definition ret {W A : Type} (a : A) : State W A := fun w => (a, w).

Definition bind {W A B : Type} (m : State W A) (k : A -> State W B) : State W B :=
  fun w => let (a, w') := m w in k a w'.

(** Go's [int64] arithmetic wraps around. *)
Definition wrap64 (z : Z) : Z :=
  ((z + 2 ^ 63) mod 2 ^ 64 - 2 ^ 63)%Z.

(** [time.Second], in nanoseconds. *)
Definition Second : Z := 1000000000.

End Go.
Import Go.

Declare Scope go_scope.
Delimit Scope go_scope with go.
Notation "x <- m ;; k" := (bind m (fun x => k))
  (at level 61, m at next level, right associativity) : go_scope.
Notation "m ;;; k" := (bind m (fun _ => k))
  (at level 61, right associativity) : go_scope.
Local Open Scope go_scope.

(* ===================================================================== *)
(** * internal/models/models.go *)
(* ===================================================================== *)

Module models.

(** One module per struct, so that fields keep their Go names. *)

Module MaintenanceOperation.
Section Def.
Context `{Runtime}.
Record t : Type := {
  Text : string;
  WorkCenter : string;
  Duration : float64;
  DurationUnit : string
}.
End Def.
End MaintenanceOperation.

Module MaintenanceOrderEvent.
Section Def.
Context `{Runtime}.
Record t : Type := {
  EquipmentID : string;
  FunctionalLocation : string;
  Plant : string;
  Description : string;
  Priority : string;
  MaintenanceOrderType : string;
  PlannedStartTime : option Time;
  PlannedEndTime : option Time;
  Operations : list MaintenanceOperation.t
}.
End Def.
End MaintenanceOrderEvent.

Module MaintenanceOrderResponse.
Section Def.
Context `{Runtime}.
Record t : Type := {
  OrderID : string;
  NotificationID : string;
  Status : string;
  Message : string;
  CreatedAt : Time
}.
End Def.
End MaintenanceOrderResponse.

Module OperationStatus.
Section Def.
Context `{Runtime}.
Record t : Type := {
  OperationID : string;
  Text : string;
  Status : string;
  ActualWorkQuantity : float64;
  WorkQuantityUnit : string
}.
End Def.
End OperationStatus.

Module MaintenanceOrderStatus.
Section Def.
Context `{Runtime}.
Record t : Type := {
  OrderID : string;
  Status : string;
  Description : string;
  EquipmentID : string;
  Plant : string;
  NotificationID : string;
  ActualStartTime : option Time;
  ActualEndTime : option Time;
  Operations : list OperationStatus.t
}.
End Def.
End MaintenanceOrderStatus.

Module SAPNotificationRequest.
Record t : Type := {
  NotificationType : string;
  Description : string;
  Equipment : string;
  FunctionalLocation : string;
  Plant : string;
  Priority : string
}.
End SAPNotificationRequest.

(** The anonymous struct [D] of a notification response. *)
Module SAPNotificationResponse.
Record D_t : Type := {
  Notification : string;
  Description : string;
  Plant : string
}.
Record t : Type := { D : D_t }.
End SAPNotificationResponse.

Module SAPOrderOperation.
Record t : Type := {
  OperationText : string;
  WorkCenter : string;
  Plant : string;
  OperationControlKey : string;
  OperationStandardDuration : string;
  OperationDurationUnit : string
}.
End SAPOrderOperation.

Module SAPOrderRequest.
Record t : Type := {
  MaintenanceOrderType : string;
  Description : string;
  Equipment : string;
  FunctionalLocation : string;
  Plant : string;
  MaintenancePlanningPlant : string;
  Priority : string;
  MaintOrdBasicStartDateTime : string;
  MaintOrdBasicEndDateTime : string;
  MaintenanceNotification : string;
  ToMaintenanceOrderOperation : list SAPOrderOperation.t
}.
End SAPOrderRequest.

(** The anonymous struct behind the JSON key [__metadata]. *)
Module Metadata.
Record t : Type := {
  ID : string;
  URI : string;
  Type_ : string
}.
End Metadata.

Module SAPOrderOperationResponse.
Record t : Type := {
  MaintenanceOrder : string;
  MaintenanceOrderOperation : string;
  OperationText : string;
  WorkCenter : string;
  OperationControlKey : string;
  OperationStandardDuration : string;
  OperationDurationUnit : string;
  OperationStatus : string;
  ActualWorkQuantity : string;
  WorkQuantityUnit : string;
  Metadata : Metadata.t
}.
End SAPOrderOperationResponse.

(** [Results] is the one field of the anonymous struct
    [ToMaintenanceOrderOperation]. *)
Module SAPOrderResponse.
Record D_t : Type := {
  MaintenanceOrder : string;
  MaintenanceOrderType : string;
  Description : string;
  Equipment : string;
  Plant : string;
  OrderStatus : string;
  MaintOrdBasicStartDateTime : string;
  MaintOrdBasicEndDateTime : string;
  MaintenanceNotification : string;
  Metadata : Metadata.t;
  Results : list SAPOrderOperationResponse.t
}.
Record t : Type := { D : D_t }.
End SAPOrderResponse.

Module ErrorResponse.
Record t : Type := {
  Error : string;
  Code : string;
  Details : option string
}.
End ErrorResponse.

(** models.go carries its own copies of the two translation functions of
    package sap. *)
Section Translation.
Context `{Runtime}.

Definition ConvertMaintenanceOrderEventToNotificationRequest
  (event : MaintenanceOrderEvent.t) : SAPNotificationRequest.t :=
  {| SAPNotificationRequest.NotificationType := "M1";
     SAPNotificationRequest.Description := MaintenanceOrderEvent.Description event;
     SAPNotificationRequest.Equipment := MaintenanceOrderEvent.EquipmentID event;
     SAPNotificationRequest.FunctionalLocation :=
       MaintenanceOrderEvent.FunctionalLocation event;
     SAPNotificationRequest.Plant := MaintenanceOrderEvent.Plant event;
     SAPNotificationRequest.Priority := MaintenanceOrderEvent.Priority event |}.

Fixpoint appendOperations (event : MaintenanceOrderEvent.t)
  (ops : list MaintenanceOperation.t) (acc : list SAPOrderOperation.t)
  : list SAPOrderOperation.t :=
  match ops with
  | [] => acc
  | op :: rest =>
      let sapOp :=
        {| SAPOrderOperation.OperationText := MaintenanceOperation.Text op;
           SAPOrderOperation.WorkCenter := MaintenanceOperation.WorkCenter op;
           SAPOrderOperation.Plant := MaintenanceOrderEvent.Plant event;
           SAPOrderOperation.OperationControlKey :=
             MaintenanceOrderEvent.MaintenanceOrderType event;
           SAPOrderOperation.OperationStandardDuration :=
             strconv_FormatFloat (MaintenanceOperation.Duration op);
           SAPOrderOperation.OperationDurationUnit :=
             MaintenanceOperation.DurationUnit op |} in
      appendOperations event rest (acc ++ [sapOp])
  end.

Definition ConvertMaintenanceOrderEventToOrderRequest
  (event : MaintenanceOrderEvent.t) (notificationID : string)
  : SAPOrderRequest.t :=
  {| SAPOrderRequest.MaintenanceOrderType :=
       MaintenanceOrderEvent.MaintenanceOrderType event;
     SAPOrderRequest.Description := MaintenanceOrderEvent.Description event;
     SAPOrderRequest.Equipment := MaintenanceOrderEvent.EquipmentID event;
     SAPOrderRequest.FunctionalLocation :=
       MaintenanceOrderEvent.FunctionalLocation event;
     SAPOrderRequest.Plant := MaintenanceOrderEvent.Plant event;
     SAPOrderRequest.MaintenancePlanningPlant := MaintenanceOrderEvent.Plant event;
     SAPOrderRequest.Priority := MaintenanceOrderEvent.Priority event;
     SAPOrderRequest.MaintOrdBasicStartDateTime :=
       match MaintenanceOrderEvent.PlannedStartTime event with
       | Some t => time_Format t
       | None => ""
       end;
     SAPOrderRequest.MaintOrdBasicEndDateTime :=
       match MaintenanceOrderEvent.PlannedEndTime event with
       | Some t => time_Format t
       | None => ""
       end;
     SAPOrderRequest.MaintenanceNotification := notificationID;
     SAPOrderRequest.ToMaintenanceOrderOperation :=
       appendOperations event (MaintenanceOrderEvent.Operations event) [] |}.

End Translation.

End models.

(* ===================================================================== *)
(** * internal/config/config.go *)
(* ===================================================================== *)

Module config.

Record SAPConfig : Type := {
  BaseURL : string;
  Username : string;
  Password : string;
  ClientID : string;
  ClientSecret : string;
  TokenURL : string;
  Timeout : Z;
  SimulatorMode : bool
}.

End config.

(* ===================================================================== *)
(** * Package sap: the client of the plant system *)
(* ===================================================================== *)

Module sap.
Import models.

(** [encoding/json] at the four types the client exchanges with the plant
    system. *)
Class JSON : Type := {
  Marshal_SAPNotificationRequest : SAPNotificationRequest.t -> result string;
  Marshal_SAPOrderRequest : SAPOrderRequest.t -> result string;
  Unmarshal_SAPNotificationResponse : string -> result SAPNotificationResponse.t;
  Unmarshal_SAPOrderResponse : string -> result SAPOrderResponse.t
}.

(** An outgoing HTTP request, as handed to [httpClient.Do]. *)
Record Request : Type := {
  Method : string;
  URL : string;
  Header : list (string * string);
  Body : string
}.

(** What comes back from one round trip: [DoFailed] when [httpClient.Do]
    returns an error, [ReadFailed] when [io.ReadAll(resp.Body)] does,
    [Response] for a status code with the body read in full. *)
Inductive Reply : Type :=
| DoFailed (e : error)
| ReadFailed (e : error)
| Response (StatusCode : Z) (body : string).

(** The three operations of the client, for the record of calls. *)
Inductive Call : Type :=
| CallCreateNotification (req : SAPNotificationRequest.t)
| CallCreateOrder (req : SAPOrderRequest.t)
| CallGetOrder (orderID : string).

Section Client.
Context `{Runtime} `{JSON}.

(** The world around the client.  [now k] is the [k]-th reading of the
    wall clock and [clock_reads] counts the readings taken; [plant] is the
    plant system with the network in front of it: its reply to a request,
    given the state of the request's context and the requests sent
    before; [sent] lists the requests handed to [httpClient.Do] and
    [calls] the operations invoked on the client, both oldest first. *)
Record World : Type := {
  now : nat -> Time;
  clock_reads : nat;
  plant : Context -> list Request -> Request -> Reply;
  sent : list Request;
  calls : list Call
}.

Definition IO (A : Type) : Type := State World A.

(** [time.Now()]. *)
Definition time_Now : IO Time :=
  fun w =>
    (now w (clock_reads w),
     {| now := now w; clock_reads := S (clock_reads w); plant := plant w;
        sent := sent w; calls := calls w |}).

(** [c.httpClient.Do(httpReq)] followed by [io.ReadAll(resp.Body)]. *)
Definition httpClient_Do (ctx : Context) (httpReq : Request) : IO Reply :=
  fun w =>
    (plant w ctx (sent w) httpReq,
     {| now := now w; clock_reads := clock_reads w; plant := plant w;
        sent := sent w ++ [httpReq]; calls := calls w |}).

(** Entering one of the client's three operations. *)
Definition enter (c : Call) : IO unit :=
  fun w =>
    (tt,
     {| now := now w; clock_reads := clock_reads w; plant := plant w;
        sent := sent w; calls := calls w ++ [c] |}).

Record Client : Type := {
  config : config.SAPConfig;
  httpClient_Timeout : Z;
  simulatorMode : bool
}.

Definition NewClient (cfg : config.SAPConfig) : Client :=
  let simulatorMode :=
    config.SimulatorMode cfg
    || (config.BaseURL cfg =? "")
    || (config.BaseURL cfg =? "simulator") in
  {| config := cfg;
     httpClient_Timeout := wrap64 (config.Timeout cfg * Second);
     simulatorMode := simulatorMode |}.

Definition createMockNotificationResponse (c : Client)
  (req : SAPNotificationRequest.t) : IO SAPNotificationResponse.t :=
  t <- time_Now ;;
  let notificationID := "200000" ++ fmt_0d 3 (Z.rem (time_Unix t) 1000) in
  ret {| SAPNotificationResponse.D :=
           {| SAPNotificationResponse.Notification := notificationID;
              SAPNotificationResponse.Description :=
                SAPNotificationRequest.Description req;
              SAPNotificationResponse.Plant :=
                SAPNotificationRequest.Plant req |} |}.

(** The body of the loop of [createMockOrderResponse], for the operation
    at index [i]. *)
Definition mockOperation (orderID : string) (i : nat)
  (op : SAPOrderOperation.t) : SAPOrderOperationResponse.t :=
  let operationID := fmt_0d 4 ((Z.of_nat i + 1) * 10) in
  let path :=
    ".../A_MaintenanceOrderOperation(MaintenanceOrder='" ++ orderID
    ++ "',MaintenanceOrderOperation='" ++ operationID ++ "')" in
  {| SAPOrderOperationResponse.MaintenanceOrder := orderID;
     SAPOrderOperationResponse.MaintenanceOrderOperation := operationID;
     SAPOrderOperationResponse.OperationText :=
       SAPOrderOperation.OperationText op;
     SAPOrderOperationResponse.WorkCenter := SAPOrderOperation.WorkCenter op;
     SAPOrderOperationResponse.OperationControlKey :=
       SAPOrderOperation.OperationControlKey op;
     SAPOrderOperationResponse.OperationStandardDuration :=
       SAPOrderOperation.OperationStandardDuration op;
     SAPOrderOperationResponse.OperationDurationUnit :=
       SAPOrderOperation.OperationDurationUnit op;
     SAPOrderOperationResponse.OperationStatus := "";
     SAPOrderOperationResponse.ActualWorkQuantity := "";
     SAPOrderOperationResponse.WorkQuantityUnit := "";
     SAPOrderOperationResponse.Metadata :=
       {| Metadata.ID := path;
          Metadata.URI := path;
          Metadata.Type_ :=
            "API_MAINTENANCE_ORDER.A_MaintenanceOrderOperationType" |} |}.

Fixpoint mockOperations (orderID : string) (i : nat)
  (ops : list SAPOrderOperation.t) : list SAPOrderOperationResponse.t :=
  match ops with
  | [] => []
  | op :: rest => mockOperation orderID i op :: mockOperations orderID (S i) rest
  end.

Definition createMockOrderResponse (c : Client) (req : SAPOrderRequest.t)
  : IO SAPOrderResponse.t :=
  t <- time_Now ;;
  let orderID := "400000" ++ fmt_0d 3 (Z.rem (time_Unix t) 1000) in
  let operations :=
    mockOperations orderID 0 (SAPOrderRequest.ToMaintenanceOrderOperation req) in
  let path := ".../A_MaintenanceOrder('" ++ orderID ++ "')" in
  ret {| SAPOrderResponse.D :=
           {| SAPOrderResponse.MaintenanceOrder := orderID;
              SAPOrderResponse.MaintenanceOrderType :=
                SAPOrderRequest.MaintenanceOrderType req;
              SAPOrderResponse.Description := SAPOrderRequest.Description req;
              SAPOrderResponse.Equipment := SAPOrderRequest.Equipment req;
              SAPOrderResponse.Plant := SAPOrderRequest.Plant req;
              SAPOrderResponse.OrderStatus := "CRTD";
              SAPOrderResponse.MaintOrdBasicStartDateTime :=
                SAPOrderRequest.MaintOrdBasicStartDateTime req;
              SAPOrderResponse.MaintOrdBasicEndDateTime :=
                SAPOrderRequest.MaintOrdBasicEndDateTime req;
              SAPOrderResponse.MaintenanceNotification :=
                SAPOrderRequest.MaintenanceNotification req;
              SAPOrderResponse.Metadata :=
                {| Metadata.ID := path;
                   Metadata.URI := path;
                   Metadata.Type_ :=
                     "API_MAINTENANCE_ORDER.A_MaintenanceOrderType" |};
              SAPOrderResponse.Results := operations |} |}.

(** The [switch lastDigit] of [createMockOrderStatusResponse]; a byte
    that matches no case leaves the default in place. *)
Definition statusOfLastDigit (lastDigit : ascii) : string :=
  if (lastDigit =? "0")%char || (lastDigit =? "1")%char
     || (lastDigit =? "2")%char then "CRTD"
  else if (lastDigit =? "3")%char || (lastDigit =? "4")%char
          || (lastDigit =? "5")%char then "REL"
  else if (lastDigit =? "6")%char || (lastDigit =? "7")%char
          || (lastDigit =? "8")%char then "TECO"
  else if (lastDigit =? "9")%char then "CLSD"
  else "CRTD".

Definition mockStatus (orderID : string) : string :=
  match last_byte orderID with
  | None => "CRTD"
  | Some lastDigit => statusOfLastDigit lastDigit
  end.

Definition createMockOrderStatusResponse (c : Client) (orderID : string)
  : IO SAPOrderResponse.t :=
  let status := mockStatus orderID in
  t1 <- time_Now ;;
  t2 <- time_Now ;;
  let path := ".../A_MaintenanceOrder('" ++ orderID ++ "')" in
  let opPath :=
    ".../A_MaintenanceOrderOperation(MaintenanceOrder='" ++ orderID
    ++ "',MaintenanceOrderOperation='0010')" in
  ret {| SAPOrderResponse.D :=
           {| SAPOrderResponse.MaintenanceOrder := orderID;
              SAPOrderResponse.MaintenanceOrderType := "PM01";
              SAPOrderResponse.Description := "Mock maintenance order";
              SAPOrderResponse.Equipment := "10000045";
              SAPOrderResponse.Plant := "1000";
              SAPOrderResponse.OrderStatus := status;
              SAPOrderResponse.MaintOrdBasicStartDateTime := time_Format t1;
              SAPOrderResponse.MaintOrdBasicEndDateTime :=
                time_Format (time_Add t2 (8 * Hour));
              SAPOrderResponse.MaintenanceNotification := "200000123";
              SAPOrderResponse.Metadata :=
                {| Metadata.ID := path;
                   Metadata.URI := path;
                   Metadata.Type_ :=
                     "API_MAINTENANCE_ORDER.A_MaintenanceOrderType" |};
              SAPOrderResponse.Results :=
                [ {| SAPOrderOperationResponse.MaintenanceOrder := orderID;
                     SAPOrderOperationResponse.MaintenanceOrderOperation := "0010";
                     SAPOrderOperationResponse.OperationText := "Mock operation";
                     SAPOrderOperationResponse.WorkCenter := "MOCK-WC01";
                     SAPOrderOperationResponse.OperationControlKey := "PM01";
                     SAPOrderOperationResponse.OperationStandardDuration := "4";
                     SAPOrderOperationResponse.OperationDurationUnit := "H";
                     SAPOrderOperationResponse.OperationStatus := "CNF";
                     SAPOrderOperationResponse.ActualWorkQuantity := "4.0";
                     SAPOrderOperationResponse.WorkQuantityUnit := "H";
                     SAPOrderOperationResponse.Metadata :=
                       {| Metadata.ID := opPath;
                          Metadata.URI := opPath;
                          Metadata.Type_ :=
                            "API_MAINTENANCE_ORDER.A_MaintenanceOrderOperationType"
                       |} |} ] |} |}.

(** The part the three operations share once the request is marshalled:
    build the HTTP request, send it, read the reply, check the status
    code against [want] and parse the body. *)
Definition roundTrip {A : Type} (ctx : Context) (method url body : string)
  (headers : list (string * string)) (want : Z)
  (parse : string -> result A) : IO (result A) :=
  match http_NewRequest method url with
  | Some err => ret (Err (Errorf_w "failed to create request: " err))
  | None =>
      let httpReq :=
        {| Method := method; URL := url; Header := headers; Body := body |} in
      reply <- httpClient_Do ctx httpReq ;;
      match reply with
      | DoFailed err => ret (Err (Errorf_w "failed to send request: " err))
      | ReadFailed err => ret (Err (Errorf_w "failed to read response: " err))
      | Response StatusCode respBody =>
          if negb (StatusCode =? want)%Z then
            ret (Err (errorString
                        ("SAP API returned status " ++ itoa StatusCode
                         ++ ": " ++ respBody)))
          else
            match parse respBody with
            | Err err => ret (Err (Errorf_w "failed to parse response: " err))
            | Ok resp => ret (Ok resp)
            end
      end
  end.

Definition jsonHeaders : list (string * string) :=
  [("Content-Type", "application/json"); ("Accept", "application/json")].

Definition CreateNotification (c : Client) (ctx : Context)
  (req : SAPNotificationRequest.t) : IO (result SAPNotificationResponse.t) :=
  enter (CallCreateNotification req) ;;;
  if simulatorMode c then
    resp <- createMockNotificationResponse c req ;;
    ret (Ok resp)
  else
    match Marshal_SAPNotificationRequest req with
    | Err err => ret (Err (Errorf_w "failed to marshal request: " err))
    | Ok reqBody =>
        roundTrip ctx "POST"
          (config.BaseURL (config c)
           ++ "/API_MAINTENANCE_NOTIFICATION/A_MaintenanceNotification")
          reqBody jsonHeaders StatusCreated Unmarshal_SAPNotificationResponse
    end.

Definition CreateOrder (c : Client) (ctx : Context)
  (req : SAPOrderRequest.t) : IO (result SAPOrderResponse.t) :=
  enter (CallCreateOrder req) ;;;
  if simulatorMode c then
    resp <- createMockOrderResponse c req ;;
    ret (Ok resp)
  else
    match Marshal_SAPOrderRequest req with
    | Err err => ret (Err (Errorf_w "failed to marshal request: " err))
    | Ok reqBody =>
        roundTrip ctx "POST"
          (config.BaseURL (config c)
           ++ "/API_MAINTENANCE_ORDER/A_MaintenanceOrder")
          reqBody jsonHeaders StatusCreated Unmarshal_SAPOrderResponse
    end.

Definition GetOrder (c : Client) (ctx : Context) (orderID : string)
  : IO (result SAPOrderResponse.t) :=
  enter (CallGetOrder orderID) ;;;
  if simulatorMode c then
    resp <- createMockOrderStatusResponse c orderID ;;
    ret (Ok resp)
  else
    let baseURL :=
      config.BaseURL (config c)
      ++ "/API_MAINTENANCE_ORDER/A_MaintenanceOrder('" ++ orderID ++ "')" in
    let fullURL := baseURL ++ "?" ++ "%24expand=to_MaintenanceOrderOperation" in
    roundTrip ctx "GET" fullURL "" [("Accept", "application/json")]
      StatusOK Unmarshal_SAPOrderResponse.


Definition ConvertMaintenanceOrderEventToNotificationRequest
  (event : MaintenanceOrderEvent.t) : SAPNotificationRequest.t :=
  {| SAPNotificationRequest.NotificationType := "M1";
     SAPNotificationRequest.Description := MaintenanceOrderEvent.Description event;
     SAPNotificationRequest.Equipment := MaintenanceOrderEvent.EquipmentID event;
     SAPNotificationRequest.FunctionalLocation :=
       MaintenanceOrderEvent.FunctionalLocation event;
     SAPNotificationRequest.Plant := MaintenanceOrderEvent.Plant event;
     SAPNotificationRequest.Priority := MaintenanceOrderEvent.Priority event |}.

(** The body of the loop over [event.Operations]. *)
Definition convertOperation (event : MaintenanceOrderEvent.t)
  (op : MaintenanceOperation.t) : SAPOrderOperation.t :=
  {| SAPOrderOperation.OperationText := MaintenanceOperation.Text op;
     SAPOrderOperation.WorkCenter := MaintenanceOperation.WorkCenter op;
     SAPOrderOperation.Plant := MaintenanceOrderEvent.Plant event;
     SAPOrderOperation.OperationControlKey :=
       MaintenanceOrderEvent.MaintenanceOrderType event;
     SAPOrderOperation.OperationStandardDuration :=
       strconv_FormatFloat (MaintenanceOperation.Duration op);
     SAPOrderOperation.OperationDurationUnit :=
       MaintenanceOperation.DurationUnit op |}.

(** A time field is assigned when the pointer is not nil and keeps the
    zero value of its type, the empty string, otherwise. *)
Definition ConvertMaintenanceOrderEventToOrderRequest
  (event : MaintenanceOrderEvent.t) (notificationID : string)
  : SAPOrderRequest.t :=
  {| SAPOrderRequest.MaintenanceOrderType :=
       MaintenanceOrderEvent.MaintenanceOrderType event;
     SAPOrderRequest.Description := MaintenanceOrderEvent.Description event;
     SAPOrderRequest.Equipment := MaintenanceOrderEvent.EquipmentID event;
     SAPOrderRequest.FunctionalLocation :=
       MaintenanceOrderEvent.FunctionalLocation event;
     SAPOrderRequest.Plant := MaintenanceOrderEvent.Plant event;
     SAPOrderRequest.MaintenancePlanningPlant := MaintenanceOrderEvent.Plant event;
     SAPOrderRequest.Priority := MaintenanceOrderEvent.Priority event;
     SAPOrderRequest.MaintOrdBasicStartDateTime :=
       match MaintenanceOrderEvent.PlannedStartTime event with
       | Some t => time_Format t
       | None => ""
       end;
     SAPOrderRequest.MaintOrdBasicEndDateTime :=
       match MaintenanceOrderEvent.PlannedEndTime event with
       | Some t => time_Format t
       | None => ""
       end;
     SAPOrderRequest.MaintenanceNotification := notificationID;
     SAPOrderRequest.ToMaintenanceOrderOperation :=
       map (convertOperation event) (MaintenanceOrderEvent.Operations event) |}.

(** A time field of the response becomes a time when it is not empty and
    parses, and stays nil otherwise. *)
Definition parseTimeField (s : string) : option Time :=
  if s =? "" then None
  else match time_Parse s with
       | Ok t => Some t
       | Err _ => None
       end.

(** The body of the loop over the operations of the response. *)
Definition convertOperationStatus (op : SAPOrderOperationResponse.t)
  : OperationStatus.t :=
  {| OperationStatus.OperationID :=
       SAPOrderOperationResponse.MaintenanceOrderOperation op;
     OperationStatus.Text := SAPOrderOperationResponse.OperationText op;
     OperationStatus.Status := SAPOrderOperationResponse.OperationStatus op;
     OperationStatus.ActualWorkQuantity :=
       if SAPOrderOperationResponse.ActualWorkQuantity op =? "" then float64_zero
       else match strconv_ParseFloat
                    (SAPOrderOperationResponse.ActualWorkQuantity op) with
            | Ok qty => qty
            | Err _ => float64_zero
            end;
     OperationStatus.WorkQuantityUnit :=
       SAPOrderOperationResponse.WorkQuantityUnit op |}.

Definition ConvertSAPOrderResponseToStatus (resp : SAPOrderResponse.t)
  : MaintenanceOrderStatus.t :=
  let d := SAPOrderResponse.D resp in
  {| MaintenanceOrderStatus.OrderID := SAPOrderResponse.MaintenanceOrder d;
     MaintenanceOrderStatus.Status := SAPOrderResponse.OrderStatus d;
     MaintenanceOrderStatus.Description := SAPOrderResponse.Description d;
     MaintenanceOrderStatus.EquipmentID := SAPOrderResponse.Equipment d;
     MaintenanceOrderStatus.Plant := SAPOrderResponse.Plant d;
     MaintenanceOrderStatus.NotificationID :=
       SAPOrderResponse.MaintenanceNotification d;
     MaintenanceOrderStatus.ActualStartTime :=
       parseTimeField (SAPOrderResponse.MaintOrdBasicStartDateTime d);
     MaintenanceOrderStatus.ActualEndTime :=
       parseTimeField (SAPOrderResponse.MaintOrdBasicEndDateTime d);
     MaintenanceOrderStatus.Operations :=
       map convertOperationStatus (SAPOrderResponse.Results d) |}.

(** The keys [encoding/json] writes for the scalar fields of an order
    request, with their values, following the struct tags: a field tagged
    [omitempty] is left out when it holds the empty string. *)
Definition omitempty (key value : string) : list (string * string) :=
  if value =? "" then [] else [(key, value)].

Definition SAPOrderRequest_keys (req : SAPOrderRequest.t)
  : list (string * string) :=
  [("MaintenanceOrderType", SAPOrderRequest.MaintenanceOrderType req);
   ("Description", SAPOrderRequest.Description req);
   ("Equipment", SAPOrderRequest.Equipment req)]
  ++ omitempty "FunctionalLocation" (SAPOrderRequest.FunctionalLocation req)
  ++ [("Plant", SAPOrderRequest.Plant req)]
  ++ omitempty "MaintenancePlanningPlant"
       (SAPOrderRequest.MaintenancePlanningPlant req)
  ++ omitempty "Priority" (SAPOrderRequest.Priority req)
  ++ omitempty "MaintOrdBasicStartDateTime"
       (SAPOrderRequest.MaintOrdBasicStartDateTime req)
  ++ omitempty "MaintOrdBasicEndDateTime"
       (SAPOrderRequest.MaintOrdBasicEndDateTime req)
  ++ omitempty "MaintenanceNotification"
       (SAPOrderRequest.MaintenanceNotification req).

(** The value written for [key], if the key is written. *)
Fixpoint lookup_key (key : string) (kvs : list (string * string))
  : option string :=
  match kvs with
  | [] => None
  | (k, v) :: rest => if k =? key then Some v else lookup_key key rest
  end.

End Client.
End sap.

(* ===================================================================== *)
(** * internal/services/maintenance.go *)
(* ===================================================================== *)

Module services.
Import models sap.

Section Service.
Context `{Runtime} `{JSON}.

Record MaintenanceService : Type := { sapClient : Client }.

Definition NewMaintenanceService (sapClient : Client) : MaintenanceService :=
  {| sapClient := sapClient |}.

Definition ProcessMaintenanceOrderEvent (s : MaintenanceService) (ctx : Context)
  (event : MaintenanceOrderEvent.t) : IO (result MaintenanceOrderResponse.t) :=
  (* Step 1 *)
  let notificationReq := ConvertMaintenanceOrderEventToNotificationRequest event in
  created <- CreateNotification (sapClient s) ctx notificationReq ;;
  match created with
  | Err err => ret (Err (Errorf_w "failed to create SAP notification: " err))
  | Ok notificationResp =>
      let notificationID :=
        SAPNotificationResponse.Notification
          (SAPNotificationResponse.D notificationResp) in
      (* Step 2 *)
      let orderReq :=
        ConvertMaintenanceOrderEventToOrderRequest event notificationID in
      ordered <- CreateOrder (sapClient s) ctx orderReq ;;
      match ordered with
      | Err err => ret (Err (Errorf_w "failed to create SAP order: " err))
      | Ok orderResp =>
          let orderID :=
            SAPOrderResponse.MaintenanceOrder (SAPOrderResponse.D orderResp) in
          (* Step 3 *)
          verified <- GetOrder (sapClient s) ctx orderID ;;
          match verified with
          | Err err =>
              ret (Err (Errorf_w "failed to verify order creation: " err))
          | Ok verifyResp =>
              let got :=
                SAPOrderResponse.MaintenanceOrder (SAPOrderResponse.D verifyResp) in
              if negb (got =? orderID) then
                ret (Err (errorString
                            ("order verification failed: expected " ++ orderID
                             ++ ", got " ++ got)))
              else
                createdAt <- time_Now ;;
                ret (Ok {| MaintenanceOrderResponse.OrderID := orderID;
                           MaintenanceOrderResponse.NotificationID := notificationID;
                           MaintenanceOrderResponse.Status :=
                             SAPOrderResponse.OrderStatus
                               (SAPOrderResponse.D verifyResp);
                           MaintenanceOrderResponse.Message :=
                             "Maintenance order created successfully";
                           MaintenanceOrderResponse.CreatedAt := createdAt |})
          end
      end
  end.

Definition GetMaintenanceOrderStatus (s : MaintenanceService) (ctx : Context)
  (orderID : string) : IO (result MaintenanceOrderStatus.t) :=
  fetched <- GetOrder (sapClient s) ctx orderID ;;
  match fetched with
  | Err err => ret (Err (Errorf_w "failed to get order from SAP: " err))
  | Ok orderResp => ret (Ok (ConvertSAPOrderResponseToStatus orderResp))
  end.

(** ** MonitorOrderStatus

    The loop of [MonitorOrderStatus] blocks in a [select] between
    [ctx.Done()] and [ticker.C], and blocks again inside
    [GetMaintenanceOrderStatus]; the context and the ticker move on their
    own in the meantime.  A run of the function is therefore a sequence of
    events, of the surroundings ([Cancel], [Elapse]) and of the function
    ([ReceiveDone], [ReceiveTick], [FetchReturns]), applied in order to
    the state below. *)

(** Where the function stands: blocked in the [select], inside the call
    of [GetMaintenanceOrderStatus], or returned with its result. *)
Inductive Point : Type :=
| AtSelect
| InFetch
| Returned (err : option error).

(** [elapsed] is the time since [time.NewTicker], in nanoseconds;
    [tickerC] tells whether the channel [ticker.C], of capacity one, holds
    a tick; [handled] lists the arguments the callback was called with,
    oldest first. *)
Record Monitor : Type := {
  ctx : Context;
  elapsed : N;
  tickerC : bool;
  point : Point;
  world : World;
  handled : list MaintenanceOrderStatus.t
}.

(** Why a context ends: [cancel()] was called, or its deadline passed. *)
Inductive Reason : Type :=
| Cancelled
| TimedOut.

Definition ctxErr (r : Reason) : error :=
  match r with
  | Cancelled => Canceled
  | TimedOut => DeadlineExceeded
  end.

Inductive Event : Type :=
| Cancel (r : Reason)
| Elapse (d : N)
| ReceiveDone
| ReceiveTick
| FetchReturns.

(** [30 * time.Second], the period of the ticker. *)
Definition interval : N := 30 * 1000000000.

(** The state on entry, after [time.NewTicker]. *)
Definition enterMonitor (ctx : Context) (w : World) : Monitor :=
  {| ctx := ctx; elapsed := 0; tickerC := false; point := AtSelect;
     world := w; handled := [] |}.

Definition isCompleted (status : MaintenanceOrderStatus.t) : bool :=
  (MaintenanceOrderStatus.Status status =? "TECO")
  || (MaintenanceOrderStatus.Status status =? "CLSD").

(** The rest of the [case <-ticker.C] branch once
    [GetMaintenanceOrderStatus] has returned [fetched] and left the world
    as [w]. *)
Definition afterFetch
  (callback : option (MaintenanceOrderStatus.t -> option error))
  (fetched : result MaintenanceOrderStatus.t) (w : World) (m : Monitor)
  : Monitor :=
  let continue :=
    {| ctx := ctx m; elapsed := elapsed m; tickerC := tickerC m;
       point := AtSelect; world := w; handled := handled m |} in
  match fetched with
  | Err _ => continue
  | Ok status =>
      if isCompleted status then
        match callback with
        | Some f =>
            {| ctx := ctx m; elapsed := elapsed m; tickerC := tickerC m;
               point := Returned (f status); world := w;
               handled := handled m ++ [status] |}
        | None =>
            {| ctx := ctx m; elapsed := elapsed m; tickerC := tickerC m;
               point := Returned None; world := w; handled := handled m |}
        end
      else continue
  end.

(** One event.  [None] when the event cannot happen in the state: a
    receive needs its channel ready, the fetch returns only when one is
    under way, and nothing happens to a call that has returned.
    - [Cancel]: the context ends, unless it has ended already;
    - [Elapse d]: [d] nanoseconds pass; the ticker puts a tick in its
      channel when a multiple of [interval] is reached;
    - [ReceiveDone]: the [select] takes [case <-ctx.Done()];
    - [ReceiveTick]: the [select] takes [case <-ticker.C] and the call of
      [GetMaintenanceOrderStatus] begins;
    - [FetchReturns]: that call completes, with the context as it stands
      by then, and the branch runs to its end. *)
Definition step (s : MaintenanceService) (orderID : string)
  (callback : option (MaintenanceOrderStatus.t -> option error))
  (e : Event) (m : Monitor) : option Monitor :=
  match point m with
  | Returned _ => None
  | at_ =>
      match e with
      | Cancel r =>
          Some {| ctx := match ctx m with
                         | None => Some (ctxErr r)
                         | Some err => Some err
                         end;
                  elapsed := elapsed m; tickerC := tickerC m; point := at_;
                  world := world m; handled := handled m |}
      | Elapse d =>
          let later := (elapsed m + d)%N in
          Some {| ctx := ctx m; elapsed := later;
                  tickerC :=
                    tickerC m
                    || (elapsed m / interval <? later / interval)%N;
                  point := at_; world := world m; handled := handled m |}
      | ReceiveDone =>
          match at_, ctx m with
          | AtSelect, Some err =>
              Some {| ctx := ctx m; elapsed := elapsed m; tickerC := tickerC m;
                      point := Returned (Some err); world := world m;
                      handled := handled m |}
          | _, _ => None
          end
      | ReceiveTick =>
          match at_, tickerC m with
          | AtSelect, true =>
              Some {| ctx := ctx m; elapsed := elapsed m; tickerC := false;
                      point := InFetch; world := world m;
                      handled := handled m |}
          | _, _ => None
          end
      | FetchReturns =>
          match at_ with
          | InFetch =>
              let (fetched, w) :=
                GetMaintenanceOrderStatus s (ctx m) orderID (world m) in
              Some (afterFetch callback fetched w m)
          | _ => None
          end
      end
  end.

(** A run of [MonitorOrderStatus] under the events [es]: the state
    reached, or [None] when some event could not happen. *)
Fixpoint run (s : MaintenanceService) (orderID : string)
  (callback : option (MaintenanceOrderStatus.t -> option error))
  (es : list Event) (m : Monitor) : option Monitor :=
  match es with
  | [] => Some m
  | e :: rest =>
      match step s orderID callback e m with
      | Some m' => run s orderID callback rest m'
      | None => None
      end
  end.

Definition MonitorOrderStatus (s : MaintenanceService) (ctx : Context)
  (orderID : string)
  (callback : option (MaintenanceOrderStatus.t -> option error))
  (w : World) (es : list Event) : option Monitor :=
  run s orderID callback es (enterMonitor ctx w).

End Service.
End services.

(* ===================================================================== *)
(** * internal/handlers/maintenance.go *)
(* ===================================================================== *)

Module handlers.
Import models sap services.

Section Handler.
Context `{Runtime} `{JSON}.

Record MaintenanceHandler : Type := { maintenanceService : MaintenanceService }.

(** What [c.JSON(code, obj)] writes. *)
Inductive Payload : Type :=
| ErrorJSON (e : ErrorResponse.t)
| StatusJSON (s : MaintenanceOrderStatus.t).

Record Written : Type := {
  code : Z;
  obj : Payload
}.

(** [GET /maintenance-orders/:id]; [id] is [c.Param("id")] and [ctx] is
    [c.Request.Context()]. *)
Definition GetMaintenanceOrder (h : MaintenanceHandler) (ctx : Context)
  (id : string) : IO Written :=
  let orderID := id in
  if orderID =? "" then
    ret {| code := StatusBadRequest;
           obj := ErrorJSON {| ErrorResponse.Error := "Order ID is required";
                               ErrorResponse.Code := "MISSING_ORDER_ID";
                               ErrorResponse.Details := None |} |}
  else
    fetched <- GetMaintenanceOrderStatus (maintenanceService h) ctx orderID ;;
    match fetched with
    | Err err =>
        if Error err =? "SAP API returned status 404" then
          ret {| code := StatusNotFound;
                 obj := ErrorJSON
                          {| ErrorResponse.Error := "Maintenance order not found";
                             ErrorResponse.Code := "ORDER_NOT_FOUND";
                             ErrorResponse.Details := None |} |}
        else
          ret {| code := StatusInternalServerError;
                 obj := ErrorJSON
                          {| ErrorResponse.Error :=
                               "Failed to retrieve maintenance order";
                             ErrorResponse.Code := "RETRIEVAL_ERROR";
                             ErrorResponse.Details := Some (Error err) |} |}
    | Ok status => ret {| code := StatusOK; obj := StatusJSON status |}
    end.

End Handler.
End handlers.

(* ===================================================================== *)
(** * What the adaptor relies on in strconv *)
(* ===================================================================== *)

(** [strconv.FormatFloat(x, 'f', -1, 64)] is documented to use the
    smallest number of digits necessary for [strconv.ParseFloat] to return
    [x] exactly.  The definitions below say so for a [Runtime]. *)
Module decimal.

Definition isDigit (c : ascii) : bool :=
  (("0" <=? c) && (c <=? "9"))%char.

(** The digits of a string, in order. *)
Fixpoint digits (s : string) : list ascii :=
  match s with
  | EmptyString => []
  | String c rest => if isDigit c then c :: digits rest else digits rest
  end.

Fixpoint dropZeros (ds : list ascii) : list ascii :=
  match ds with
  | [] => []
  | c :: rest => if (c =? "0")%char then dropZeros rest else ds
  end.

(** The number of significant digits of a decimal numeral: its digits
    without the zeros that lead and the zeros that trail. *)
Definition significant (s : string) : nat :=
  length (dropZeros (rev (dropZeros (digits s)))).

Fixpoint unsignedDecimal (seenPoint : bool) (s : string) : bool :=
  match s with
  | EmptyString => true
  | String c rest =>
      if isDigit c then unsignedDecimal seenPoint rest
      else if (c =? ".")%char then negb seenPoint && unsignedDecimal true rest
      else false
  end.

(** A numeral in positional notation: an optional minus sign, then
    digits with at most one point among them, and at least one digit. *)
Definition plainDecimal (s : string) : bool :=
  let body :=
    match s with
    | String c rest => if (c =? "-")%char then rest else s
    | EmptyString => s
    end in
  unsignedDecimal false body && negb (Nat.eqb (length (digits body)) 0).

Section Contract.
Context `{Runtime}.

(** [s] parses back to [x], and no numeral in positional notation that
    parses to [x] has fewer significant digits. *)
Definition shortestRoundTrip (x : float64) (s : string) : Prop :=
  strconv_ParseFloat s = Ok x /\
  forall s' : string,
    plainDecimal s' = true ->
    strconv_ParseFloat s' = Ok x ->
    significant s <= significant s'.

Definition FormatFloat_contract : Prop :=
  forall x : float64, shortestRoundTrip x (strconv_FormatFloat x).

(** [t.Format(time.RFC3339)] is never the empty string. *)
Definition Format_contract : Prop :=
  forall t : Time, time_Format t <> "".

End Contract.
End decimal.

(* ===================================================================== *)
(** * A small runtime, for concrete runs *)
(* ===================================================================== *)

(** Times are nanoseconds since the Unix epoch, shown in UTC; floats are
    the whole numbers; JSON texts are flat objects of string members. *)
Module Ref.
Import models sap services.

Local Open Scope Z_scope.

(** Year, month and day of the day [days] after 1970-01-01. *)
Definition civil (days : Z) : Z * Z * Z :=
  let z := days + 719468 in
  let era := z / 146097 in
  let doe := z - era * 146097 in
  let yoe := (doe - doe / 1460 + doe / 36524 - doe / 146096) / 365 in
  let doy := doe - (365 * yoe + yoe / 4 - yoe / 100) in
  let mp := (5 * doy + 2) / 153 in
  let d := doy - (153 * mp + 2) / 5 + 1 in
  let m := if mp <? 10 then mp + 3 else mp - 9 in
  let y := yoe + era * 400 + (if m <=? 2 then 1 else 0) in
  (y, m, d).

(** The day number of a date. *)
Definition daysFromCivil (y m d : Z) : Z :=
  let y' := if m <=? 2 then y - 1 else y in
  let era := y' / 400 in
  let yoe := y' - era * 400 in
  let doy := (153 * (if 2 <? m then m - 3 else m + 9) + 2) / 5 + d - 1 in
  let doe := yoe * 365 + yoe / 4 - yoe / 100 + doy in
  era * 146097 + doe - 719468.

Definition Format (t : Z) : string :=
  let secs := t / Second in
  let '(y, m, d) := civil (secs / 86400) in
  let rest := secs mod 86400 in
  (fmt_0d 4 y ++ "-" ++ fmt_0d 2 m ++ "-" ++ fmt_0d 2 d ++ "T"
   ++ fmt_0d 2 (rest / 3600) ++ ":" ++ fmt_0d 2 (rest mod 3600 / 60) ++ ":"
   ++ fmt_0d 2 (rest mod 60) ++ "Z")%string.

Definition number (s : string) : Z :=
  match NilZero.uint_of_string s with
  | Some u => Z.of_uint u
  | None => 0
  end.

Definition Parse (s : string) : result Z :=
  let field := fun (from len : nat) => number (substring from len s) in
  let t :=
    (daysFromCivil (field 0%nat 4%nat) (field 5%nat 2%nat) (field 8%nat 2%nat)
     * 86400
     + field 11%nat 2%nat * 3600 + field 14%nat 2%nat * 60
     + field 17%nat 2%nat) * Second in
  if (Format t =? s)%string then Ok t
  else Err (foreignError "time" "parsing time: cannot parse").

Definition ParseFloat (s : string) : result Z :=
  match NilZero.int_of_string s with
  | Some d => Ok (Z.of_int d)
  | None => Err (foreignError "strconv" "strconv.ParseFloat: invalid syntax")
  end.

Fixpoint hasControl (s : string) : bool :=
  match s with
  | EmptyString => false
  | String c rest =>
      (c <? " ")%char || (c =? ascii_of_nat 127)%char || hasControl rest
  end.

Definition NewRequest (method url : string) : option error :=
  if hasControl url
  then Some (foreignError "net/url" "net/url: invalid control character in URL")
  else None.

Definition runtime : Runtime :=
  {| Time := Z;
     time_Unix := fun t => t / Second;
     time_Add := fun t d => t + d;
     time_Format := Format;
     time_Parse := Parse;
     float64 := Z;
     float64_zero := 0;
     strconv_FormatFloat := itoa;
     strconv_ParseFloat := ParseFloat;
     http_NewRequest := NewRequest |}.

Definition quote : string := String (ascii_of_nat 34) EmptyString.

Definition member (kv : string * string) : string :=
  (quote ++ fst kv ++ quote ++ ":" ++ quote ++ snd kv ++ quote)%string.

Definition object (kvs : list (string * string)) : string :=
  ("{" ++ String.concat "," (map member kvs) ++ "}")%string.

(** The envelope [d] that the plant system puts around an entity. *)
Definition envelope (entity : string) : string :=
  ("{" ++ quote ++ "d" ++ quote ++ ":" ++ entity ++ "}")%string.

Definition SAPNotificationRequest_keys (req : SAPNotificationRequest.t)
  : list (string * string) :=
  [("NotificationType", SAPNotificationRequest.NotificationType req);
   ("Description", SAPNotificationRequest.Description req);
   ("Equipment", SAPNotificationRequest.Equipment req)]
  ++ omitempty "FunctionalLocation" (SAPNotificationRequest.FunctionalLocation req)
  ++ [("Plant", SAPNotificationRequest.Plant req)]
  ++ omitempty "Priority" (SAPNotificationRequest.Priority req).

#[local] Unset Elimination Schemes.
(** ** The reader of JSON

    [encoding/json] on a fragment of JSON: objects, arrays, strings and
    [null], with blanks between them; a string holds printable ASCII
    and no escape.  On a text of the fragment the reader decodes as
    [json.Unmarshal] does into the response types: a member is matched
    to the field whose tag it spells, letter case aside; members that
    match no field are skipped; a missing member and [null] leave the
    zero value; a value of the wrong kind is an error.  A text that is
    not JSON is an error.  A text outside the fragment (a number, [true],
    an escape, two members for one field) is refused with an error too,
    so the reader never makes up a value. *)
Inductive Json : Type :=
| JNull
| JString (s : string)
| JArray (items : list Json)
| JObject (members : list (string * Json)).
#[local] Set Elimination Schemes.

Definition isSpace (c : ascii) : bool :=
  let n := nat_of_ascii c in
  (n =? 32)%nat || (n =? 9)%nat || (n =? 10)%nat || (n =? 13)%nat.

Fixpoint skip (s : string) : string :=
  match s with
  | String c rest => if isSpace c then skip rest else s
  | EmptyString => s
  end.

(** The characters of a string literal up to its closing quote, and the
    text after the quote. *)
Fixpoint text (s : string) : option (string * string) :=
  match s with
  | EmptyString => None
  | String c rest =>
      let n := nat_of_ascii c in
      if (n =? 34)%nat then Some (EmptyString, rest)
      else if (n =? 92)%nat || (n <? 32)%nat || (126 <? n)%nat then None
      else match text rest with
           | Some (t, rest') => Some (String c t, rest')
           | None => None
           end
  end.

Fixpoint value (fuel : nat) (s : string) : option (Json * string) :=
  match fuel with
  | O => None
  | S fuel' =>
      match skip s with
      | String c rest =>
          let n := nat_of_ascii c in
          if (n =? 34)%nat then
            match text rest with
            | Some (t, rest') => Some (JString t, rest')
            | None => None
            end
          else if (c =? "{")%char then
            match skip rest with
            | String c' rest' =>
                if (c' =? "}")%char then Some (JObject [], rest')
                else match membersOf fuel' rest with
                     | Some (ms, rest'') => Some (JObject ms, rest'')
                     | None => None
                     end
            | EmptyString => None
            end
          else if (c =? "[")%char then
            match skip rest with
            | String c' rest' =>
                if (c' =? "]")%char then Some (JArray [], rest')
                else match itemsOf fuel' rest with
                     | Some (vs, rest'') => Some (JArray vs, rest'')
                     | None => None
                     end
            | EmptyString => None
            end
          else if HasPrefix (String c rest) "null" then
            Some (JNull, substring 3 (String.length rest - 3)%nat rest)
          else None
      | EmptyString => None
      end
  end
with membersOf (fuel : nat) (s : string)
  : option (list (string * Json) * string) :=
  match fuel with
  | O => None
  | S fuel' =>
      match skip s with
      | String c rest =>
          if (nat_of_ascii c =? 34)%nat then
            match text rest with
            | Some (key, rest1) =>
                match skip rest1 with
                | String c1 rest2 =>
                    if (c1 =? ":")%char then
                      match value fuel' rest2 with
                      | Some (v, rest3) =>
                          match skip rest3 with
                          | String c3 rest4 =>
                              if (c3 =? ",")%char then
                                match membersOf fuel' rest4 with
                                | Some (ms, rest5) => Some ((key, v) :: ms, rest5)
                                | None => None
                                end
                              else if (c3 =? "}")%char then
                                Some ([(key, v)], rest4)
                              else None
                          | EmptyString => None
                          end
                      | None => None
                      end
                    else None
                | EmptyString => None
                end
            | None => None
            end
          else None
      | EmptyString => None
      end
  end
with itemsOf (fuel : nat) (s : string) : option (list Json * string) :=
  match fuel with
  | O => None
  | S fuel' =>
      match value fuel' s with
      | Some (v, rest) =>
          match skip rest with
          | String c rest' =>
              if (c =? ",")%char then
                match itemsOf fuel' rest' with
                | Some (vs, rest'') => Some (v :: vs, rest'')
                | None => None
                end
              else if (c =? "]")%char then Some ([v], rest')
              else None
          | EmptyString => None
          end
      | None => None
      end
  end.

(** The value that a text spells, when it spells one and nothing
    follows it but blanks. *)
Definition parse (body : string) : option Json :=
  match value (2 + String.length body)%nat body with
  | Some (v, rest) =>
      match skip rest with
      | EmptyString => Some v
      | String _ _ => None
      end
  | None => None
  end.

Definition lower (c : ascii) : ascii :=
  let n := nat_of_ascii c in
  if (65 <=? n)%nat && (n <=? 90)%nat then ascii_of_nat (n + 32)%nat else c.

Fixpoint foldName (s : string) : string :=
  match s with
  | EmptyString => EmptyString
  | String c rest => String (lower c) (foldName rest)
  end.

(** The values of the members that are matched to the field tagged
    [field]. *)
Definition named (field : string) (ms : list (string * Json)) : list Json :=
  map snd (filter (fun kv => (foldName (fst kv) =? foldName field)%string) ms).

Definition syntaxError : error :=
  foreignError "encoding/json" "invalid character looking for beginning of value".

Definition typeError : error :=
  foreignError "encoding/json" "json: cannot unmarshal value into Go struct field".

Definition andThen {A B : Type} (r : result A) (k : A -> result B) : result B :=
  match r with
  | Ok a => k a
  | Err err => Err err
  end.

Definition stringField (field : string) (ms : list (string * Json))
  : result string :=
  match named field ms with
  | [] => Ok EmptyString
  | [JNull] => Ok EmptyString
  | [JString s] => Ok s
  | _ => Err typeError
  end.

Definition structField {A : Type} (field : string) (ms : list (string * Json))
  (zero : A) (decode : list (string * Json) -> result A) : result A :=
  match named field ms with
  | [] => Ok zero
  | [JNull] => Ok zero
  | [JObject inner] => decode inner
  | _ => Err typeError
  end.

Fixpoint each {A : Type} (decode : Json -> result A) (items : list Json)
  : result (list A) :=
  match items with
  | [] => Ok []
  | v :: rest =>
      andThen (decode v) (fun a =>
      andThen (each decode rest) (fun others => Ok (a :: others)))
  end.

Definition sliceField {A : Type} (field : string) (ms : list (string * Json))
  (zero : A) (decode : list (string * Json) -> result A) : result (list A) :=
  match named field ms with
  | [] => Ok []
  | [JNull] => Ok []
  | [JArray items] =>
      each (fun v => match v with
                     | JNull => Ok zero
                     | JObject inner => decode inner
                     | _ => Err typeError
                     end) items
  | _ => Err typeError
  end.

Definition zeroMetadata : Metadata.t :=
  {| Metadata.ID := ""; Metadata.URI := ""; Metadata.Type_ := "" |}.

Definition decodeMetadata (ms : list (string * Json)) : result Metadata.t :=
  andThen (stringField "id" ms) (fun id =>
  andThen (stringField "uri" ms) (fun uri =>
  andThen (stringField "type" ms) (fun type =>
  Ok {| Metadata.ID := id; Metadata.URI := uri; Metadata.Type_ := type |}))).

Definition zeroOperation : SAPOrderOperationResponse.t :=
  {| SAPOrderOperationResponse.MaintenanceOrder := "";
     SAPOrderOperationResponse.MaintenanceOrderOperation := "";
     SAPOrderOperationResponse.OperationText := "";
     SAPOrderOperationResponse.WorkCenter := "";
     SAPOrderOperationResponse.OperationControlKey := "";
     SAPOrderOperationResponse.OperationStandardDuration := "";
     SAPOrderOperationResponse.OperationDurationUnit := "";
     SAPOrderOperationResponse.OperationStatus := "";
     SAPOrderOperationResponse.ActualWorkQuantity := "";
     SAPOrderOperationResponse.WorkQuantityUnit := "";
     SAPOrderOperationResponse.Metadata := zeroMetadata |}.

Definition decodeOperation (ms : list (string * Json))
  : result SAPOrderOperationResponse.t :=
  andThen (stringField "MaintenanceOrder" ms) (fun order =>
  andThen (stringField "MaintenanceOrderOperation" ms) (fun operation =>
  andThen (stringField "OperationText" ms) (fun text =>
  andThen (stringField "WorkCenter" ms) (fun workCenter =>
  andThen (stringField "OperationControlKey" ms) (fun controlKey =>
  andThen (stringField "OperationStandardDuration" ms) (fun duration =>
  andThen (stringField "OperationDurationUnit" ms) (fun unit =>
  andThen (stringField "OperationStatus" ms) (fun status =>
  andThen (stringField "ActualWorkQuantity" ms) (fun quantity =>
  andThen (stringField "WorkQuantityUnit" ms) (fun quantityUnit =>
  andThen (structField "__metadata" ms zeroMetadata decodeMetadata)
    (fun metadata =>
  Ok {| SAPOrderOperationResponse.MaintenanceOrder := order;
        SAPOrderOperationResponse.MaintenanceOrderOperation := operation;
        SAPOrderOperationResponse.OperationText := text;
        SAPOrderOperationResponse.WorkCenter := workCenter;
        SAPOrderOperationResponse.OperationControlKey := controlKey;
        SAPOrderOperationResponse.OperationStandardDuration := duration;
        SAPOrderOperationResponse.OperationDurationUnit := unit;
        SAPOrderOperationResponse.OperationStatus := status;
        SAPOrderOperationResponse.ActualWorkQuantity := quantity;
        SAPOrderOperationResponse.WorkQuantityUnit := quantityUnit;
        SAPOrderOperationResponse.Metadata := metadata |}))))))))))).

(** The struct [ToMaintenanceOrderOperation], which has the one field
    [Results]. *)
Definition decodeResults (ms : list (string * Json))
  : result (list SAPOrderOperationResponse.t) :=
  sliceField "results" ms zeroOperation decodeOperation.

Definition zeroOrder : SAPOrderResponse.D_t :=
  {| SAPOrderResponse.MaintenanceOrder := "";
     SAPOrderResponse.MaintenanceOrderType := "";
     SAPOrderResponse.Description := "";
     SAPOrderResponse.Equipment := "";
     SAPOrderResponse.Plant := "";
     SAPOrderResponse.OrderStatus := "";
     SAPOrderResponse.MaintOrdBasicStartDateTime := "";
     SAPOrderResponse.MaintOrdBasicEndDateTime := "";
     SAPOrderResponse.MaintenanceNotification := "";
     SAPOrderResponse.Metadata := zeroMetadata;
     SAPOrderResponse.Results := [] |}.

Definition decodeOrder (ms : list (string * Json))
  : result SAPOrderResponse.D_t :=
  andThen (stringField "MaintenanceOrder" ms) (fun order =>
  andThen (stringField "MaintenanceOrderType" ms) (fun type =>
  andThen (stringField "Description" ms) (fun description =>
  andThen (stringField "Equipment" ms) (fun equipment =>
  andThen (stringField "Plant" ms) (fun plant =>
  andThen (stringField "OrderStatus" ms) (fun status =>
  andThen (stringField "MaintOrdBasicStartDateTime" ms) (fun start =>
  andThen (stringField "MaintOrdBasicEndDateTime" ms) (fun finish =>
  andThen (stringField "MaintenanceNotification" ms) (fun notification =>
  andThen (structField "__metadata" ms zeroMetadata decodeMetadata)
    (fun metadata =>
  andThen (structField "to_MaintenanceOrderOperation" ms [] decodeResults)
    (fun results =>
  Ok {| SAPOrderResponse.MaintenanceOrder := order;
        SAPOrderResponse.MaintenanceOrderType := type;
        SAPOrderResponse.Description := description;
        SAPOrderResponse.Equipment := equipment;
        SAPOrderResponse.Plant := plant;
        SAPOrderResponse.OrderStatus := status;
        SAPOrderResponse.MaintOrdBasicStartDateTime := start;
        SAPOrderResponse.MaintOrdBasicEndDateTime := finish;
        SAPOrderResponse.MaintenanceNotification := notification;
        SAPOrderResponse.Metadata := metadata;
        SAPOrderResponse.Results := results |}))))))))))).

Definition zeroNotification : SAPNotificationResponse.D_t :=
  {| SAPNotificationResponse.Notification := "";
     SAPNotificationResponse.Description := "";
     SAPNotificationResponse.Plant := "" |}.

Definition decodeNotification (ms : list (string * Json))
  : result SAPNotificationResponse.D_t :=
  andThen (stringField "Notification" ms) (fun notification =>
  andThen (stringField "Description" ms) (fun description =>
  andThen (stringField "Plant" ms) (fun plant =>
  Ok {| SAPNotificationResponse.Notification := notification;
        SAPNotificationResponse.Description := description;
        SAPNotificationResponse.Plant := plant |}))).

(** [json.Unmarshal] into a struct whose one field [D] is tagged [d]. *)
Definition enveloped {A B : Type} (zero : A)
  (decode : list (string * Json) -> result A) (wrap : A -> B) (body : string)
  : result B :=
  match parse body with
  | None => Err syntaxError
  | Some JNull => Ok (wrap zero)
  | Some (JObject ms) => andThen (structField "d" ms zero decode)
                           (fun d => Ok (wrap d))
  | Some _ => Err typeError
  end.

Definition Unmarshal_SAPNotificationResponse
  : string -> result SAPNotificationResponse.t :=
  enveloped zeroNotification decodeNotification
    (fun d => {| SAPNotificationResponse.D := d |}).

Definition Unmarshal_SAPOrderResponse : string -> result SAPOrderResponse.t :=
  enveloped zeroOrder decodeOrder (fun d => {| SAPOrderResponse.D := d |}).

Definition json : JSON :=
  {| Marshal_SAPNotificationRequest :=
       fun req => Ok (object (SAPNotificationRequest_keys req));
     Marshal_SAPOrderRequest :=
       fun req => Ok (object (@SAPOrderRequest_keys req));
     sap.Unmarshal_SAPNotificationResponse := Unmarshal_SAPNotificationResponse;
     sap.Unmarshal_SAPOrderResponse := Unmarshal_SAPOrderResponse |}.

#[local] Existing Instance runtime.
#[local] Existing Instance json.

(** The clock: 2025-08-21T08:00:00Z, one second later at each reading. *)
Definition clock (k : nat) : Time := (1755763200 + Z.of_nat k) * Second.

Definition refused : error :=
  foreignError "net/http" "dial tcp: connect: connection refused".

(** A plant system that answers the [k]-th request with the [k]-th of
    [replies], and cannot be reached once they are used up. *)
Definition scripted (replies : list Reply)
  : Context -> list Request -> Request -> Reply :=
  fun _ before _ => nth (length before) replies (DoFailed refused).

Definition world (replies : list Reply) : World :=
  {| now := clock; clock_reads := 0; plant := scripted replies;
     sent := []; calls := [] |}.

Definition simulated : config.SAPConfig :=
  {| config.BaseURL := ""; config.Username := ""; config.Password := "";
     config.ClientID := ""; config.ClientSecret := ""; config.TokenURL := "";
     config.Timeout := 30; config.SimulatorMode := true |}.

Definition live : config.SAPConfig :=
  {| config.BaseURL := "http://sap.example"; config.Username := "";
     config.Password := ""; config.ClientID := ""; config.ClientSecret := "";
     config.TokenURL := ""; config.Timeout := 30;
     config.SimulatorMode := false |}.

Definition service (cfg : config.SAPConfig) : MaintenanceService :=
  NewMaintenanceService (NewClient cfg).

(** The request of the test script of the repository, with one
    operation. *)
Definition pumpSeal : MaintenanceOrderEvent.t :=
  {| MaintenanceOrderEvent.EquipmentID := "10000045";
     MaintenanceOrderEvent.FunctionalLocation := "FL100-200-300";
     MaintenanceOrderEvent.Plant := "1000";
     MaintenanceOrderEvent.Description := "Replace pump seal due to leakage";
     MaintenanceOrderEvent.Priority := "3";
     MaintenanceOrderEvent.MaintenanceOrderType := "PM01";
     MaintenanceOrderEvent.PlannedStartTime := Some (1755763200 * Second);
     MaintenanceOrderEvent.PlannedEndTime := None;
     MaintenanceOrderEvent.Operations :=
       [ {| MaintenanceOperation.Text := "Disassemble pump";
            MaintenanceOperation.WorkCenter := "PUMP-WC01";
            MaintenanceOperation.Duration := 4;
            MaintenanceOperation.DurationUnit := "H" |} ] |}.

(** The body of an order as the plant system would send it. *)
Definition orderBody (orderID status : string) : string :=
  envelope (object [("MaintenanceOrder", orderID); ("OrderStatus", status);
                    ("Plant", "1000")]).

(** What the adaptor makes of [orderBody orderID status]. *)
Definition view (orderID status : string) : MaintenanceOrderStatus.t :=
  {| MaintenanceOrderStatus.OrderID := orderID;
     MaintenanceOrderStatus.Status := status;
     MaintenanceOrderStatus.Description := "";
     MaintenanceOrderStatus.EquipmentID := "";
     MaintenanceOrderStatus.Plant := "1000";
     MaintenanceOrderStatus.NotificationID := "";
     MaintenanceOrderStatus.ActualStartTime := None;
     MaintenanceOrderStatus.ActualEndTime := None;
     MaintenanceOrderStatus.Operations := [] |}.

(** A plant system that cannot be reached, then reports the order
    released, then technically completed. *)
Definition threePolls : list Reply :=
  [DoFailed refused;
   Response StatusOK (orderBody "4711" "REL");
   Response StatusOK (orderBody "4711" "TECO")].

(** The digits of a numeral from its first digit that is not zero. *)
Definition lead (u : Decimal.uint) : list ascii :=
  decimal.dropZeros (decimal.digits (NilEmpty.string_of_uint u)).

(** A callback that succeeds, and one that fails. *)
Definition accept (_ : MaintenanceOrderStatus.t) : option error := None.

Definition reject (_ : MaintenanceOrderStatus.t) : option error :=
  Some (errorString "digital twin unreachable").

End Ref.

(* ===================================================================== *)
(** * The maintenance-done path *)
(* ===================================================================== *)

(** [MaintenanceDoneEvent] and [SuccessResponse] of models.go, and
    [HandleMaintenanceDoneEvent] of services/maintenance.go. *)
Module completion.
Import models sap services.

Module MaintenanceDoneEvent.
Section Def.
Context `{Runtime}.
Record t : Type := {
  OrderID : string;
  Status : string;
  CompletedAt : option Time;
  ActualWorkHours : float64;
  Notes : string
}.
End Def.
End MaintenanceDoneEvent.

Module SuccessResponse.
Record t : Type := {
  Success : bool;
  Message : string
}.
End SuccessResponse.

Section Service.
Context `{Runtime} `{JSON}.

(** The order is read to see that it exists; what is read is used in a
    log line only.  The result is the [error] of the Go function, [None]
    for [nil]. *)
Definition HandleMaintenanceDoneEvent (s : MaintenanceService) (ctx : Context)
  (event : MaintenanceDoneEvent.t) : IO (option error) :=
  verified <- GetMaintenanceOrderStatus s ctx (MaintenanceDoneEvent.OrderID event) ;;
  match verified with
  | Err err => ret (Some (Errorf_w "failed to verify order: " err))
  | Ok orderStatus => ret None
  end.

End Service.
End completion.

(* ===================================================================== *)
(** * The other handlers of internal/handlers/maintenance.go *)
(* ===================================================================== *)

Module api.
Import models sap services handlers completion.

(** What the handlers use of gin and of the validator without looking
    inside: [c.ShouldBindJSON] at the two request types, applied to the
    body of the request, and [h.validator.Struct] at the same types, with
    [None] for [nil]. *)
Class Gin `{Runtime} : Type := {
  ShouldBindJSON_MaintenanceOrderEvent : string -> result MaintenanceOrderEvent.t;
  ShouldBindJSON_MaintenanceDoneEvent : string -> result MaintenanceDoneEvent.t;
  validator_Struct_MaintenanceOrderEvent : MaintenanceOrderEvent.t -> option error;
  validator_Struct_MaintenanceDoneEvent : MaintenanceDoneEvent.t -> option error
}.

Section Handlers.
Context `{Runtime} `{JSON} `{!Gin}.

(** What [c.JSON(code, obj)] writes, for the handlers of this module. *)
Inductive Body : Type :=
| ErrorBody (e : ErrorResponse.t)
| OrderBody (r : MaintenanceOrderResponse.t)
| SuccessBody (r : SuccessResponse.t).

Record Answer : Type := {
  status : Z;
  body : Body
}.

Definition badRequest (message code : string) (err : error) : Answer :=
  {| status := StatusBadRequest;
     body := ErrorBody {| ErrorResponse.Error := message;
                          ErrorResponse.Code := code;
                          ErrorResponse.Details := Some (Error err) |} |}.

(** [POST /maintenance-orders]; [request] is the body of the request and
    [ctx] is [c.Request.Context()]. *)
Definition CreateMaintenanceOrder (h : MaintenanceHandler) (ctx : Context)
  (request : string) : IO Answer :=
  match ShouldBindJSON_MaintenanceOrderEvent request with
  | Err err => ret (badRequest "Invalid request format" "INVALID_REQUEST" err)
  | Ok event =>
      match validator_Struct_MaintenanceOrderEvent event with
      | Some err => ret (badRequest "Validation failed" "VALIDATION_ERROR" err)
      | None =>
          processed <-
            ProcessMaintenanceOrderEvent (maintenanceService h) ctx event ;;
          match processed with
          | Err err =>
              ret {| status := StatusInternalServerError;
                     body := ErrorBody
                               {| ErrorResponse.Error :=
                                    "Failed to create maintenance order";
                                  ErrorResponse.Code := "PROCESSING_ERROR";
                                  ErrorResponse.Details := Some (Error err) |} |}
          | Ok response =>
              ret {| status := StatusCreated; body := OrderBody response |}
          end
      end
  end.

(** [POST /maintenance-done]. *)
Definition HandleMaintenanceDone (h : MaintenanceHandler) (ctx : Context)
  (request : string) : IO Answer :=
  match ShouldBindJSON_MaintenanceDoneEvent request with
  | Err err => ret (badRequest "Invalid request format" "INVALID_REQUEST" err)
  | Ok event =>
      match validator_Struct_MaintenanceDoneEvent event with
      | Some err => ret (badRequest "Validation failed" "VALIDATION_ERROR" err)
      | None =>
          handled <-
            HandleMaintenanceDoneEvent (maintenanceService h) ctx event ;;
          match handled with
          | Some err =>
              ret {| status := StatusInternalServerError;
                     body := ErrorBody
                               {| ErrorResponse.Error :=
                                    "Failed to process maintenance done event";
                                  ErrorResponse.Code := "PROCESSING_ERROR";
                                  ErrorResponse.Details := Some (Error err) |} |}
          | None =>
              ret {| status := StatusOK;
                     body := SuccessBody
                               {| SuccessResponse.Success := true;
                                  SuccessResponse.Message :=
                                    "Maintenance done event processed successfully"
                               |} |}
          end
      end
  end.

(** The tag [validate:"required"] on the fields [EquipmentID], [Plant]
    and [Description] of [MaintenanceOrderEvent]: the validator refuses an
    event in which one of them is the empty string. *)
Definition required_enforced : Prop :=
  forall event : MaintenanceOrderEvent.t,
    MaintenanceOrderEvent.EquipmentID event = ""
    \/ MaintenanceOrderEvent.Plant event = ""
    \/ MaintenanceOrderEvent.Description event = "" ->
    exists err, validator_Struct_MaintenanceOrderEvent event = Some err.

End Handlers.
End api.

(** gin and the validator of the small runtime: a request is a line
    [equipment|plant|description] (an order event) or [order|status] (a
    done event); the three fields of the first and the two of the second
    are required. *)
Module RefApi.
Import models sap services handlers completion api.

#[local] Existing Instance Ref.runtime.
#[local] Existing Instance Ref.json.

(** The text before the first bar and the text after it. *)
Fixpoint cut (s : string) : string * option string :=
  match s with
  | EmptyString => (EmptyString, None)
  | String c rest =>
      if (c =? "|")%char then (EmptyString, Some rest)
      else let (a, b) := cut rest in (String c a, b)
  end.

Definition malformed : error :=
  foreignError "encoding/json" "unexpected end of JSON input".

Definition bindOrder (request : string) : result MaintenanceOrderEvent.t :=
  match cut request with
  | (equipment, Some rest) =>
      match cut rest with
      | (plant, Some description) =>
          Ok {| MaintenanceOrderEvent.EquipmentID := equipment;
                MaintenanceOrderEvent.FunctionalLocation := "";
                MaintenanceOrderEvent.Plant := plant;
                MaintenanceOrderEvent.Description := description;
                MaintenanceOrderEvent.Priority := "";
                MaintenanceOrderEvent.MaintenanceOrderType := "";
                MaintenanceOrderEvent.PlannedStartTime := None;
                MaintenanceOrderEvent.PlannedEndTime := None;
                MaintenanceOrderEvent.Operations := [] |}
      | _ => Err malformed
      end
  | _ => Err malformed
  end.

Definition bindDone (request : string) : result MaintenanceDoneEvent.t :=
  match cut request with
  | (order, Some status) =>
      Ok {| MaintenanceDoneEvent.OrderID := order;
            MaintenanceDoneEvent.Status := status;
            MaintenanceDoneEvent.CompletedAt := None;
            MaintenanceDoneEvent.ActualWorkHours := 0%Z;
            MaintenanceDoneEvent.Notes := "" |}
  | _ => Err malformed
  end.

Definition missing (field : string) : error :=
  foreignError "validator"
    ("Field validation for '" ++ field ++ "' failed on the 'required' tag").

Definition validateOrder (event : MaintenanceOrderEvent.t) : option error :=
  if MaintenanceOrderEvent.EquipmentID event =? "" then Some (missing "EquipmentID")
  else if MaintenanceOrderEvent.Plant event =? "" then Some (missing "Plant")
  else if MaintenanceOrderEvent.Description event =? ""
  then Some (missing "Description")
  else None.

Definition validateDone (event : MaintenanceDoneEvent.t) : option error :=
  if MaintenanceDoneEvent.OrderID event =? "" then Some (missing "OrderID")
  else if MaintenanceDoneEvent.Status event =? "" then Some (missing "Status")
  else None.

Definition gin : Gin :=
  {| ShouldBindJSON_MaintenanceOrderEvent := bindOrder;
     ShouldBindJSON_MaintenanceDoneEvent := bindDone;
     validator_Struct_MaintenanceOrderEvent := validateOrder;
     validator_Struct_MaintenanceDoneEvent := validateDone |}.

Definition handler (cfg : config.SAPConfig) : MaintenanceHandler :=
  {| maintenanceService := Ref.service cfg |}.

End RefApi.

(* ===================================================================== *)
(** * The vocabulary of the properties *)
(* ===================================================================== *)

Import models sap services handlers decimal.

(** The operations invoked on the client between two worlds. *)
Definition issued `{Runtime} (before after : World) : list Call :=
  skipn (length (calls before)) (calls after).

(** The result is an error. *)
Definition failed {A : Type} (r : result A) : Prop :=
  match r with
  | Err _ => True
  | Ok _ => False
  end.

(** The step of a submission that a returned error names, read off the
    start of its message. *)
Inductive Step : Type :=
| CreatingNotification
| CreatingOrder
| VerifyingOrder.

Definition stepOf (err : error) : option Step :=
  if HasPrefix (Error err) "failed to create SAP notification: "
  then Some CreatingNotification
  else if HasPrefix (Error err) "failed to create SAP order: "
  then Some CreatingOrder
  else if HasPrefix (Error err) "failed to verify order creation: "
  then Some VerifyingOrder
  else None.

Section Polling.
Context `{Runtime} `{JSON}.

(** The world before fetch number [j] of a monitor whose context stays
    as [ctx], fetches counted from 0, and the result of that fetch. *)
Fixpoint worldBefore (s : MaintenanceService) (ctx : Context)
  (orderID : string) (w : World) (j : nat) : World :=
  match j with
  | O => w
  | S j' =>
      snd (GetMaintenanceOrderStatus s ctx orderID
             (worldBefore s ctx orderID w j'))
  end.

Definition fetch (s : MaintenanceService) (ctx : Context) (orderID : string)
  (w : World) (j : nat) : result MaintenanceOrderStatus.t :=
  fst (GetMaintenanceOrderStatus s ctx orderID (worldBefore s ctx orderID w j)).

(** A fetch that leaves the monitor polling: it failed, or it brought a
    status that is not terminal. *)
Definition pending (r : result MaintenanceOrderStatus.t) : Prop :=
  match r with
  | Err _ => True
  | Ok status => isCompleted status = false
  end.

(** The fetches that return in a sequence of events. *)
Fixpoint fetches (es : list Event) : nat :=
  match es with
  | [] => O
  | FetchReturns :: rest => S (fetches rest)
  | _ :: rest => fetches rest
  end.

(** [k] rounds of the loop: the period passes, the tick is received,
    the fetch returns. *)
Fixpoint rounds (k : nat) : list Event :=
  match k with
  | O => []
  | S k' => Elapse interval :: ReceiveTick :: FetchReturns :: rounds k'
  end.

(** The state of a monitor whose context is live and that has seen [j]
    fetches, none of them terminal. *)
Definition polling (s : MaintenanceService) (orderID : string) (w : World)
  (j : nat) (m : Monitor) : Prop :=
  ctx m = None /\ (forall r, point m <> Returned r) /\ handled m = []
  /\ world m = worldBefore s None orderID w j.

(** The state of a monitor after fetch [n + 1] has brought the terminal
    status [status] and the callback [f] has been called. *)
Definition finished (s : MaintenanceService) (orderID : string)
  (f : MaintenanceOrderStatus.t -> option error) (w : World) (n : nat)
  (status : MaintenanceOrderStatus.t) (m : Monitor) : Prop :=
  handled m = [status] /\ point m = Returned (f status)
  /\ world m = worldBefore s None orderID w (S n).

End Polling.

(** The starts of the messages of the errors that an operation of the
    client makes. *)
Definition clientPrefixes : list string :=
  ["failed to marshal request: "; "failed to create request: ";
   "failed to send request: "; "failed to read response: ";
   "SAP API returned status "; "failed to parse response: "].

Definition clientError (err : error) : bool :=
  existsb (HasPrefix (Error err)) clientPrefixes.

(** A text of three digits. *)
Definition threeDigits (s : string) : bool :=
  match s with
  | String a (String b (String c EmptyString)) =>
      isDigit a && isDigit b && isDigit c
  | _ => false
  end.

(** The request that an operation of a live client sends, when it can be
    built. *)
Definition outgoing `{Runtime} (method url body : string)
  (headers : list (string * string)) : list Request :=
  match http_NewRequest method url with
  | Some _ => []
  | None =>
      [{| Method := method; URL := url; Header := headers; Body := body |}]
  end.

(** What one operation adds to the requests sent: nothing, or one
    request of its method; nothing on the simulator, and one request when
    a live operation succeeds. *)
Definition adds (method : string) (simulated : bool) (ok : bool)
  (before after : list Request) : Prop :=
  exists rs : list Request,
    after = (before ++ rs)%list
    /\ (rs = [] \/ exists r, rs = [r] /\ Method r = method)
    /\ (simulated = true -> rs = [])
    /\ (simulated = false -> ok = true -> exists r, rs = [r]).

Definition succeeded {A : Type} (r : result A) : bool :=
  match r with
  | Ok _ => true
  | Err _ => false
  end.

(** The ticks a monitor holds and has not yet turned into a read of the
    order: one while a fetch is under way, one while a tick waits in the
    channel of the ticker. *)
Definition owed `{Runtime} (m : Monitor) : N :=
  (match point m with
   | InFetch => 1
   | _ => 0
   end + N.b2n (tickerC m))%N.

(** How a call of [MonitorOrderStatus] stands: in its loop, or returned
    by one of its three [return] statements. *)
Inductive Outcome `{Runtime}
  (callback : option (MaintenanceOrderStatus.t -> option error))
  (m : Monitor) : Prop :=
| Looping :
    (forall r, point m <> Returned r) -> handled m = [] ->
    Outcome callback m
| ContextEnded (err : error) :
    ctx m = Some err -> point m = Returned (Some err) -> handled m = [] ->
    Outcome callback m
| CallbackCalled (f : MaintenanceOrderStatus.t -> option error)
    (status : MaintenanceOrderStatus.t) :
    callback = Some f -> isCompleted status = true ->
    handled m = [status] -> point m = Returned (f status) ->
    Outcome callback m
| NoCallback :
    callback = None -> point m = Returned None -> handled m = [] ->
    Outcome callback m.

(* ===================================================================== *)
(** * Properties *)
(* ===================================================================== *)

Section Frames.
Context `{Runtime} `{JSON}.

Lemma issued_app (w w' : World) (cs : list Call) :
  calls w' = (calls w ++ cs)%list -> issued w w' = cs.
Proof.
  intros E. unfold issued. rewrite E.
  rewrite skipn_app, skipn_all, Nat.sub_diag. reflexivity.
Qed.

Lemma time_Now_calls (w : World) : calls (snd (time_Now w)) = calls w.
Proof. reflexivity. Qed.

Lemma time_Now_sent (w : World) : sent (snd (time_Now w)) = sent w.
Proof. reflexivity. Qed.

Lemma roundTrip_calls {A : Type} (ctx : Context) (method url body : string)
  (headers : list (string * string)) (want : Z) (parse : string -> result A)
  (w : World) :
  calls (snd (roundTrip ctx method url body headers want parse w)) = calls w.
Proof.
  unfold roundTrip, bind, ret, httpClient_Do.
  destruct (http_NewRequest method url); [reflexivity|].
  destruct (plant w ctx (sent w) _) as [e|e|status respBody]; try reflexivity.
  destruct (negb (status =? want)%Z); [reflexivity|].
  destruct (parse respBody); reflexivity.
Qed.

Lemma CreateNotification_calls (c : Client) (ctx : Context)
  (req : SAPNotificationRequest.t) (w : World) :
  calls (snd (CreateNotification c ctx req w))
  = (calls w ++ [CallCreateNotification req])%list.
Proof.
  unfold CreateNotification, bind, enter.
  destruct (simulatorMode c); [reflexivity|].
  destruct (Marshal_SAPNotificationRequest req); [|reflexivity].
  rewrite roundTrip_calls. reflexivity.
Qed.

Lemma CreateOrder_calls (c : Client) (ctx : Context)
  (req : SAPOrderRequest.t) (w : World) :
  calls (snd (CreateOrder c ctx req w)) = (calls w ++ [CallCreateOrder req])%list.
Proof.
  unfold CreateOrder, bind, enter.
  destruct (simulatorMode c); [reflexivity|].
  destruct (Marshal_SAPOrderRequest req); [|reflexivity].
  rewrite roundTrip_calls. reflexivity.
Qed.

Lemma GetOrder_calls (c : Client) (ctx : Context) (orderID : string)
  (w : World) :
  calls (snd (GetOrder c ctx orderID w)) = (calls w ++ [CallGetOrder orderID])%list.
Proof.
  unfold GetOrder, bind, enter.
  destruct (simulatorMode c); [reflexivity|].
  rewrite roundTrip_calls. reflexivity.
Qed.

(** An error is never its own cause. *)
Lemma wrapError_fresh (prefix : string) (cause : error) :
  Errorf_w prefix cause <> cause.
Proof.
  unfold Errorf_w. generalize (prefix ++ Error cause). intros msg E.
  revert msg E. induction cause; intros msg' E; try discriminate E.
  injection E as _ E. apply (IHcause _ E).
Qed.

End Frames.

Section Submission.
Context `{Runtime} `{JSON}.

(** C1.  Whatever the client answers, [ProcessMaintenanceOrderEvent]
    invokes it in the order create-notification, create-order, get-order
    and stops at the first failure: one call when the notification fails,
    two when the order fails, three otherwise.  The order request carries
    the notification id that the first call returned, and the third call
    reads the order id that the second call returned.  When the order read
    back has another id than the one created, the result is the
    verification error and no call follows the three; when the ids agree
    the result is the response with the status read back. *)
Theorem C1_calls_in_order :
  forall (s : MaintenanceService) (ctx : Context)
         (event : MaintenanceOrderEvent.t) (w : World),
    let c := sapClient s in
    let notificationReq :=
      sap.ConvertMaintenanceOrderEventToNotificationRequest event in
    let outcome := ProcessMaintenanceOrderEvent s ctx event w in
    match CreateNotification c ctx notificationReq w with
    | (Err _, _) =>
        issued w (snd outcome) = [CallCreateNotification notificationReq]
        /\ failed (fst outcome)
    | (Ok notificationResp, w1) =>
        let notificationID :=
          SAPNotificationResponse.Notification
            (SAPNotificationResponse.D notificationResp) in
        let orderReq :=
          sap.ConvertMaintenanceOrderEventToOrderRequest event notificationID in
        SAPOrderRequest.MaintenanceNotification orderReq = notificationID /\
        match CreateOrder c ctx orderReq w1 with
        | (Err _, _) =>
            issued w (snd outcome)
            = [CallCreateNotification notificationReq; CallCreateOrder orderReq]
            /\ failed (fst outcome)
        | (Ok orderResp, w2) =>
            let orderID :=
              SAPOrderResponse.MaintenanceOrder (SAPOrderResponse.D orderResp) in
            issued w (snd outcome)
            = [CallCreateNotification notificationReq; CallCreateOrder orderReq;
               CallGetOrder orderID] /\
            match GetOrder c ctx orderID w2 with
            | (Err _, _) => failed (fst outcome)
            | (Ok verifyResp, _) =>
                let got :=
                  SAPOrderResponse.MaintenanceOrder
                    (SAPOrderResponse.D verifyResp) in
                if got =? orderID then
                  exists createdAt : Time,
                    fst outcome
                    = Ok {| MaintenanceOrderResponse.OrderID := orderID;
                            MaintenanceOrderResponse.NotificationID :=
                              notificationID;
                            MaintenanceOrderResponse.Status :=
                              SAPOrderResponse.OrderStatus
                                (SAPOrderResponse.D verifyResp);
                            MaintenanceOrderResponse.Message :=
                              "Maintenance order created successfully";
                            MaintenanceOrderResponse.CreatedAt := createdAt |}
                else
                  fst outcome
                  = Err (errorString
                           ("order verification failed: expected " ++ orderID
                            ++ ", got " ++ got))
            end
        end
    end.
Proof.
  intros s ctx event w c notificationReq outcome.
  subst outcome. unfold ProcessMaintenanceOrderEvent, bind, ret.
  fold c. fold notificationReq.
  pose proof (CreateNotification_calls c ctx notificationReq w) as E1.
  destruct (CreateNotification c ctx notificationReq w) as [[notificationResp|e1] w1];
    cbn [fst snd] in *.
  2:{ split; [apply issued_app; exact E1 | exact I]. }
  split; [reflexivity|].
  set (notificationID :=
         SAPNotificationResponse.Notification
           (SAPNotificationResponse.D notificationResp)).
  set (orderReq :=
         sap.ConvertMaintenanceOrderEventToOrderRequest event notificationID).
  pose proof (CreateOrder_calls c ctx orderReq w1) as E2.
  destruct (CreateOrder c ctx orderReq w1) as [[orderResp|e2] w2];
    cbn [fst snd] in *.
  2:{ split; [|exact I]. apply issued_app. rewrite E2, E1, <- app_assoc.
      reflexivity. }
  set (orderID :=
         SAPOrderResponse.MaintenanceOrder (SAPOrderResponse.D orderResp)).
  pose proof (GetOrder_calls c ctx orderID w2) as E3.
  destruct (GetOrder c ctx orderID w2) as [[verifyResp|e3] w3];
    cbn [fst snd] in *.
  2:{ split; [|exact I]. apply issued_app. rewrite E3, E2, E1, <- !app_assoc.
      reflexivity. }
  destruct (SAPOrderResponse.MaintenanceOrder (SAPOrderResponse.D verifyResp)
            =? orderID) eqn:Same; cbn [negb fst snd].
  - split.
    + apply issued_app. cbn [time_Now snd calls].
      rewrite E3, E2, E1, <- !app_assoc. reflexivity.
    + eexists. reflexivity.
  - split; [|reflexivity].
    apply issued_app. rewrite E3, E2, E1, <- !app_assoc. reflexivity.
Qed.

(** C7, as the code has it.  A failure of a step is returned wrapped,
    not as it is: the error returned holds the step's error as its cause
    ([errors.Unwrap] gives it back) under a message made of a prefix that
    belongs to the step and the message of the step's error.  The prefix
    tells the caller which step failed, whatever the step's error says. *)
Theorem C7_step_errors_are_wrapped :
  forall (s : MaintenanceService) (ctx : Context)
         (event : MaintenanceOrderEvent.t) (w : World),
    let c := sapClient s in
    let notificationReq :=
      sap.ConvertMaintenanceOrderEventToNotificationRequest event in
    let outcome := ProcessMaintenanceOrderEvent s ctx event w in
    let returns (prefix : string) (step : Step) (cause : error) :=
      exists err : error,
        fst outcome = Err err
        /\ err <> cause
        /\ Unwrap err = Some cause
        /\ Error err = prefix ++ Error cause
        /\ stepOf err = Some step in
    match CreateNotification c ctx notificationReq w with
    | (Err cause, _) =>
        returns "failed to create SAP notification: " CreatingNotification cause
    | (Ok notificationResp, w1) =>
        let orderReq :=
          sap.ConvertMaintenanceOrderEventToOrderRequest event
            (SAPNotificationResponse.Notification
               (SAPNotificationResponse.D notificationResp)) in
        match CreateOrder c ctx orderReq w1 with
        | (Err cause, _) =>
            returns "failed to create SAP order: " CreatingOrder cause
        | (Ok orderResp, w2) =>
            let orderID :=
              SAPOrderResponse.MaintenanceOrder (SAPOrderResponse.D orderResp) in
            match GetOrder c ctx orderID w2 with
            | (Err cause, _) =>
                returns "failed to verify order creation: " VerifyingOrder cause
            | (Ok verifyResp, _) =>
                forall err : error,
                  fst outcome = Err err ->
                  stepOf err = None /\ Unwrap err = None
            end
        end
    end.
Proof.
  intros s ctx event w c notificationReq outcome returns.
  subst outcome returns. unfold ProcessMaintenanceOrderEvent, bind, ret.
  fold c. fold notificationReq.
  destruct (CreateNotification c ctx notificationReq w)
    as [[notificationResp|e1] w1]; cbn [fst snd].
  2:{ eexists. split; [reflexivity|].
      split; [apply wrapError_fresh|].
      split; [reflexivity|]. split; reflexivity. }
  destruct (CreateOrder c ctx _ w1) as [[orderResp|e2] w2]; cbn [fst snd].
  2:{ eexists. split; [reflexivity|].
      split; [apply wrapError_fresh|].
      split; [reflexivity|]. split; reflexivity. }
  destruct (GetOrder c ctx _ w2) as [[verifyResp|e3] w3]; cbn [fst snd].
  2:{ eexists. split; [reflexivity|].
      split; [apply wrapError_fresh|].
      split; [reflexivity|]. split; reflexivity. }
  intros err. destruct (_ =? _); cbn [negb fst]; intros E.
  - discriminate E.
  - injection E as <-. split; reflexivity.
Qed.

End Submission.

Section Simulator.
Context `{Runtime} `{JSON}.

Lemma append_assoc (a b c : string) : (a ++ b) ++ c = a ++ (b ++ c).
Proof. induction a as [|x a IH]; cbn; [reflexivity | now rewrite IH]. Qed.

Lemma last_byte_snoc (stem : string) (last : ascii) :
  last_byte (stem ++ String last "") = Some last.
Proof.
  induction stem as [|x stem IH]; [reflexivity|].
  cbn [append last_byte]. rewrite IH.
  destruct (stem ++ String last "") eqn:E; [|reflexivity].
  destruct stem; discriminate E.
Qed.

(** A numeral of [NilEmpty] ends in a digit, unless it is empty. *)
Lemma string_of_uint_ends_in_digit (u : Decimal.uint) :
  u <> Decimal.Nil ->
  exists stem last,
    NilEmpty.string_of_uint u = stem ++ String last "" /\ isDigit last = true.
Proof.
  induction u as [|u IH|u IH|u IH|u IH|u IH|u IH|u IH|u IH|u IH|u IH];
    intros NE; [congruence| ..];
    (destruct u as [|v|v|v|v|v|v|v|v|v|v];
     [ eexists "", _; split; reflexivity
     | destruct IH as (stem & last & E & D); [discriminate|];
       eexists (String _ stem), last; cbn [NilEmpty.string_of_uint] in *;
       rewrite E; split; [reflexivity | exact D] .. ]).
Qed.

Lemma fmt_0d_ends_in_digit (width : nat) (n : Z) :
  exists stem last,
    fmt_0d width n = stem ++ String last "" /\ isDigit last = true.
Proof.
  unfold fmt_0d.
  set (sign := if (n <? 0)%Z then "-" else "").
  set (u := N.to_uint (Z.to_N (Z.abs n))).
  assert (exists stem last,
             NilZero.string_of_uint u = stem ++ String last ""
             /\ isDigit last = true) as (stem & last & E & D).
  { destruct u eqn:U; [eexists "", _; split; reflexivity | ..];
      (destruct (string_of_uint_ends_in_digit u) as (stem & last & E & D);
       [rewrite U; discriminate|];
       exists stem, last; rewrite <- U; split; [|exact D];
       rewrite <- E, U; reflexivity). }
  rewrite E.
  exists (sign ++ zeros (width - String.length sign
                         - String.length (stem ++ String last "")) ++ stem), last.
  split; [|exact D].
  rewrite !append_assoc. reflexivity.
Qed.

(** The table of the simulator, for a digit. *)
Lemma statusOfLastDigit_table (last : ascii) :
  (In last ["0"; "1"; "2"]%char -> statusOfLastDigit last = "CRTD")
  /\ (In last ["3"; "4"; "5"]%char -> statusOfLastDigit last = "REL")
  /\ (In last ["6"; "7"; "8"]%char -> statusOfLastDigit last = "TECO")
  /\ (last = "9"%char -> statusOfLastDigit last = "CLSD").
Proof.
  repeat split; cbn [In]; intros M;
    repeat (destruct M as [<- | M]; [reflexivity|]);
    try contradiction; subst; reflexivity.
Qed.

Lemma GetOrder_simulated (c : Client) (ctx : Context) (orderID : string)
  (w : World) :
  simulatorMode c = true ->
  exists resp,
    fst (GetOrder c ctx orderID w) = Ok resp
    /\ SAPOrderResponse.MaintenanceOrder (SAPOrderResponse.D resp) = orderID
    /\ SAPOrderResponse.OrderStatus (SAPOrderResponse.D resp)
       = mockStatus orderID.
Proof.
  intros Sim. unfold GetOrder, bind, enter. rewrite Sim.
  eexists. split; [reflexivity|]. split; reflexivity.
Qed.

Lemma last_byte_nonempty (orderID : string) :
  orderID <> "" -> exists last, last_byte orderID = Some last.
Proof.
  induction orderID as [|x rest IH]; [congruence|]. intros _.
  destruct rest as [|y rest']; [exists x; reflexivity|].
  destruct IH as (last & E); [discriminate|].
  exists last. cbn [last_byte] in *. exact E.
Qed.

(** C3.  In simulator mode [GetOrder] returns, for an order id that is
    not empty, an order whose status is fixed by the last character of
    the id: CRTD for 0, 1, 2; REL for 3, 4, 5; TECO for 6, 7, 8; CLSD for
    9.  The context and the world play no part, so two calls with one id
    give one status; and [GetMaintenanceOrderStatus] on an id that ends in
    9 returns a view with the status CLSD. *)
Theorem C3_status_from_last_character :
  forall (s : MaintenanceService) (ctx ctx' : Context) (w w' : World)
         (orderID : string),
    simulatorMode (sapClient s) = true ->
    orderID <> "" ->
    let polled (ctx : Context) (w : World) : option string :=
      match fst (GetOrder (sapClient s) ctx orderID w) with
      | Ok resp =>
          Some (SAPOrderResponse.OrderStatus (SAPOrderResponse.D resp))
      | Err _ => None
      end in
    exists last : ascii,
      last_byte orderID = Some last
      /\ (In last ["0"; "1"; "2"]%char -> polled ctx w = Some "CRTD")
      /\ (In last ["3"; "4"; "5"]%char -> polled ctx w = Some "REL")
      /\ (In last ["6"; "7"; "8"]%char -> polled ctx w = Some "TECO")
      /\ (last = "9"%char -> polled ctx w = Some "CLSD")
      /\ polled ctx w <> None
      /\ polled ctx w = polled ctx' w'
      /\ (last = "9"%char ->
          exists view,
            fst (GetMaintenanceOrderStatus s ctx orderID w) = Ok view
            /\ MaintenanceOrderStatus.Status view = "CLSD").
Proof.
  intros s ctx ctx' w w' orderID Sim NE polled.
  destruct (last_byte_nonempty orderID NE) as (last & L).
  exists last. split; [exact L|].
  assert (forall ctx w, polled ctx w = Some (statusOfLastDigit last)) as P.
  { intros ctx0 w0. subst polled. cbv beta.
    destruct (GetOrder_simulated (sapClient s) ctx0 orderID w0 Sim)
      as (resp & -> & _ & St).
    rewrite St. unfold mockStatus. rewrite L. reflexivity. }
  destruct (statusOfLastDigit_table last) as (T012 & T345 & T678 & T9).
  repeat split.
  - intros M. rewrite P, (T012 M). reflexivity.
  - intros M. rewrite P, (T345 M). reflexivity.
  - intros M. rewrite P, (T678 M). reflexivity.
  - intros M. rewrite P, (T9 M). reflexivity.
  - rewrite P. discriminate.
  - rewrite !P. reflexivity.
  - intros M. unfold GetMaintenanceOrderStatus, bind, ret.
    destruct (GetOrder_simulated (sapClient s) ctx orderID w Sim)
      as (resp & E & _ & St).
    destruct (GetOrder (sapClient s) ctx orderID w) as [r w1].
    cbn [fst] in E. subst r. cbn [fst].
    eexists. split; [reflexivity|].
    cbn [ConvertSAPOrderResponseToStatus MaintenanceOrderStatus.Status].
    rewrite St. unfold mockStatus. rewrite L. apply (T9 M).
Qed.

(** C2.  In simulator mode [ProcessMaintenanceOrderEvent] succeeds for
    every event: the order read back carries the id asked for, so the
    verification passes.  The order id returned ends in a digit, and the
    status returned is the one the simulator's [GetOrder] gives for that
    id, which the table fixes from the digit. *)
Theorem C2_simulated_submission_succeeds :
  forall (s : MaintenanceService) (ctx : Context)
         (event : MaintenanceOrderEvent.t) (w : World),
    simulatorMode (sapClient s) = true ->
    exists resp : MaintenanceOrderResponse.t,
      fst (ProcessMaintenanceOrderEvent s ctx event w) = Ok resp
      /\ exists (stem : string) (last : ascii),
          MaintenanceOrderResponse.OrderID resp = stem ++ String last ""
          /\ isDigit last = true
          /\ (In last ["0"; "1"; "2"]%char ->
              MaintenanceOrderResponse.Status resp = "CRTD")
          /\ (In last ["3"; "4"; "5"]%char ->
              MaintenanceOrderResponse.Status resp = "REL")
          /\ (In last ["6"; "7"; "8"]%char ->
              MaintenanceOrderResponse.Status resp = "TECO")
          /\ (last = "9"%char ->
              MaintenanceOrderResponse.Status resp = "CLSD")
          /\ forall (ctx' : Context) (w' : World),
              exists order,
                fst (GetOrder (sapClient s) ctx'
                       (MaintenanceOrderResponse.OrderID resp) w') = Ok order
                /\ SAPOrderResponse.MaintenanceOrder (SAPOrderResponse.D order)
                   = MaintenanceOrderResponse.OrderID resp
                /\ SAPOrderResponse.OrderStatus (SAPOrderResponse.D order)
                   = MaintenanceOrderResponse.Status resp.
Proof.
  intros s ctx event w Sim.
  unfold ProcessMaintenanceOrderEvent, bind, ret.
  unfold CreateNotification at 1, CreateOrder at 1. unfold bind, ret, enter.
  rewrite Sim.
  cbn [createMockNotificationResponse createMockOrderResponse bind ret time_Now
       fst snd now clock_reads plant sent calls
       SAPNotificationResponse.D SAPNotificationResponse.Notification
       SAPOrderResponse.D SAPOrderResponse.MaintenanceOrder].
  unfold createMockNotificationResponse, createMockOrderResponse, bind, ret, time_Now.
  cbn [fst snd now clock_reads plant sent calls
       SAPNotificationResponse.D SAPNotificationResponse.Notification
       SAPOrderResponse.D SAPOrderResponse.MaintenanceOrder].
  match goal with
  | |- context [GetOrder _ _ ?id ?w0] =>
      set (orderID := id);
      destruct (GetOrder_simulated (sapClient s) ctx orderID w0 Sim)
        as (verifyResp & E & Same & St);
      destruct (GetOrder (sapClient s) ctx orderID w0) as [r w3]
  end.
  cbn [fst] in E. subst r. rewrite Same, String.eqb_refl.
  cbn [negb fst]. eexists. split; [reflexivity|].
  cbn [MaintenanceOrderResponse.OrderID MaintenanceOrderResponse.Status].
  destruct (fmt_0d_ends_in_digit 3 (Z.rem (time_Unix (now w (S (clock_reads w)))) 1000))
    as (stem & last & F & D).
  exists ("400000" ++ stem), last.
  assert (orderID = ("400000" ++ stem) ++ String last "") as Id.
  { subst orderID. rewrite F. rewrite append_assoc. reflexivity. }
  assert (mockStatus orderID = statusOfLastDigit last) as M.
  { unfold mockStatus. rewrite Id, last_byte_snoc. reflexivity. }
  destruct (statusOfLastDigit_table last) as (T012 & T345 & T678 & T9).
  rewrite St, M.
  split; [exact Id|]. split; [exact D|].
  split; [exact T012|]. split; [exact T345|]. split; [exact T678|].
  split; [exact T9|].
  intros ctx' w'.
  destruct (GetOrder_simulated (sapClient s) ctx' orderID w' Sim)
    as (order & E' & Same' & St').
  exists order. rewrite <- M. auto.
Qed.

End Simulator.

Section Selection.
Context `{Runtime} `{JSON}.

(** In simulator mode no operation of the client hands a request to the
    HTTP client. *)
Lemma simulated_sends_nothing (c : Client) (ctx : Context) (w : World) :
  simulatorMode c = true ->
  (forall req, sent (snd (CreateNotification c ctx req w)) = sent w)
  /\ (forall req, sent (snd (CreateOrder c ctx req w)) = sent w)
  /\ (forall orderID, sent (snd (GetOrder c ctx orderID w)) = sent w).
Proof.
  intros Sim. unfold CreateNotification, CreateOrder, GetOrder, bind, enter.
  rewrite Sim. repeat split.
Qed.

(** C9.  [NewClient] turns the simulator on when the flag is set, when
    the base URL is empty and when the base URL is the word simulator.
    So a client made without a base URL sends no request, whatever its
    flag, and a client is live exactly when the flag is off and the base
    URL is neither empty nor that word. *)
Theorem C9_simulator_selection :
  forall cfg : config.SAPConfig,
    simulatorMode (NewClient cfg)
    = (config.SimulatorMode cfg
       || (config.BaseURL cfg =? "")
       || (config.BaseURL cfg =? "simulator"))
    /\ (config.BaseURL cfg = "" ->
        forall (ctx : Context) (w : World),
          (forall req,
              sent (snd (CreateNotification (NewClient cfg) ctx req w)) = sent w)
          /\ (forall req,
                 sent (snd (CreateOrder (NewClient cfg) ctx req w)) = sent w)
          /\ (forall orderID,
                 sent (snd (GetOrder (NewClient cfg) ctx orderID w)) = sent w))
    /\ (simulatorMode (NewClient cfg) = false <->
        config.SimulatorMode cfg = false
        /\ config.BaseURL cfg <> ""
        /\ config.BaseURL cfg <> "simulator").
Proof.
  intros cfg. split; [reflexivity|]. split.
  - intros Empty ctx w. apply simulated_sends_nothing.
    cbn [NewClient simulatorMode]. rewrite Empty.
    destruct (config.SimulatorMode cfg); reflexivity.
  - cbn [NewClient simulatorMode].
    rewrite !orb_false_iff.
    destruct (String.eqb_spec (config.BaseURL cfg) "");
      destruct (String.eqb_spec (config.BaseURL cfg) "simulator");
      intuition congruence.
Qed.

End Selection.

Section NotFound.
Context `{Runtime} `{JSON}.

(** The handler never answers 404: what [GetMaintenanceOrderStatus]
    returns on a failure starts with the words of the service, and so is
    not the text the handler compares with. *)
Lemma GetMaintenanceOrder_never_404 (h : MaintenanceHandler) (ctx : Context)
  (id : string) (w : World) :
  (code (fst (GetMaintenanceOrder h ctx id w)) =? StatusNotFound)%Z = false.
Proof.
  unfold GetMaintenanceOrder, bind, ret.
  destruct (id =? ""); [reflexivity|].
  unfold GetMaintenanceOrderStatus, bind, ret.
  destruct (GetOrder _ ctx id w) as [[orderResp|err] w1]; reflexivity.
Qed.

End NotFound.

(** C6, at the input that shows the defect.  The plant system answers
    the read of order 4711 with status 404; the handler answers 500 with
    the code RETRIEVAL_ERROR, not 404 with ORDER_NOT_FOUND.  No other
    answer of the plant system gets a 404 either. *)
Theorem C6_absent_order_is_answered_500 :
  fst (@GetMaintenanceOrder Ref.runtime Ref.json
         {| maintenanceService := Ref.service Ref.live |} None "4711"
         (Ref.world [Response StatusNotFound ""]))
  = {| code := StatusInternalServerError;
       obj := ErrorJSON
                {| ErrorResponse.Error := "Failed to retrieve maintenance order";
                   ErrorResponse.Code := "RETRIEVAL_ERROR";
                   ErrorResponse.Details :=
                     Some "failed to get order from SAP: SAP API returned status 404: "
                |} |}
  /\ forall (rt : Runtime) (js : JSON) (h : MaintenanceHandler) (ctx : Context)
            (id : string) (w : World),
      (code (fst (GetMaintenanceOrder h ctx id w)) =? StatusNotFound)%Z = false.
Proof.
  split; [reflexivity|].
  intros rt js. apply GetMaintenanceOrder_never_404.
Qed.

Section Monitoring.
Context `{Runtime} `{JSON}.

Variable s : MaintenanceService.
Variable orderID : string.

#[local] Abbreviation handler := (option (MaintenanceOrderStatus.t -> option error)).

Lemma step_returned (callback : handler) (e : Event) (m : Monitor)
  (r : option error) :
  point m = Returned r -> step s orderID callback e m = None.
Proof. intros P. unfold step. rewrite P. reflexivity. Qed.

Lemma run_returned (callback : handler) (es : list Event) (m m' : Monitor)
  (r : option error) :
  point m = Returned r ->
  run s orderID callback es m = Some m' -> es = [] /\ m' = m.
Proof.
  intros P R. destruct es as [|e es]; cbn [run] in R.
  - injection R as <-. split; reflexivity.
  - rewrite (step_returned callback e m r P) in R. discriminate R.
Qed.

(** What the events of the surroundings and the receive of a tick leave
    alone. *)
Lemma step_quiet (callback : handler) (e : Event) (m m' : Monitor) :
  e <> FetchReturns -> e <> ReceiveDone ->
  step s orderID callback e m = Some m' ->
  world m' = world m /\ handled m' = handled m
  /\ (forall r, point m <> Returned r)
  /\ (forall r, point m' <> Returned r)
  /\ ((forall r, e <> Cancel r) -> ctx m' = ctx m).
Proof.
  intros NF ND St. unfold step in St.
  destruct e as [r|d| | |]; try congruence;
    destruct (point m) eqn:P; try discriminate St;
    try (destruct (tickerC m); [|discriminate St]);
    injection St as <-; cbn; repeat split; try congruence;
    intros NC; exfalso; apply (NC r); reflexivity.
Qed.

(** The receive from [ctx.Done()]. *)
Lemma step_ReceiveDone (callback : handler) (m m' : Monitor) :
  step s orderID callback ReceiveDone m = Some m' ->
  exists err,
    ctx m = Some err /\ point m = AtSelect
    /\ point m' = Returned (Some err) /\ ctx m' = Some err
    /\ world m' = world m /\ handled m' = handled m.
Proof.
  unfold step. intros St.
  destruct (point m) eqn:P; try discriminate St.
  destruct (ctx m) as [err|] eqn:C; [|discriminate St].
  injection St as <-. exists err. cbn. repeat split; assumption.
Qed.

(** The return of the fetch. *)
Lemma step_FetchReturns (callback : handler) (m m' : Monitor) :
  step s orderID callback FetchReturns m = Some m' ->
  point m = InFetch
  /\ m' = afterFetch callback
            (fst (GetMaintenanceOrderStatus s (ctx m) orderID (world m)))
            (snd (GetMaintenanceOrderStatus s (ctx m) orderID (world m))) m.
Proof.
  unfold step. intros St.
  destruct (point m) eqn:P; try discriminate St.
  destruct (GetMaintenanceOrderStatus s (ctx m) orderID (world m)) as [fetched w1].
  injection St as <-. split; reflexivity.
Qed.

Lemma Event_eq_dec (e e' : Event) : {e = e'} + {e <> e'}.
Proof. repeat decide equality. Qed.

(** Time does not run backwards. *)
Lemma step_elapsed (callback : handler) (e : Event) (m m' : Monitor) :
  step s orderID callback e m = Some m' -> (elapsed m <= elapsed m')%N.
Proof.
  unfold step. intros St.
  destruct (point m); try discriminate St;
    destruct e; try discriminate St;
    try (destruct (ctx m); [|discriminate St]);
    try (destruct (tickerC m); [|discriminate St]);
    try (destruct (GetMaintenanceOrderStatus _ _ _ _) as [fetched w1]);
    injection St as <-; cbn [elapsed]; try lia;
    unfold afterFetch; destruct fetched as [st|err]; cbn [elapsed]; try lia;
    destruct (isCompleted st); cbn [elapsed]; try lia;
    destruct callback; cbn [elapsed]; lia.
Qed.

Lemma run_elapsed (callback : handler) (es : list Event) :
  forall m m' : Monitor,
    run s orderID callback es m = Some m' -> (elapsed m <= elapsed m')%N.
Proof.
  induction es as [|e es IH]; intros m m' R; cbn [run] in R.
  - injection R as <-. lia.
  - destruct (step s orderID callback e m) as [m1|] eqn:St; [|discriminate R].
    apply step_elapsed in St. apply IH in R. lia.
Qed.

(** ** Runs without cancellation *)

Section FirstTerminal.
Variable f : MaintenanceOrderStatus.t -> option error.
Variable w : World.
Variable n : nat.
Variable status : MaintenanceOrderStatus.t.
Hypothesis misses : forall j, j < n -> pending (fetch s None orderID w j).
Hypothesis hit : fetch s None orderID w n = Ok status.
Hypothesis terminal : isCompleted status = true.

Lemma polling_fetch (j : nat) (m m' : Monitor) :
  polling s orderID w j m -> j <= n ->
  step s orderID (Some f) FetchReturns m = Some m' ->
  (j < n /\ polling s orderID w (S j) m')
  \/ (j = n /\ finished s orderID f w n status m').
Proof.
  intros (C & NR & Hd & W) Le St.
  apply step_FetchReturns in St. destruct St as (P & ->).
  rewrite C, W. fold (fetch s None orderID w j).
  change (snd (GetMaintenanceOrderStatus s None orderID
                 (worldBefore s None orderID w j)))
    with (worldBefore s None orderID w (S j)).
  destruct (Nat.eq_dec j n) as [->|Ne].
  - right. split; [reflexivity|]. rewrite hit. unfold afterFetch.
    rewrite terminal. unfold finished. cbn. rewrite Hd. repeat split.
  - left. assert (j < n) as Lt by lia. split; [exact Lt|].
    pose proof (misses j Lt) as Pn. unfold afterFetch.
    destruct (fetch s None orderID w j) as [st|err]; cbn in Pn.
    + rewrite Pn. unfold polling. cbn. repeat split; try assumption; discriminate.
    + unfold polling. cbn. repeat split; try assumption; discriminate.
Qed.

Lemma polling_run (es : list Event) :
  forall (j : nat) (m m' : Monitor),
    polling s orderID w j m -> j <= n ->
    (forall r, ~ In (Cancel r) es) ->
    run s orderID (Some f) es m = Some m' ->
    (j + fetches es <= n /\ polling s orderID w (j + fetches es) m')
    \/ (j + fetches es = S n /\ finished s orderID f w n status m').
Proof.
  induction es as [|e es IH]; intros j m m' Pj Le NC R; cbn [run] in R.
  - injection R as <-. left. cbn [fetches]. rewrite Nat.add_0_r. auto.
  - destruct (step s orderID (Some f) e m) as [m1|] eqn:St; [|discriminate R].
    assert (forall r, ~ In (Cancel r) es) as NC'.
    { intros r I. apply (NC r). right. exact I. }
    destruct e as [r|d| | |].
    + exfalso. apply (NC r). left. reflexivity.
    + apply step_quiet in St; try discriminate.
      destruct St as (W1 & H1 & _ & NR1 & C1).
      destruct Pj as (C & NR & Hd & W0). cbn [fetches].
      apply (IH j m1 m'); auto.
      repeat split; try congruence; auto.
      rewrite C1; [exact C | intros r0; discriminate].
    + apply step_ReceiveDone in St. destruct St as (err & C1 & _).
      destruct Pj as (C & _). congruence.
    + apply step_quiet in St; try discriminate.
      destruct St as (W1 & H1 & _ & NR1 & C1).
      destruct Pj as (C & NR & Hd & W0). cbn [fetches].
      apply (IH j m1 m'); auto.
      repeat split; try congruence; auto.
      rewrite C1; [exact C | intros r0; discriminate].
    + cbn [fetches].
      destruct (polling_fetch j m m1 Pj Le St) as [(Lt & P1)|(-> & F1)].
      * replace (j + S (fetches es)) with (S j + fetches es) by lia.
        apply (IH (S j) m1 m'); auto.
      * destruct F1 as (Hd1 & Pt1 & W1).
        destruct (run_returned (Some f) es m1 m' _ Pt1 R) as (-> & ->).
        right. cbn [fetches]. split; [lia|]. repeat split; assumption.
Qed.

Lemma polling_rounds :
  forall (k j : nat) (m : Monitor),
    polling s orderID w j m -> point m = AtSelect -> j + k <= S n ->
    exists m', run s orderID (Some f) (rounds k) m = Some m'
               /\ (j + k <= n -> point m' = AtSelect).
Proof.
  induction k as [|k IH]; intros j m Pj At Le.
  - exists m. split; [reflexivity | intros _; exact At].
  - cbn [rounds run]. unfold step at 1. rewrite At.
    set (m1 := {| ctx := ctx m; elapsed := (elapsed m + interval)%N;
                  tickerC := tickerC m
                             || (elapsed m / interval
                                 <? (elapsed m + interval) / interval)%N;
                  point := AtSelect; world := world m;
                  handled := handled m |}).
    assert (tickerC m1 = true) as T.
    { subst m1. cbn [tickerC]. apply orb_true_iff. right.
      apply N.ltb_lt.
      replace (elapsed m + interval)%N with (elapsed m + 1 * interval)%N by lia.
      rewrite N.div_add by (unfold interval; lia). lia. }
    unfold step at 1. cbn [point]. change (point m1) with AtSelect. cbn iota.
    rewrite T.
    set (m2 := {| ctx := ctx m1; elapsed := elapsed m1; tickerC := false;
                  point := InFetch; world := world m1;
                  handled := handled m1 |}).
    assert (polling s orderID w j m2) as P2.
    { destruct Pj as (C & NR & Hd & W0). unfold polling. subst m2 m1. cbn.
      repeat split; try assumption; discriminate. }
    destruct (step s orderID (Some f) FetchReturns m2) as [m3|] eqn:St.
    2:{ unfold step in St. cbn [point m2] in St.
        destruct (GetMaintenanceOrderStatus s (ctx m2) orderID (world m2)).
        discriminate St. }
    destruct (polling_fetch j m2 m3 P2 ltac:(lia) St) as [(Lt & P3)|(-> & F3)].
    + assert (point m3 = AtSelect) as At3.
      { apply step_FetchReturns in St. destruct St as (_ & ->).
        destruct P3 as (_ & NR3 & _). unfold afterFetch in *.
        destruct (fst _) as [st|err]; [|reflexivity].
        destruct (isCompleted st); [|reflexivity].
        exfalso. apply (NR3 (f st)). reflexivity. }
      destruct (IH (S j) m3 P3 At3 ltac:(lia)) as (m' & R & A).
      exists m'. split; [exact R|]. intros L. apply A. lia.
    + assert (k = 0) as -> by lia. exists m3. cbn [rounds run].
      split; [reflexivity | intros L; lia].
Qed.

End FirstTerminal.

Lemma polling_enter (f : MaintenanceOrderStatus.t -> option error) (w : World) :
  polling s orderID w 0 (enterMonitor None w).
Proof. unfold polling. cbn. repeat split; discriminate. Qed.

(** C4.  Let the first [n] fetches of a monitor fail or bring a status
    that is not terminal, and let fetch [n + 1] bring the status [status],
    TECO or CLSD.  Then, in every run in which the context is not
    cancelled: the fetches that miss do not end the run and the callback
    is not called on them; when fetch [n + 1] returns, the callback has
    been called once, with [status], and the monitor has returned what
    the callback returned; nothing happens after that, so there is no
    further fetch; and no run has more than [n + 1] fetches.  Such a run
    exists: [n + 1] rounds of the ticker. *)
Theorem C4_first_terminal_status_ends_monitoring :
  forall (f : MaintenanceOrderStatus.t -> option error) (w : World) (n : nat)
         (status : MaintenanceOrderStatus.t),
    (forall j, j < n -> pending (fetch s None orderID w j)) ->
    fetch s None orderID w n = Ok status ->
    isCompleted status = true ->
    (exists m,
        MonitorOrderStatus s None orderID (Some f) w (rounds (S n)) = Some m)
    /\ forall (es : list Event) (m : Monitor),
        (forall r, ~ In (Cancel r) es) ->
        MonitorOrderStatus s None orderID (Some f) w es = Some m ->
        fetches es <= S n
        /\ world m = worldBefore s None orderID w (fetches es)
        /\ (fetches es <= n ->
            handled m = [] /\ forall r, point m <> Returned r)
        /\ (fetches es = S n ->
            handled m = [status]
            /\ point m = Returned (f status)
            /\ forall e, step s orderID (Some f) e m = None).
Proof.
  intros f w n status misses hit terminal. split.
  - destruct (polling_rounds f w n status misses hit terminal (S n) 0
                (enterMonitor None w) (polling_enter f w) eq_refl
                ltac:(lia)) as (m & R & _).
    exists m. exact R.
  - intros es m NC R.
    destruct (polling_run f w n status misses hit terminal es 0
                (enterMonitor None w) m (polling_enter f w) ltac:(lia) NC R)
      as [(Le & C & NR & Hd & W)|(E & Hd & Pt & W)]; cbn [Nat.add] in *.
    + split; [lia|]. split; [exact W|]. split; [auto | intros E; lia].
    + split; [lia|]. split; [rewrite E; exact W|].
      split; [intros Le; lia|]. intros _. split; [exact Hd|].
      split; [exact Pt|]. intros e. apply (step_returned _ e m _ Pt).
Qed.

(** ** Cancellation *)

(** While the call has not returned the callback has not been called. *)
Lemma run_ReceiveDone (callback : handler) (es : list Event) :
  forall m m' : Monitor,
    (forall r, point m <> Returned r) -> handled m = [] ->
    In ReceiveDone es ->
    run s orderID callback es m = Some m' ->
    exists err,
      point m' = Returned (Some err) /\ ctx m' = Some err /\ handled m' = [].
Proof.
  induction es as [|e es IH]; intros m m' NR Hd I R; [contradiction|].
  cbn [run] in R.
  destruct (step s orderID callback e m) as [m1|] eqn:St; [|discriminate R].
  destruct (Event_eq_dec e ReceiveDone) as [->|ND].
  - apply step_ReceiveDone in St.
    destruct St as (err & _ & _ & Pt & C & _ & Hd1).
    destruct (run_returned callback es m1 m' _ Pt R) as (_ & ->).
    exists err. repeat split; congruence.
  - destruct I as [->|I]; [congruence|].
    destruct (Event_eq_dec e FetchReturns) as [->|NF].
    + apply step_FetchReturns in St. destruct St as (_ & ->).
      unfold afterFetch in *.
      destruct (fst _) as [st|err].
      * destruct (isCompleted st).
        -- destruct es; [contradiction|].
           destruct callback; cbn [run step point] in R; discriminate R.
        -- eapply IH; [| |exact I|exact R]; cbn; [discriminate|exact Hd].
      * eapply IH; [| |exact I|exact R]; cbn; [discriminate|exact Hd].
    + apply (step_quiet callback e m m1 NF ND) in St.
      destruct St as (_ & Hd1 & _ & NR1 & _).
      apply (IH m1 m'); auto. congruence.
Qed.

(** The state of a monitor whose context ended while it was at the
    [select] with no tick in the channel, for as long as no tick falls
    due. *)
Lemma run_within_period (callback : handler) (err : error) (es : list Event) :
  forall m0 m m' : Monitor,
    (elapsed m0 <= elapsed m)%N ->
    world m = world m0 -> handled m = handled m0 -> tickerC m = false ->
    ctx m = Some err ->
    (point m = AtSelect \/ point m = Returned (Some err)) ->
    run s orderID callback es m = Some m' ->
    (elapsed m' / interval = elapsed m0 / interval)%N ->
    world m' = world m0 /\ handled m' = handled m0 /\ tickerC m' = false
    /\ ctx m' = Some err
    /\ (point m' = AtSelect \/ point m' = Returned (Some err)).
Proof.
  induction es as [|e es IH]; intros m0 m m' Le W Hd T C Pt R Same;
    cbn [run] in R.
  - injection R as <-. auto.
  - destruct (step s orderID callback e m) as [m1|] eqn:St; [|discriminate R].
    destruct Pt as [At|Pt].
    2:{ rewrite (step_returned callback e m _ Pt) in St. discriminate St. }
    pose proof (run_elapsed callback es m1 m' R) as Mono.
    pose proof (step_elapsed callback e m m1 St) as Mono1.
    unfold step in St. rewrite At in St.
    destruct e as [r|d| | |].
    + injection St as <-. rewrite C in *.
      eapply (IH m0); [| | | | | |exact R|exact Same];
        cbn [ctx elapsed tickerC point world handled]; auto.
    + injection St as <-. cbn [elapsed] in Mono, Mono1.
      eapply (IH m0); [| | | | | |exact R|exact Same];
        cbn [ctx elapsed tickerC point world handled]; auto; [lia|].
      rewrite T. cbn [orb]. apply N.ltb_ge.
      pose proof (N.Div0.div_le_mono _ _ interval Le) as D1.
      pose proof (N.Div0.div_le_mono _ _ interval Mono1) as D2.
      pose proof (N.Div0.div_le_mono _ _ interval Mono) as D3.
      cbn [elapsed] in D2. lia.
    + rewrite C in St. injection St as <-.
      eapply (IH m0); [| | | | | |exact R|exact Same];
        cbn [ctx elapsed tickerC point world handled]; auto.
    + rewrite T in St. discriminate St.
    + discriminate St.
Qed.

(** C5, as the code has it.  The context is looked at in the [select]
    and nowhere else.  (1) When the context ends while the monitor is at
    the [select] with no tick in the channel, then for as long as no tick
    falls due the receive of a tick and the return of a fetch cannot
    happen: in every run up to there the world and the record of callback
    calls stay as they were and the monitor is at the [select] or has
    returned the error of the context; and the [select] can take the
    context at once, which makes the monitor return that error: no fetch,
    no call of the callback, whatever the next fetch would have brought.
    (2) In every run in which the [select] takes the context, the monitor
    returns the error of the context and the callback is not called at
    all.  (3) Once a tick is in the channel as well, the [select] can take
    either of the two.  (4) When the context ends while a fetch is under
    way, the monitor does not see it: the [select] cannot take the context
    then, and the fetch returns into the rest of the branch, which does
    not look at the context.  If the fetch brings a completed status the
    callback is called with it and the monitor returns the result of the
    callback; otherwise the monitor is back at the [select], with the
    context ended. *)
Theorem C5_cancellation_seen_at_select :
  forall (callback : handler),
    (forall (m : Monitor) (r : Reason),
        point m = AtSelect -> tickerC m = false -> ctx m = None ->
        (exists m1 m2,
            step s orderID callback (Cancel r) m = Some m1
            /\ step s orderID callback ReceiveTick m1 = None
            /\ step s orderID callback FetchReturns m1 = None
            /\ step s orderID callback ReceiveDone m1 = Some m2
            /\ point m2 = Returned (Some (ctxErr r))
            /\ world m2 = world m
            /\ handled m2 = handled m)
        /\ forall (es : list Event) (m' : Monitor),
            run s orderID callback (Cancel r :: es) m = Some m' ->
            (elapsed m' / interval = elapsed m / interval)%N ->
            world m' = world m /\ handled m' = handled m
            /\ ctx m' = Some (ctxErr r)
            /\ (point m' = AtSelect
                \/ point m' = Returned (Some (ctxErr r))))
    /\ (forall (ctx0 : Context) (w : World) (es : list Event) (m : Monitor),
          MonitorOrderStatus s ctx0 orderID callback w es = Some m ->
          In ReceiveDone es ->
          exists err,
            point m = Returned (Some err) /\ ctx m = Some err
            /\ handled m = [])
    /\ (forall (m : Monitor) (err : error),
          point m = AtSelect -> tickerC m = true -> ctx m = Some err ->
          exists m1 m2,
            step s orderID callback ReceiveDone m = Some m1
            /\ point m1 = Returned (Some err)
            /\ step s orderID callback ReceiveTick m = Some m2
            /\ point m2 = InFetch /\ ctx m2 = Some err)
    /\ (forall (m : Monitor) (r : Reason),
          point m = InFetch -> ctx m = None ->
          exists m1 m2,
            step s orderID callback (Cancel r) m = Some m1
            /\ ctx m1 = Some (ctxErr r) /\ point m1 = InFetch
            /\ world m1 = world m /\ handled m1 = handled m
            /\ step s orderID callback ReceiveDone m1 = None
            /\ step s orderID callback FetchReturns m1 = Some m2
            /\ ctx m2 = Some (ctxErr r)
            /\ match
                 fst (GetMaintenanceOrderStatus s (Some (ctxErr r)) orderID
                        (world m))
               with
               | Ok status =>
                   if isCompleted status then
                     match callback with
                     | Some f =>
                         handled m2 = (handled m ++ [status])%list
                         /\ point m2 = Returned (f status)
                     | None =>
                         handled m2 = handled m /\ point m2 = Returned None
                     end
                   else handled m2 = handled m /\ point m2 = AtSelect
               | Err _ => handled m2 = handled m /\ point m2 = AtSelect
               end).
Proof.
  intros callback. split; [|split; [|split]].
  - intros m r At T C. split.
    + unfold step. rewrite At, C. cbn [point ctx tickerC].
      rewrite T. do 2 eexists. repeat split.
    + intros es m' R Same. cbn [run] in R.
      unfold step at 1 in R. rewrite At, C in R.
      assert (world m' = world m /\ handled m' = handled m
              /\ tickerC m' = false /\ ctx m' = Some (ctxErr r)
              /\ (point m' = AtSelect
                  \/ point m' = Returned (Some (ctxErr r))))
        as (W & Hd & _ & C' & Pt).
      { eapply (run_within_period callback (ctxErr r) es m);
          [| | | | | |exact R|exact Same];
          cbn [ctx elapsed tickerC point world handled]; auto. lia. }
      auto.
  - intros ctx0 w es m R I.
    apply (run_ReceiveDone callback es (enterMonitor ctx0 w) m); auto.
    cbn. discriminate.
  - intros m err At T C. unfold step. rewrite At, C, T.
    do 2 eexists. repeat split.
  - intros m r In_ C.
    exists {| ctx := Some (ctxErr r); elapsed := elapsed m;
              tickerC := tickerC m; point := InFetch; world := world m;
              handled := handled m |}.
    unfold step. rewrite In_, C. cbn [point ctx world handled].
    destruct (GetMaintenanceOrderStatus s (Some (ctxErr r)) orderID (world m))
      as [fetched w1].
    eexists.
    split; [reflexivity|]. split; [reflexivity|]. split; [reflexivity|].
    split; [reflexivity|]. split; [reflexivity|]. split; [reflexivity|].
    split; [reflexivity|].
    cbn [fst]. unfold afterFetch. cbn [ctx handled].
    destruct fetched as [status|e]; [|repeat split].
    destruct (isCompleted status); [|repeat split].
    destruct callback; repeat split.
Qed.

(** ** The first interval *)

(** The state of a monitor before the first tick is due. *)
Lemma run_first_interval (callback : handler) (w : World) (es : list Event) :
  forall m m' : Monitor,
    world m = w -> handled m = [] -> tickerC m = false ->
    (point m = AtSelect
     \/ exists err, ctx m = Some err /\ point m = Returned (Some err)) ->
    run s orderID callback es m = Some m' ->
    (elapsed m' < interval)%N ->
    world m' = w /\ handled m' = [] /\ tickerC m' = false
    /\ (point m' = AtSelect
        \/ exists err, ctx m' = Some err /\ point m' = Returned (Some err)).
Proof.
  induction es as [|e es IH]; intros m m' W Hd T Pt R Lt; cbn [run] in R.
  - injection R as <-. auto.
  - destruct (step s orderID callback e m) as [m1|] eqn:St; [|discriminate R].
    destruct Pt as [At|(err & C & Pt)].
    2:{ rewrite (step_returned callback e m _ Pt) in St. discriminate St. }
    assert (elapsed m1 <= elapsed m')%N as Mono.
    { apply (run_elapsed callback es m1 m' R). }
    unfold step in St. rewrite At in St.
    destruct e as [r|d| | |].
    + injection St as <-.
      eapply IH; [| | | |exact R|exact Lt];
        cbn [ctx elapsed tickerC point world handled]; auto.
    + injection St as <-. cbn [elapsed] in Mono.
      eapply IH; [| | | |exact R|exact Lt];
        cbn [ctx elapsed tickerC point world handled]; auto.
      rewrite T. cbn [orb]. apply N.ltb_ge.
      rewrite !N.div_small by lia. lia.
    + destruct (ctx m) as [err|] eqn:C; [|discriminate St].
      injection St as <-.
      eapply IH; [| | | |exact R|exact Lt];
        cbn [ctx elapsed tickerC point world handled]; auto.
      right. exists err. split; reflexivity.
    + rewrite T in St. discriminate St.
    + discriminate St.
Qed.

(** C10.  Until the period of the ticker has passed once, the monitor
    fetches nothing: on entry neither the receive of a tick nor the return
    of a fetch can happen, and in every run the world is the world of the
    entry (no operation of the client invoked, no request sent), the
    callback has not been called, and the monitor waits in its [select]
    or has returned the error of the context.  A context that ends in
    that time makes the monitor return its error with nothing fetched and
    the callback not called. *)
Theorem C10_no_fetch_before_first_tick :
  forall (callback : handler) (ctx0 : Context) (w : World),
    (step s orderID callback ReceiveTick (enterMonitor ctx0 w) = None
     /\ step s orderID callback FetchReturns (enterMonitor ctx0 w) = None)
    /\ (forall (es : list Event) (m : Monitor),
          MonitorOrderStatus s ctx0 orderID callback w es = Some m ->
          (elapsed m < interval)%N ->
          world m = w /\ handled m = [] /\ tickerC m = false
          /\ (point m = AtSelect
              \/ exists err, ctx m = Some err /\ point m = Returned (Some err)))
    /\ (forall (d : N) (r : Reason),
          (d < interval)%N ->
          exists m,
            MonitorOrderStatus s None orderID callback w
              [Elapse d; Cancel r; ReceiveDone] = Some m
            /\ point m = Returned (Some (ctxErr r))
            /\ world m = w /\ handled m = []).
Proof.
  intros callback ctx0 w. split; [split; reflexivity|]. split.
  - intros es m R Lt.
    apply (run_first_interval callback w es (enterMonitor ctx0 w) m);
      auto.
  - intros d r Lt. unfold MonitorOrderStatus. cbn [run].
    unfold step at 1. cbn [point enterMonitor].
    unfold step at 1. cbn [point ctx].
    unfold step at 1. cbn [point ctx].
    eexists. repeat split.
Qed.

End Monitoring.

Section Translating.
Context `{Runtime}.

Lemma appendOperations_map (event : MaintenanceOrderEvent.t)
  (ops : list MaintenanceOperation.t) (acc : list SAPOrderOperation.t) :
  models.appendOperations event ops acc
  = (acc ++ map (convertOperation event) ops)%list.
Proof.
  revert acc. induction ops as [|op ops IH]; intros acc; cbn [models.appendOperations map].
  - rewrite app_nil_r. reflexivity.
  - rewrite IH, <- app_assoc. reflexivity.
Qed.

(** The two copies of the translation agree. *)
Lemma translations_agree (event : MaintenanceOrderEvent.t)
  (notificationID : string) :
  models.ConvertMaintenanceOrderEventToOrderRequest event notificationID
  = sap.ConvertMaintenanceOrderEventToOrderRequest event notificationID.
Proof.
  unfold models.ConvertMaintenanceOrderEventToOrderRequest,
    sap.ConvertMaintenanceOrderEventToOrderRequest.
  rewrite appendOperations_map. reflexivity.
Qed.

Lemma omitempty_lookup (key value : string) (rest : list (string * string)) :
  lookup_key key (omitempty key value ++ rest)%list
  = if value =? "" then lookup_key key rest else Some value.
Proof.
  unfold omitempty. destruct (value =? ""); [reflexivity|].
  cbn [app lookup_key]. rewrite String.eqb_refl. reflexivity.
Qed.

Lemma omitempty_skip (key other value : string) (rest : list (string * string)) :
  (other =? key) = false ->
  lookup_key key (omitempty other value ++ rest)%list = lookup_key key rest.
Proof.
  intros Ne. unfold omitempty. destruct (value =? ""); [reflexivity|].
  cbn [app lookup_key]. rewrite Ne. reflexivity.
Qed.

(** C8.  The order request made from an event and a notification id
    has the plant of the event as its planning plant and the notification
    id as its back-reference.  Each of the two planned times is written in
    the layout RFC3339 when the event has it, and the field is left out of
    the JSON text when the event has none.  The operations of the event
    become the operation lines, one for one and in order, the duration of
    each rendered by [strconv.FormatFloat(d, 'f', -1, 64)]: the text that
    parses back to the duration with the fewest significant digits.  The
    copy of the translation in models.go gives the same request. *)
Theorem C8_order_request_translation :
  forall (event : MaintenanceOrderEvent.t) (notificationID : string),
    FormatFloat_contract ->
    Format_contract ->
    let req :=
      sap.ConvertMaintenanceOrderEventToOrderRequest event notificationID in
    SAPOrderRequest.MaintenancePlanningPlant req
    = MaintenanceOrderEvent.Plant event
    /\ SAPOrderRequest.Plant req = MaintenanceOrderEvent.Plant event
    /\ SAPOrderRequest.MaintenanceNotification req = notificationID
    /\ lookup_key "MaintOrdBasicStartDateTime" (SAPOrderRequest_keys req)
       = option_map time_Format (MaintenanceOrderEvent.PlannedStartTime event)
    /\ lookup_key "MaintOrdBasicEndDateTime" (SAPOrderRequest_keys req)
       = option_map time_Format (MaintenanceOrderEvent.PlannedEndTime event)
    /\ length (SAPOrderRequest.ToMaintenanceOrderOperation req)
       = length (MaintenanceOrderEvent.Operations event)
    /\ (forall (i : nat) (op : MaintenanceOperation.t),
           nth_error (MaintenanceOrderEvent.Operations event) i = Some op ->
           exists line : SAPOrderOperation.t,
             nth_error (SAPOrderRequest.ToMaintenanceOrderOperation req) i
             = Some line
             /\ SAPOrderOperation.OperationText line
                = MaintenanceOperation.Text op
             /\ SAPOrderOperation.WorkCenter line
                = MaintenanceOperation.WorkCenter op
             /\ SAPOrderOperation.OperationDurationUnit line
                = MaintenanceOperation.DurationUnit op
             /\ SAPOrderOperation.OperationStandardDuration line
                = strconv_FormatFloat (MaintenanceOperation.Duration op)
             /\ shortestRoundTrip (MaintenanceOperation.Duration op)
                  (SAPOrderOperation.OperationStandardDuration line))
    /\ models.ConvertMaintenanceOrderEventToOrderRequest event notificationID
       = req.
Proof.
  intros event notificationID Shortest NonEmpty req.
  assert (forall t : option Time,
             (match t with Some t => time_Format t | None => "" end =? "")
             = match t with Some _ => false | None => true end) as Empty.
  { intros [t|]; [|reflexivity].
    destruct (String.eqb_spec (time_Format t) ""); [|reflexivity].
    exfalso. apply (NonEmpty t). assumption. }
  split; [reflexivity|]. split; [reflexivity|]. split; [reflexivity|].
  split; [|split; [|split; [|split]]].
  - unfold SAPOrderRequest_keys.
    cbn [app lookup_key String.eqb Ascii.eqb Bool.eqb].
    rewrite omitempty_skip by reflexivity.
    cbn [app lookup_key String.eqb Ascii.eqb Bool.eqb].
    rewrite !omitempty_skip by reflexivity.
    rewrite omitempty_lookup. subst req.
    cbn [sap.ConvertMaintenanceOrderEventToOrderRequest
           SAPOrderRequest.MaintOrdBasicStartDateTime].
    rewrite Empty.
    destruct (MaintenanceOrderEvent.PlannedStartTime event); [reflexivity|].
    rewrite omitempty_skip by reflexivity.
    unfold omitempty. destruct (_ =? ""); reflexivity.
  - unfold SAPOrderRequest_keys.
    cbn [app lookup_key String.eqb Ascii.eqb Bool.eqb].
    rewrite omitempty_skip by reflexivity.
    cbn [app lookup_key String.eqb Ascii.eqb Bool.eqb].
    rewrite !omitempty_skip by reflexivity.
    rewrite omitempty_lookup. subst req.
    cbn [sap.ConvertMaintenanceOrderEventToOrderRequest
           SAPOrderRequest.MaintOrdBasicEndDateTime].
    rewrite Empty.
    destruct (MaintenanceOrderEvent.PlannedEndTime event); [reflexivity|].
    unfold omitempty. destruct (_ =? ""); reflexivity.
  - subst req. cbn [sap.ConvertMaintenanceOrderEventToOrderRequest
                      SAPOrderRequest.ToMaintenanceOrderOperation].
    apply length_map.
  - intros i op Nth. subst req.
    cbn [sap.ConvertMaintenanceOrderEventToOrderRequest
           SAPOrderRequest.ToMaintenanceOrderOperation].
    exists (convertOperation event op). split.
    + rewrite nth_error_map, Nth. reflexivity.
    + repeat split; try reflexivity; apply Shortest.
  - apply translations_agree.
Qed.

End Translating.

(* ===================================================================== *)
(** * The small runtime keeps the contracts *)
(* ===================================================================== *)

Section RefContracts.

Lemma lead_nzhead (u : Decimal.uint) :
  Ref.lead u = Ref.lead (Decimal.nzhead u).
Proof.
  induction u; try reflexivity.
  cbn [Decimal.nzhead]. rewrite <- IHu. reflexivity.
Qed.

Lemma lead_NilZero (u : Decimal.uint) :
  dropZeros (digits (NilZero.string_of_uint u)) = Ref.lead u.
Proof. destruct u; reflexivity. Qed.

Lemma lead_norm (d : Decimal.signed_int) :
  dropZeros (digits (NilZero.string_of_int (Decimal.norm d)))
  = dropZeros (digits (NilZero.string_of_int d)).
Proof.
  destruct d as [u|u]; cbn [Decimal.norm NilZero.string_of_int].
  - rewrite !lead_NilZero, (lead_nzhead u). unfold Decimal.unorm.
    destruct (Decimal.nzhead u); reflexivity.
  - change (digits (String "-" (NilZero.string_of_uint u)))
      with (digits (NilZero.string_of_uint u)).
    rewrite lead_NilZero, (lead_nzhead u).
    destruct (Decimal.nzhead u); reflexivity.
Qed.

Lemma Ref_ParseFloat_itoa (x : Z) : Ref.ParseFloat (itoa x) = Ok x.
Proof.
  unfold Ref.ParseFloat, itoa.
  rewrite NilZero.isi.
  - rewrite DecimalZ.of_to. reflexivity.
  - destruct x as [|p|p]; try discriminate.
    intros E. injection E as E. apply (DecimalPos.Unsigned.to_uint_nonnil p E).
  - destruct x as [|p|p]; try discriminate.
    intros E. injection E as E. apply (DecimalPos.Unsigned.to_uint_nonnil p E).
Qed.

Lemma Ref_FormatFloat_contract : @FormatFloat_contract Ref.runtime.
Proof.
  intros x. split; [apply Ref_ParseFloat_itoa|].
  intros s' _ P. cbn [strconv_ParseFloat strconv_FormatFloat Ref.runtime] in *.
  unfold Ref.ParseFloat in P.
  destruct (NilZero.int_of_string s') as [d|] eqn:E; [|discriminate P].
  injection P as <-.
  apply NilZero.sis in E. subst s'.
  unfold itoa. rewrite DecimalZ.to_of.
  unfold significant. rewrite lead_norm. apply Nat.le_refl.
Qed.

Lemma Ref_Format_contract : @Format_contract Ref.runtime.
Proof.
  intros t. cbn [time_Format Ref.runtime]. unfold Ref.Format.
  destruct (Ref.civil _) as [[y m] d].
  destruct (fmt_0d 4 y); discriminate.
Qed.

End RefContracts.

(* ===================================================================== *)
(** * Concrete runs *)
(* ===================================================================== *)

Section Runs.

#[local] Existing Instance Ref.runtime.
#[local] Existing Instance Ref.json.

Example fmt_0d_pads_with_zeros :
  fmt_0d 3 7 = "007" /\ fmt_0d 3 123 = "123" /\ fmt_0d 3 (-5) = "-05"
  /\ fmt_0d 4 20 = "0020" /\ fmt_0d 3 0 = "000".
Proof. repeat split; reflexivity. Qed.

(** A live submission in which the plant system creates the order
    4000001 and then reads back the order 4000002: three requests, and
    the verification error. *)
Example submit_with_mismatch :
  let replies :=
    [Response StatusCreated
       (Ref.envelope (Ref.object [("Notification", "2000001")]));
     Response StatusCreated (Ref.orderBody "4000001" "CRTD");
     Response StatusOK (Ref.orderBody "4000002" "CRTD")] in
  let outcome :=
    ProcessMaintenanceOrderEvent (Ref.service Ref.live) None Ref.pumpSeal
      (Ref.world replies) in
  fst outcome
  = Err (errorString "order verification failed: expected 4000001, got 4000002")
  /\ map Method (sent (snd outcome)) = ["POST"; "POST"; "GET"]
  /\ map URL (sent (snd outcome))
     = ["http://sap.example/API_MAINTENANCE_NOTIFICATION/A_MaintenanceNotification";
        "http://sap.example/API_MAINTENANCE_ORDER/A_MaintenanceOrder";
        "http://sap.example/API_MAINTENANCE_ORDER/A_MaintenanceOrder('4000001')?%24expand=to_MaintenanceOrderOperation"].
Proof. repeat split; reflexivity. Qed.

(** The request of the test script, submitted to the simulator with the
    clock at 2025-08-21T08:00:00Z. *)
Example submit_pump_seal :
  fst (ProcessMaintenanceOrderEvent (Ref.service Ref.simulated) None
         Ref.pumpSeal (Ref.world []))
  = Ok {| MaintenanceOrderResponse.OrderID := "400000201";
          MaintenanceOrderResponse.NotificationID := "200000200";
          MaintenanceOrderResponse.Status := "CRTD";
          MaintenanceOrderResponse.Message :=
            "Maintenance order created successfully";
          MaintenanceOrderResponse.CreatedAt := Ref.clock 4 |}.
Proof. reflexivity. Qed.

(** The reader of the small runtime wants the envelope, as the decoder
    of Go does: an order that comes without it is read as the zero value,
    whatever it says, and so is the error document of the plant system. *)
Example reader_wants_the_envelope :
  Unmarshal_SAPOrderResponse (Ref.orderBody "4711" "TECO")
  = Ok {| SAPOrderResponse.D :=
            {| SAPOrderResponse.MaintenanceOrder := "4711";
               SAPOrderResponse.MaintenanceOrderType := "";
               SAPOrderResponse.Description := "";
               SAPOrderResponse.Equipment := "";
               SAPOrderResponse.Plant := "1000";
               SAPOrderResponse.OrderStatus := "TECO";
               SAPOrderResponse.MaintOrdBasicStartDateTime := "";
               SAPOrderResponse.MaintOrdBasicEndDateTime := "";
               SAPOrderResponse.MaintenanceNotification := "";
               SAPOrderResponse.Metadata := Ref.zeroMetadata;
               SAPOrderResponse.Results := [] |} |}
  /\ Unmarshal_SAPOrderResponse
       (Ref.object [("MaintenanceOrder", "4711"); ("OrderStatus", "TECO")])
     = Ok {| SAPOrderResponse.D := Ref.zeroOrder |}
  /\ Unmarshal_SAPOrderResponse "{}"
     = Ok {| SAPOrderResponse.D := Ref.zeroOrder |}
  /\ Unmarshal_SAPOrderResponse "" = Err Ref.syntaxError
  /\ Unmarshal_SAPOrderResponse "[]" = Err Ref.typeError.
Proof.
  split; [reflexivity|]. split; [reflexivity|]. split; [reflexivity|].
  split; reflexivity.
Qed.

(** The period is nearly over when the context of a monitor of the order
    400000009 is cancelled; the tick falls due before the [select] has
    taken the context, the [select] takes the tick, and the fetch ends
    with a call of the callback. *)
Example tick_taken_after_cancellation :
  let raced :=
    {| ctx := Some Canceled; elapsed := interval; tickerC := true;
       point := AtSelect; world := Ref.world []; handled := [] |} in
  MonitorOrderStatus (Ref.service Ref.simulated) None "400000009"
    (Some Ref.accept) (Ref.world [])
    [Elapse (interval - 1); Cancel Cancelled; Elapse 1] = Some raced
  /\ exists m : Monitor,
      run (Ref.service Ref.simulated) "400000009" (Some Ref.accept)
        [ReceiveTick; FetchReturns] raced = Some m
      /\ ctx m = Some Canceled
      /\ point m = Returned None
      /\ map MaintenanceOrderStatus.Status (handled m) = ["CLSD"].
Proof.
  split; [reflexivity|].
  eexists. split; [reflexivity|]. cbn [ctx point handled].
  split; [reflexivity|]. split; reflexivity.
Qed.

(** C2 at the request of the test script. *)
Lemma C2_witness :
  exists resp : MaintenanceOrderResponse.t,
    fst (ProcessMaintenanceOrderEvent (Ref.service Ref.simulated) None
           Ref.pumpSeal (Ref.world [])) = Ok resp.
Proof.
  destruct (C2_simulated_submission_succeeds (Ref.service Ref.simulated) None
              Ref.pumpSeal (Ref.world []) eq_refl) as (resp & E & _).
  exists resp. exact E.
Defined.

(** C3 at an order id that ends in 9. *)
Lemma C3_witness :
  exists view : MaintenanceOrderStatus.t,
    fst (GetMaintenanceOrderStatus (Ref.service Ref.simulated) None
           "400000009" (Ref.world [])) = Ok view
    /\ MaintenanceOrderStatus.Status view = "CLSD".
Proof.
  destruct (C3_status_from_last_character (Ref.service Ref.simulated)
              None None (Ref.world []) (Ref.world []) "400000009" eq_refl
              ltac:(discriminate))
    as (last & L & _ & _ & _ & _ & _ & _ & Closed).
  injection L as <-. apply Closed. reflexivity.
Defined.

(** C4 at a live service whose plant system cannot be reached at the
    first fetch, reports REL at the second and TECO at the third, with a
    callback that fails: three rounds, one call of the callback, and the
    monitor returns the failure of the callback. *)
Lemma C4_witness :
  exists m : Monitor,
    MonitorOrderStatus (Ref.service Ref.live) None "4711" (Some Ref.reject)
      (Ref.world Ref.threePolls) (rounds 3) = Some m
    /\ handled m = [Ref.view "4711" "TECO"]
    /\ point m = Returned (Ref.reject (Ref.view "4711" "TECO"))
    /\ length (sent (world m)) = 3.
Proof.
  destruct (C4_first_terminal_status_ends_monitoring
              (Ref.service Ref.live) "4711" Ref.reject
              (Ref.world Ref.threePolls) 2 (Ref.view "4711" "TECO"))
    as ((m & R) & After).
  - intros [|[|j]] Lt.
    + exact I.
    + reflexivity.
    + exfalso. lia.
  - reflexivity.
  - reflexivity.
  - exists m. split; [exact R|].
    destruct (After (rounds 3) m) as (_ & W & _ & Hd & Pt & _).
    + intros r [E|[E|[E|[E|[E|[E|[E|[E|[E|[]]]]]]]]]]; discriminate E.
    + exact R.
    + reflexivity.
    + split; [exact Hd|]. split; [exact Pt|]. rewrite W. reflexivity.
Defined.

(** C5, the run that contradicts the claim.  The monitor watches the
    order 400000009 on the simulator.  The period passes and the tick is
    received; while the fetch is under way the context is cancelled; the
    fetch returns the status CLSD.  The callback is called after the
    cancellation and the monitor returns the result of the callback,
    [nil], not the error of the context. *)
Lemma C5_counterexample :
  exists m0 m : Monitor,
    MonitorOrderStatus (Ref.service Ref.simulated) None "400000009"
      (Some Ref.accept) (Ref.world [])
      [Elapse interval; ReceiveTick; Cancel Cancelled] = Some m0
    /\ ctx m0 = Some Canceled /\ point m0 = InFetch /\ handled m0 = []
    /\ step (Ref.service Ref.simulated) "400000009" (Some Ref.accept)
         FetchReturns m0 = Some m
    /\ ctx m = Some Canceled
    /\ point m = Returned None
    /\ map MaintenanceOrderStatus.Status (handled m) = ["CLSD"].
Proof.
  do 2 eexists. split; [reflexivity|]. cbn [ctx point handled].
  split; [reflexivity|]. split; [reflexivity|]. split; [reflexivity|].
  split; [reflexivity|]. split; [reflexivity|]. split; reflexivity.
Qed.

(** C5 at a monitor that is cancelled while it waits for its first
    tick. *)
Lemma C5_witness :
  exists err : error,
    option_map point
      (MonitorOrderStatus (Ref.service Ref.simulated) None "400000009"
         (Some Ref.accept) (Ref.world [])
         [Elapse 1000; Cancel Cancelled; ReceiveDone])
    = Some (Returned (Some err))
    /\ option_map handled
         (MonitorOrderStatus (Ref.service Ref.simulated) None "400000009"
            (Some Ref.accept) (Ref.world [])
            [Elapse 1000; Cancel Cancelled; ReceiveDone])
       = Some [].
Proof.
  destruct (C5_cancellation_seen_at_select (Ref.service Ref.simulated)
              "400000009" (Some Ref.accept)) as (_ & Seen & _).
  destruct (MonitorOrderStatus (Ref.service Ref.simulated) None "400000009"
              (Some Ref.accept) (Ref.world [])
              [Elapse 1000; Cancel Cancelled; ReceiveDone]) as [m|] eqn:R;
    [|discriminate R].
  destruct (Seen None (Ref.world [])
              [Elapse 1000%N; Cancel Cancelled; ReceiveDone] m R)
    as (err & Pt & _ & Hd).
  - right. right. left. reflexivity.
  - exists err. cbn [option_map]. rewrite Pt, Hd. split; reflexivity.
Defined.

(** C7, the run that contradicts the claim.  The plant system cannot be
    reached, so the creation of the notification fails; the error that
    [ProcessMaintenanceOrderEvent] returns is not that error but a new
    one around it. *)
Lemma C7_counterexample :
  exists cause err : error,
    fst (CreateNotification (sapClient (Ref.service Ref.live)) None
           (sap.ConvertMaintenanceOrderEventToNotificationRequest Ref.pumpSeal)
           (Ref.world [])) = Err cause
    /\ fst (ProcessMaintenanceOrderEvent (Ref.service Ref.live) None
              Ref.pumpSeal (Ref.world [])) = Err err
    /\ err <> cause
    /\ Error err
       = "failed to create SAP notification: failed to send request: dial tcp: connect: connection refused"
    /\ Error cause
       = "failed to send request: dial tcp: connect: connection refused".
Proof.
  do 2 eexists. split; [reflexivity|]. split; [reflexivity|].
  split; [|split; reflexivity]. apply wrapError_fresh.
Qed.

(** C8 at the request of the test script. *)
Lemma C8_witness :
  let req :=
    sap.ConvertMaintenanceOrderEventToOrderRequest Ref.pumpSeal "200000200" in
  SAPOrderRequest.MaintenancePlanningPlant req = "1000"
  /\ lookup_key "MaintOrdBasicStartDateTime" (SAPOrderRequest_keys req)
     = Some "2025-08-21T08:00:00Z"
  /\ lookup_key "MaintOrdBasicEndDateTime" (SAPOrderRequest_keys req) = None
  /\ map SAPOrderOperation.OperationStandardDuration
       (SAPOrderRequest.ToMaintenanceOrderOperation req) = ["4"].
Proof.
  destruct (C8_order_request_translation Ref.pumpSeal "200000200"
              Ref_FormatFloat_contract Ref_Format_contract)
    as (Plant & _ & _ & Start & End_ & _ & _ & _).
  split; [exact Plant|]. split; [exact Start|]. split; [exact End_|].
  reflexivity.
Defined.

(** C10 at a monitor that is cancelled ten seconds after its entry. *)
Lemma C10_witness :
  exists m : Monitor,
    MonitorOrderStatus (Ref.service Ref.simulated) None "400000009"
      (Some Ref.accept) (Ref.world [])
      [Elapse 10000000000; Cancel TimedOut; ReceiveDone] = Some m
    /\ point m = Returned (Some DeadlineExceeded)
    /\ world m = Ref.world [] /\ handled m = [].
Proof.
  destruct (C10_no_fetch_before_first_tick (Ref.service Ref.simulated)
              "400000009" (Some Ref.accept) None (Ref.world []))
    as (_ & _ & Early).
  apply (Early 10000000000%N TimedOut). reflexivity.
Defined.

End Runs.

(* ===================================================================== *)
(** * Further properties: the client *)
(* ===================================================================== *)

Section ClientRequests.
Context `{Runtime} `{JSON}.

Lemma roundTrip_sent {A : Type} (ctx : Context) (method url body : string)
  (headers : list (string * string)) (want : Z) (parse : string -> result A)
  (w : World) :
  sent (snd (roundTrip ctx method url body headers want parse w))
  = (sent w ++ outgoing method url body headers)%list.
Proof.
  unfold roundTrip, outgoing, bind, ret, httpClient_Do.
  destruct (http_NewRequest method url); [symmetry; apply app_nil_r|].
  destruct (plant w ctx (sent w) _) as [e|e|code respBody]; try reflexivity.
  destruct (negb (code =? want)%Z); [reflexivity|].
  destruct (parse respBody); reflexivity.
Qed.

(** X1.  An operation of the client hands at most one request to the
    HTTP client, and never a second one after a failure: the simulator
    sends nothing; a live client sends nothing when the request cannot be
    marshalled or built, and otherwise sends one POST (create) or one GET
    (read) to the address made of the base URL and the path of the
    operation, the read with the order id between quotes and the query
    that asks for the operations. *)
Theorem X1_one_request_per_operation :
  forall (c : Client) (ctx : Context) (w : World),
    let base := config.BaseURL (config c) in
    (forall req,
        sent (snd (CreateNotification c ctx req w))
        = (sent w
           ++ (if simulatorMode c then []
               else match Marshal_SAPNotificationRequest req with
                    | Err _ => []
                    | Ok reqBody =>
                        outgoing "POST"
                          (base ++ "/API_MAINTENANCE_NOTIFICATION/A_MaintenanceNotification")
                          reqBody jsonHeaders
                    end))%list)
    /\ (forall req,
           sent (snd (CreateOrder c ctx req w))
           = (sent w
              ++ (if simulatorMode c then []
                  else match Marshal_SAPOrderRequest req with
                       | Err _ => []
                       | Ok reqBody =>
                           outgoing "POST"
                             (base ++ "/API_MAINTENANCE_ORDER/A_MaintenanceOrder")
                             reqBody jsonHeaders
                       end))%list)
    /\ (forall orderID,
           sent (snd (GetOrder c ctx orderID w))
           = (sent w
              ++ (if simulatorMode c then []
                  else outgoing "GET"
                         (base ++ "/API_MAINTENANCE_ORDER/A_MaintenanceOrder('"
                          ++ orderID ++ "')?%24expand=to_MaintenanceOrderOperation")
                         "" [("Accept", "application/json")]))%list)
    /\ (forall method url body headers,
           length (outgoing method url body headers) <= 1).
Proof.
  intros c ctx w base. subst base.
  unfold CreateNotification, CreateOrder, GetOrder, bind, enter.
  repeat split.
  - intros req. destruct (simulatorMode c); [symmetry; apply app_nil_r|].
    destruct (Marshal_SAPNotificationRequest req);
      [|symmetry; apply app_nil_r].
    rewrite roundTrip_sent. reflexivity.
  - intros req. destruct (simulatorMode c); [symmetry; apply app_nil_r|].
    destruct (Marshal_SAPOrderRequest req); [|symmetry; apply app_nil_r].
    rewrite roundTrip_sent. reflexivity.
  - intros orderID. destruct (simulatorMode c); [symmetry; apply app_nil_r|].
    rewrite roundTrip_sent. cbn [sent]. rewrite !append_assoc. reflexivity.
  - intros method url body headers. unfold outgoing.
    destruct (http_NewRequest method url); cbn; lia.
Qed.

End ClientRequests.

Section ClientErrors.
Context `{Runtime} `{JSON}.

Lemma roundTrip_reply {A : Type} (ctx : Context) (method url body : string)
  (headers : list (string * string)) (want : Z) (parse : string -> result A)
  (w : World) (code : Z) (respBody : string) :
  http_NewRequest method url = None ->
  plant w ctx (sent w)
    {| Method := method; URL := url; Header := headers; Body := body |}
  = Response code respBody ->
  fst (roundTrip ctx method url body headers want parse w)
  = if (code =? want)%Z then
      match parse respBody with
      | Ok resp => Ok resp
      | Err err => Err (Errorf_w "failed to parse response: " err)
      end
    else Err (errorString ("SAP API returned status " ++ itoa code ++ ": "
                           ++ respBody)).
Proof.
  intros Built Reply. unfold roundTrip, bind, ret, httpClient_Do.
  rewrite Built, Reply. destruct (code =? want)%Z; cbn [negb].
  - destruct (parse respBody); reflexivity.
  - reflexivity.
Qed.

Lemma roundTrip_error {A : Type} (ctx : Context) (method url body : string)
  (headers : list (string * string)) (want : Z) (parse : string -> result A)
  (w : World) (err : error) :
  fst (roundTrip ctx method url body headers want parse w) = Err err ->
  clientError err = true.
Proof.
  unfold roundTrip, bind, ret, httpClient_Do.
  destruct (http_NewRequest method url);
    [intros E; injection E as <-; reflexivity|].
  destruct (plant w ctx (sent w) _) as [e|e|code respBody];
    try (intros E; injection E as <-; reflexivity).
  destruct (negb (code =? want)%Z);
    [intros E; injection E as <-; reflexivity|].
  destruct (parse respBody); intros E; [discriminate E|].
  injection E as <-. reflexivity.
Qed.

(** X2.  A live operation succeeds on one status code only, 201 for the
    two creations and 200 for the read.  Any other code that the plant
    system answers, among them 200 to a creation and 201 to a read, makes
    the operation fail with an error that has no cause and whose message
    gives the code and the body as received; with the right code the
    result is what the body parses to, or the parse error under the words
    of the client. *)
Theorem X2_success_is_one_status_code :
  forall (c : Client) (ctx : Context) (w : World) (code : Z) (respBody : string),
    simulatorMode c = false ->
    let refused :=
      errorString ("SAP API returned status " ++ itoa code ++ ": " ++ respBody) in
    let base := config.BaseURL (config c) in
    (forall req reqBody,
        let url :=
          base ++ "/API_MAINTENANCE_NOTIFICATION/A_MaintenanceNotification" in
        Marshal_SAPNotificationRequest req = Ok reqBody ->
        http_NewRequest "POST" url = None ->
        plant w ctx (sent w)
          {| Method := "POST"; URL := url; Header := jsonHeaders;
             Body := reqBody |} = Response code respBody ->
        fst (CreateNotification c ctx req w)
        = if (code =? 201)%Z then
            match Unmarshal_SAPNotificationResponse respBody with
            | Ok resp => Ok resp
            | Err err => Err (Errorf_w "failed to parse response: " err)
            end
          else Err refused)
    /\ (forall req reqBody,
           let url := base ++ "/API_MAINTENANCE_ORDER/A_MaintenanceOrder" in
           Marshal_SAPOrderRequest req = Ok reqBody ->
           http_NewRequest "POST" url = None ->
           plant w ctx (sent w)
             {| Method := "POST"; URL := url; Header := jsonHeaders;
                Body := reqBody |} = Response code respBody ->
           fst (CreateOrder c ctx req w)
           = if (code =? 201)%Z then
               match Unmarshal_SAPOrderResponse respBody with
               | Ok resp => Ok resp
               | Err err => Err (Errorf_w "failed to parse response: " err)
               end
             else Err refused)
    /\ (forall orderID,
           let url :=
             (base ++ "/API_MAINTENANCE_ORDER/A_MaintenanceOrder('" ++ orderID
              ++ "')") ++ "?" ++ "%24expand=to_MaintenanceOrderOperation" in
           http_NewRequest "GET" url = None ->
           plant w ctx (sent w)
             {| Method := "GET"; URL := url;
                Header := [("Accept", "application/json")];
                Body := "" |} = Response code respBody ->
           fst (GetOrder c ctx orderID w)
           = if (code =? 200)%Z then
               match Unmarshal_SAPOrderResponse respBody with
               | Ok resp => Ok resp
               | Err err => Err (Errorf_w "failed to parse response: " err)
               end
             else Err refused)
    /\ Unwrap refused = None.
Proof.
  intros c ctx w code respBody Live refused base.
  unfold CreateNotification, CreateOrder, GetOrder, bind, enter.
  rewrite Live. cbv zeta. split; [|split; [|split; [|reflexivity]]].
  - intros req reqBody M Built Reply. rewrite M.
    erewrite roundTrip_reply; [reflexivity|exact Built|exact Reply].
  - intros req reqBody M Built Reply. rewrite M.
    erewrite roundTrip_reply; [reflexivity|exact Built|exact Reply].
  - intros orderID Built Reply.
    erewrite roundTrip_reply; [reflexivity|exact Built|exact Reply].
Qed.

(** X3.  Every error that an operation of the client returns starts
    with one of six texts, which name the stage that failed: marshalling,
    building the request, sending it, reading the reply, the status code,
    parsing the body. *)
Theorem X3_client_errors_name_their_stage :
  forall (c : Client) (ctx : Context) (w : World),
    (forall req,
        match fst (CreateNotification c ctx req w) with
        | Err err => clientError err = true
        | Ok _ => True
        end)
    /\ (forall req,
           match fst (CreateOrder c ctx req w) with
           | Err err => clientError err = true
           | Ok _ => True
           end)
    /\ (forall orderID,
           match fst (GetOrder c ctx orderID w) with
           | Err err => clientError err = true
           | Ok _ => True
           end).
Proof.
  intros c ctx w. unfold CreateNotification, CreateOrder, GetOrder, bind, enter.
  split; [|split].
  - intros req. destruct (simulatorMode c); [exact I|].
    destruct (Marshal_SAPNotificationRequest req); [|reflexivity].
    destruct (fst (roundTrip _ _ _ _ _ _ _ _)) eqn:E; [exact I|].
    apply roundTrip_error in E. exact E.
  - intros req. destruct (simulatorMode c); [exact I|].
    destruct (Marshal_SAPOrderRequest req); [|reflexivity].
    destruct (fst (roundTrip _ _ _ _ _ _ _ _)) eqn:E; [exact I|].
    apply roundTrip_error in E. exact E.
  - intros orderID. destruct (simulatorMode c); [exact I|].
    destruct (fst (roundTrip _ _ _ _ _ _ _ _)) eqn:E; [exact I|].
    apply roundTrip_error in E. exact E.
Qed.

End ClientErrors.

(* ===================================================================== *)
(** * Further properties: the simulator *)
(* ===================================================================== *)

Section SimulatorMore.
Context `{Runtime} `{JSON}.

Lemma fmt_0d_three (n : Z) :
  (0 <= n < 1000)%Z -> threeDigits (fmt_0d 3 n) = true.
Proof.
  intros R.
  assert (forallb (fun k => threeDigits (fmt_0d 3 (Z.of_nat k))) (seq 0 1000)
          = true) as All by (vm_compute; reflexivity).
  rewrite forallb_forall in All.
  rewrite <- (Z2Nat.id n) by lia. apply All. apply in_seq. lia.
Qed.

Lemma mockOperations_nth (orderID : string) (ops : list SAPOrderOperation.t) :
  forall k i : nat,
    nth_error (mockOperations orderID k ops) i
    = option_map (mockOperation orderID (k + i)) (nth_error ops i).
Proof.
  induction ops as [|op ops IH]; intros k i; cbn [mockOperations].
  - destruct i; reflexivity.
  - destruct i as [|i]; cbn [nth_error option_map].
    + rewrite Nat.add_0_r. reflexivity.
    + rewrite IH. replace (S k + i) with (k + S i) by lia. reflexivity.
Qed.

Lemma mockOperations_length (orderID : string) (ops : list SAPOrderOperation.t) :
  forall k : nat, length (mockOperations orderID k ops) = length ops.
Proof.
  induction ops as [|op ops IH]; intros k; cbn [mockOperations length];
    [reflexivity | now rewrite IH].
Qed.

(** X4.  While the clock of the host is not before 1970, the ids that
    the simulator gives out are the text 200000 (a notification) or 400000
    (an order) followed by exactly three digits. *)
Theorem X4_simulated_ids_have_nine_digits :
  forall (c : Client) (ctx : Context) (w : World)
         (notificationReq : SAPNotificationRequest.t)
         (orderReq : SAPOrderRequest.t),
    simulatorMode c = true ->
    (0 <= time_Unix (now w (clock_reads w)))%Z ->
    (exists resp tail,
        fst (CreateNotification c ctx notificationReq w) = Ok resp
        /\ SAPNotificationResponse.Notification (SAPNotificationResponse.D resp)
           = "200000" ++ tail
        /\ threeDigits tail = true)
    /\ (exists resp tail,
           fst (CreateOrder c ctx orderReq w) = Ok resp
           /\ SAPOrderResponse.MaintenanceOrder (SAPOrderResponse.D resp)
              = "400000" ++ tail
           /\ threeDigits tail = true).
Proof.
  intros c ctx w notificationReq orderReq Sim Epoch.
  unfold CreateNotification, CreateOrder, bind, enter, ret. rewrite Sim.
  assert (0 <= Z.rem (time_Unix (now w (clock_reads w))) 1000 < 1000)%Z as R.
  { apply Z.rem_bound_pos; lia. }
  split; do 2 eexists; (split; [reflexivity|]);
    (split; [reflexivity|]); apply fmt_0d_three; exact R.
Qed.

(** X5.  The order that the simulator makes of an order request has the
    status CRTD and the type, description, equipment, plant, planned times
    and notification of the request.  It has one operation for each
    operation of the request, in order; operation [i], counted from 0,
    carries the id of the order, the number [(i + 1) * 10] written with
    four digits at least, the text, work centre, control key and duration
    of its request line, and no status. *)
Theorem X5_simulated_order_echoes_request :
  forall (c : Client) (ctx : Context) (req : SAPOrderRequest.t) (w : World),
    simulatorMode c = true ->
    exists resp : SAPOrderResponse.t,
      fst (CreateOrder c ctx req w) = Ok resp
      /\ let d := SAPOrderResponse.D resp in
         SAPOrderResponse.OrderStatus d = "CRTD"
         /\ SAPOrderResponse.MaintenanceOrderType d
            = SAPOrderRequest.MaintenanceOrderType req
         /\ SAPOrderResponse.Description d = SAPOrderRequest.Description req
         /\ SAPOrderResponse.Equipment d = SAPOrderRequest.Equipment req
         /\ SAPOrderResponse.Plant d = SAPOrderRequest.Plant req
         /\ SAPOrderResponse.MaintOrdBasicStartDateTime d
            = SAPOrderRequest.MaintOrdBasicStartDateTime req
         /\ SAPOrderResponse.MaintOrdBasicEndDateTime d
            = SAPOrderRequest.MaintOrdBasicEndDateTime req
         /\ SAPOrderResponse.MaintenanceNotification d
            = SAPOrderRequest.MaintenanceNotification req
         /\ length (SAPOrderResponse.Results d)
            = length (SAPOrderRequest.ToMaintenanceOrderOperation req)
         /\ forall (i : nat) (op : SAPOrderOperation.t),
             nth_error (SAPOrderRequest.ToMaintenanceOrderOperation req) i
             = Some op ->
             exists line : SAPOrderOperationResponse.t,
               nth_error (SAPOrderResponse.Results d) i = Some line
               /\ SAPOrderOperationResponse.MaintenanceOrder line
                  = SAPOrderResponse.MaintenanceOrder d
               /\ SAPOrderOperationResponse.MaintenanceOrderOperation line
                  = fmt_0d 4 ((Z.of_nat i + 1) * 10)
               /\ SAPOrderOperationResponse.OperationText line
                  = SAPOrderOperation.OperationText op
               /\ SAPOrderOperationResponse.WorkCenter line
                  = SAPOrderOperation.WorkCenter op
               /\ SAPOrderOperationResponse.OperationControlKey line
                  = SAPOrderOperation.OperationControlKey op
               /\ SAPOrderOperationResponse.OperationStandardDuration line
                  = SAPOrderOperation.OperationStandardDuration op
               /\ SAPOrderOperationResponse.OperationDurationUnit line
                  = SAPOrderOperation.OperationDurationUnit op
               /\ SAPOrderOperationResponse.OperationStatus line = "".
Proof.
  intros c ctx req w Sim.
  unfold CreateOrder, bind, enter, ret. rewrite Sim.
  eexists. split; [reflexivity|].
  cbn [createMockOrderResponse bind ret time_Now fst snd SAPOrderResponse.D].
  unfold createMockOrderResponse, bind, ret, time_Now.
  cbn [fst snd SAPOrderResponse.D SAPOrderResponse.OrderStatus
       SAPOrderResponse.MaintenanceOrderType SAPOrderResponse.Description
       SAPOrderResponse.Equipment SAPOrderResponse.Plant
       SAPOrderResponse.MaintOrdBasicStartDateTime
       SAPOrderResponse.MaintOrdBasicEndDateTime
       SAPOrderResponse.MaintenanceNotification SAPOrderResponse.Results
       SAPOrderResponse.MaintenanceOrder].
  do 8 (split; [reflexivity|]).
  split; [apply mockOperations_length|].
  intros i op Nth. rewrite mockOperations_nth, Nth. cbn [option_map Nat.add].
  eexists. split; [reflexivity|]. repeat split.
Qed.

Lemma statusOfLastDigit_cases (last : ascii) :
  In (statusOfLastDigit last) ["CRTD"; "REL"; "TECO"; "CLSD"]
  /\ (isDigit last = false -> statusOfLastDigit last = "CRTD").
Proof.
  unfold statusOfLastDigit.
  destruct (last =? "0")%char eqn:E0;
    [apply Ascii.eqb_eq in E0; subst; cbn; intuition discriminate|].
  destruct (last =? "1")%char eqn:E1;
    [apply Ascii.eqb_eq in E1; subst; cbn; intuition discriminate|].
  destruct (last =? "2")%char eqn:E2;
    [apply Ascii.eqb_eq in E2; subst; cbn; intuition discriminate|].
  destruct (last =? "3")%char eqn:E3;
    [apply Ascii.eqb_eq in E3; subst; cbn; intuition discriminate|].
  destruct (last =? "4")%char eqn:E4;
    [apply Ascii.eqb_eq in E4; subst; cbn; intuition discriminate|].
  destruct (last =? "5")%char eqn:E5;
    [apply Ascii.eqb_eq in E5; subst; cbn; intuition discriminate|].
  destruct (last =? "6")%char eqn:E6;
    [apply Ascii.eqb_eq in E6; subst; cbn; intuition discriminate|].
  destruct (last =? "7")%char eqn:E7;
    [apply Ascii.eqb_eq in E7; subst; cbn; intuition discriminate|].
  destruct (last =? "8")%char eqn:E8;
    [apply Ascii.eqb_eq in E8; subst; cbn; intuition discriminate|].
  destruct (last =? "9")%char eqn:E9;
    [apply Ascii.eqb_eq in E9; subst; cbn; intuition discriminate|].
  cbn. intuition.
Qed.

(** X6.  The simulator reads an order under every id, and the status it
    reports is one of CRTD, REL, TECO and CLSD; it is CRTD for the empty
    id and for an id whose last character is not a digit. *)
Theorem X6_simulated_status_of_any_id :
  forall (c : Client) (ctx : Context) (orderID : string) (w : World),
    simulatorMode c = true ->
    exists resp : SAPOrderResponse.t,
      fst (GetOrder c ctx orderID w) = Ok resp
      /\ In (SAPOrderResponse.OrderStatus (SAPOrderResponse.D resp))
           ["CRTD"; "REL"; "TECO"; "CLSD"]
      /\ (orderID = "" ->
          SAPOrderResponse.OrderStatus (SAPOrderResponse.D resp) = "CRTD")
      /\ (forall last,
             last_byte orderID = Some last -> isDigit last = false ->
             SAPOrderResponse.OrderStatus (SAPOrderResponse.D resp) = "CRTD").
Proof.
  intros c ctx orderID w Sim.
  destruct (GetOrder_simulated c ctx orderID w Sim) as (resp & E & _ & St).
  exists resp. split; [exact E|]. rewrite St. unfold mockStatus.
  split; [|split].
  - destruct (last_byte orderID) as [last|];
      [apply statusOfLastDigit_cases | left; reflexivity].
  - intros ->. reflexivity.
  - intros last L D. rewrite L. apply statusOfLastDigit_cases. exact D.
Qed.

End SimulatorMore.

Section SimulatedWorkflow.
Context `{Runtime} `{JSON}.

(** The three operations on the simulator, spelled out. *)
Lemma CreateNotification_on_simulator (c : Client) (ctx : Context)
  (req : SAPNotificationRequest.t) (w : World) :
  simulatorMode c = true ->
  CreateNotification c ctx req w
  = (Ok {| SAPNotificationResponse.D :=
             {| SAPNotificationResponse.Notification :=
                  "200000"
                  ++ fmt_0d 3 (Z.rem (time_Unix (now w (clock_reads w))) 1000);
                SAPNotificationResponse.Description :=
                  SAPNotificationRequest.Description req;
                SAPNotificationResponse.Plant :=
                  SAPNotificationRequest.Plant req |} |},
     {| now := now w; clock_reads := S (clock_reads w); plant := plant w;
        sent := sent w;
        calls := (calls w ++ [CallCreateNotification req])%list |}).
Proof.
  intros Sim. unfold CreateNotification, bind, enter. rewrite Sim. reflexivity.
Qed.

Lemma CreateOrder_on_simulator (c : Client) (ctx : Context)
  (req : SAPOrderRequest.t) (w : World) :
  simulatorMode c = true ->
  exists resp : SAPOrderResponse.t,
    CreateOrder c ctx req w
    = (Ok resp,
       {| now := now w; clock_reads := S (clock_reads w); plant := plant w;
          sent := sent w;
          calls := (calls w ++ [CallCreateOrder req])%list |})
    /\ SAPOrderResponse.MaintenanceOrder (SAPOrderResponse.D resp)
       = "400000" ++ fmt_0d 3 (Z.rem (time_Unix (now w (clock_reads w))) 1000).
Proof.
  intros Sim. unfold CreateOrder, bind, enter. rewrite Sim.
  eexists. split; reflexivity.
Qed.

Lemma GetOrder_on_simulator (c : Client) (ctx : Context) (orderID : string)
  (w : World) :
  simulatorMode c = true ->
  exists resp : SAPOrderResponse.t,
    GetOrder c ctx orderID w
    = (Ok resp,
       {| now := now w; clock_reads := S (S (clock_reads w)); plant := plant w;
          sent := sent w;
          calls := (calls w ++ [CallGetOrder orderID])%list |})
    /\ SAPOrderResponse.MaintenanceOrder (SAPOrderResponse.D resp) = orderID
    /\ SAPOrderResponse.OrderStatus (SAPOrderResponse.D resp)
       = mockStatus orderID.
Proof.
  intros Sim. unfold GetOrder, bind, enter. rewrite Sim.
  eexists. split; [reflexivity|]. split; reflexivity.
Qed.

(** What a submission to the simulator returns, and what it leaves. *)
Lemma Process_simulated (s : MaintenanceService) (ctx : Context)
  (event : MaintenanceOrderEvent.t) (w : World) :
  simulatorMode (sapClient s) = true ->
  let orderID :=
    "400000" ++ fmt_0d 3 (Z.rem (time_Unix (now w (S (clock_reads w)))) 1000) in
  fst (ProcessMaintenanceOrderEvent s ctx event w)
  = Ok {| MaintenanceOrderResponse.OrderID := orderID;
          MaintenanceOrderResponse.NotificationID :=
            "200000"
            ++ fmt_0d 3 (Z.rem (time_Unix (now w (clock_reads w))) 1000);
          MaintenanceOrderResponse.Status := mockStatus orderID;
          MaintenanceOrderResponse.Message :=
            "Maintenance order created successfully";
          MaintenanceOrderResponse.CreatedAt := now w (4 + clock_reads w) |}
  /\ sent (snd (ProcessMaintenanceOrderEvent s ctx event w)) = sent w
  /\ plant (snd (ProcessMaintenanceOrderEvent s ctx event w)) = plant w
  /\ now (snd (ProcessMaintenanceOrderEvent s ctx event w)) = now w
  /\ clock_reads (snd (ProcessMaintenanceOrderEvent s ctx event w))
     = 5 + clock_reads w.
Proof.
  intros Sim orderID.
  unfold ProcessMaintenanceOrderEvent, bind.
  rewrite (CreateNotification_on_simulator _ ctx _ w Sim).
  cbn [SAPNotificationResponse.D SAPNotificationResponse.Notification].
  match goal with
  | |- context [CreateOrder ?c ?x ?req ?w1] =>
      destruct (CreateOrder_on_simulator c x req w1 Sim) as (order & -> & Id)
  end.
  cbn [now clock_reads] in Id. fold orderID in Id. rewrite Id.
  match goal with
  | |- context [GetOrder ?c ?x ?id ?w2] =>
      destruct (GetOrder_on_simulator c x id w2 Sim)
        as (verify & -> & Got & Status)
  end.
  rewrite Got, Status, String.eqb_refl.
  cbn [negb time_Now ret fst snd now clock_reads plant sent].
  split; [reflexivity|]. split; [reflexivity|]. split; [reflexivity|].
  split; reflexivity.
Qed.

(** X7.  A submission to the simulator followed by a read of the order
    it returned: the read gives a view with the same order id and the
    same status; the rest of the view is the stock order of the simulator
    (notification 200000123, equipment 10000045, plant 1000, one confirmed
    operation), whatever the event said; and neither step sends a
    request. *)
Theorem X7_simulator_keeps_no_order :
  forall (s : MaintenanceService) (ctx ctx' : Context)
         (event : MaintenanceOrderEvent.t) (w : World),
    simulatorMode (sapClient s) = true ->
    let submitted := ProcessMaintenanceOrderEvent s ctx event w in
    exists (resp : MaintenanceOrderResponse.t) (view : MaintenanceOrderStatus.t),
      fst submitted = Ok resp
      /\ let read :=
           GetMaintenanceOrderStatus s ctx'
             (MaintenanceOrderResponse.OrderID resp) (snd submitted) in
         fst read = Ok view
         /\ MaintenanceOrderStatus.OrderID view
            = MaintenanceOrderResponse.OrderID resp
         /\ MaintenanceOrderStatus.Status view
            = MaintenanceOrderResponse.Status resp
         /\ MaintenanceOrderStatus.NotificationID view = "200000123"
         /\ MaintenanceOrderStatus.Description view = "Mock maintenance order"
         /\ MaintenanceOrderStatus.EquipmentID view = "10000045"
         /\ MaintenanceOrderStatus.Plant view = "1000"
         /\ map OperationStatus.Status (MaintenanceOrderStatus.Operations view)
            = ["CNF"]
         /\ sent (snd read) = sent w.
Proof.
  intros s ctx ctx' event w Sim submitted.
  destruct (Process_simulated s ctx event w Sim) as (E & S0 & _).
  subst submitted. rewrite E. do 2 eexists. split; [reflexivity|].
  cbn [MaintenanceOrderResponse.OrderID MaintenanceOrderResponse.Status].
  unfold GetMaintenanceOrderStatus, GetOrder, createMockOrderStatusResponse,
    bind, ret, enter, time_Now.
  rewrite Sim. cbn [fst snd sent]. rewrite S0.
  split; [reflexivity|]. repeat split.
Qed.

End SimulatedWorkflow.

(* ===================================================================== *)
(** * Further properties: the translation of an order into a view *)
(* ===================================================================== *)

Section ViewOfOrder.
Context `{Runtime}.

Lemma parseTimeField_Some (field : string) (t : Time) :
  parseTimeField field = Some t <-> field <> "" /\ time_Parse field = Ok t.
Proof.
  unfold parseTimeField.
  destruct (String.eqb_spec field "") as [->|NE].
  - split; [discriminate | intros (NE & _); congruence].
  - destruct (time_Parse field) as [t'|err]; split.
    + intros E. injection E as <-. auto.
    + intros (_ & E). congruence.
    + discriminate.
    + intros (_ & E). discriminate E.
Qed.

(** X8.  [ConvertSAPOrderResponseToStatus] never fails.  It hands the
    status of the order on as it is.  The two times of the view, named
    actual, are read from the basic start and end of the order: a time is
    present exactly when the field is not empty and parses in the layout
    RFC3339, and absent otherwise.  The operations of the view are those
    of the order, in order; the worked quantity of one is the number its
    text parses to, and zero when the text is empty or does not parse. *)
Theorem X8_view_of_an_order :
  forall resp : SAPOrderResponse.t,
    let d := SAPOrderResponse.D resp in
    let view := ConvertSAPOrderResponseToStatus resp in
    MaintenanceOrderStatus.Status view = SAPOrderResponse.OrderStatus d
    /\ (forall t,
           MaintenanceOrderStatus.ActualStartTime view = Some t <->
           SAPOrderResponse.MaintOrdBasicStartDateTime d <> ""
           /\ time_Parse (SAPOrderResponse.MaintOrdBasicStartDateTime d) = Ok t)
    /\ (forall t,
           MaintenanceOrderStatus.ActualEndTime view = Some t <->
           SAPOrderResponse.MaintOrdBasicEndDateTime d <> ""
           /\ time_Parse (SAPOrderResponse.MaintOrdBasicEndDateTime d) = Ok t)
    /\ length (MaintenanceOrderStatus.Operations view)
       = length (SAPOrderResponse.Results d)
    /\ forall (i : nat) (op : SAPOrderOperationResponse.t),
        nth_error (SAPOrderResponse.Results d) i = Some op ->
        exists o : OperationStatus.t,
          nth_error (MaintenanceOrderStatus.Operations view) i = Some o
          /\ OperationStatus.OperationID o
             = SAPOrderOperationResponse.MaintenanceOrderOperation op
          /\ OperationStatus.Text o = SAPOrderOperationResponse.OperationText op
          /\ OperationStatus.Status o
             = SAPOrderOperationResponse.OperationStatus op
          /\ OperationStatus.WorkQuantityUnit o
             = SAPOrderOperationResponse.WorkQuantityUnit op
          /\ OperationStatus.ActualWorkQuantity o
             = match strconv_ParseFloat
                       (SAPOrderOperationResponse.ActualWorkQuantity op) with
               | Ok qty =>
                   if SAPOrderOperationResponse.ActualWorkQuantity op =? ""
                   then float64_zero else qty
               | Err _ => float64_zero
               end.
Proof.
  intros resp d view. subst view d.
  cbn [ConvertSAPOrderResponseToStatus MaintenanceOrderStatus.Status
       MaintenanceOrderStatus.ActualStartTime MaintenanceOrderStatus.ActualEndTime
       MaintenanceOrderStatus.Operations].
  split; [reflexivity|].
  split; [intros t; apply parseTimeField_Some|].
  split; [intros t; apply parseTimeField_Some|].
  split; [apply length_map|].
  intros i op Nth. exists (convertOperationStatus op).
  split; [rewrite nth_error_map, Nth; reflexivity|].
  do 4 (split; [reflexivity|]).
  cbn [convertOperationStatus OperationStatus.ActualWorkQuantity].
  destruct (_ =? ""); destruct (strconv_ParseFloat _); reflexivity.
Qed.

End ViewOfOrder.

(* ===================================================================== *)
(** * Further properties: the service *)
(* ===================================================================== *)

Import completion api.

Section DoneEvent.
Context `{Runtime} `{JSON}.

(** X9.  [HandleMaintenanceDoneEvent] reads the order of the event once
    and does nothing else with the plant system.  It returns [nil] exactly
    when that read succeeds; when the read fails it returns an error that
    wraps the error of the service, which wraps the error of the client.
    Nothing of the event but its order id plays a part: neither its status
    nor its time of completion, hours or notes is compared with the order
    read.  On the simulator every event is accepted. *)
Theorem X9_done_event_reads_the_order_once :
  forall (s : MaintenanceService) (ctx : Context)
         (event : MaintenanceDoneEvent.t) (w : World),
    let outcome := HandleMaintenanceDoneEvent s ctx event w in
    let orderID := MaintenanceDoneEvent.OrderID event in
    issued w (snd outcome) = [CallGetOrder orderID]
    /\ snd outcome = snd (GetOrder (sapClient s) ctx orderID w)
    /\ match fst (GetOrder (sapClient s) ctx orderID w) with
       | Ok _ => fst outcome = None
       | Err cause =>
           exists err mid,
             fst outcome = Some err
             /\ Unwrap err = Some mid /\ Unwrap mid = Some cause
             /\ Error err
                = "failed to verify order: failed to get order from SAP: "
                  ++ Error cause
       end
    /\ (forall event' : MaintenanceDoneEvent.t,
           MaintenanceDoneEvent.OrderID event' = orderID ->
           HandleMaintenanceDoneEvent s ctx event' w = outcome)
    /\ (simulatorMode (sapClient s) = true -> fst outcome = None).
Proof.
  intros s ctx event w outcome orderID. subst outcome.
  unfold HandleMaintenanceDoneEvent, GetMaintenanceOrderStatus, bind, ret.
  fold orderID.
  pose proof (GetOrder_calls (sapClient s) ctx orderID w) as Calls.
  split; [|split; [|split; [|split]]].
  - apply issued_app.
    destruct (GetOrder (sapClient s) ctx orderID w) as [[resp|cause] w1];
      exact Calls.
  - destruct (GetOrder (sapClient s) ctx orderID w) as [[resp|cause] w1];
      reflexivity.
  - destruct (GetOrder (sapClient s) ctx orderID w) as [[resp|cause] w1];
      cbn [fst]; [reflexivity|].
    do 2 eexists. split; [reflexivity|]. split; [reflexivity|].
    split; reflexivity.
  - intros event' Same. rewrite Same. reflexivity.
  - intros Sim.
    destruct (GetOrder_simulated (sapClient s) ctx orderID w Sim)
      as (resp & E & _).
    destruct (GetOrder (sapClient s) ctx orderID w) as [r w1].
    cbn [fst] in E. subst r. reflexivity.
Qed.

End DoneEvent.

Section Traffic.
Context `{Runtime} `{JSON}.

Lemma roundTrip_adds {A : Type} (ctx : Context) (method url body : string)
  (headers : list (string * string)) (want : Z) (parse : string -> result A)
  (w : World) (before : list Request) :
  before = sent w ->
  adds method false
    (succeeded (fst (roundTrip ctx method url body headers want parse w)))
    before (sent (snd (roundTrip ctx method url body headers want parse w))).
Proof.
  intros ->. unfold roundTrip, bind, ret, httpClient_Do.
  destruct (http_NewRequest method url).
  - exists []. cbn. rewrite app_nil_r. repeat split; auto; discriminate.
  - eexists [_].
    split; [destruct (plant w ctx (sent w) _) as [e|e|code respBody];
            try reflexivity;
            destruct (negb (code =? want)%Z); [reflexivity|];
            destruct (parse respBody); reflexivity|].
    split; [right; eexists; split; reflexivity|].
    split; [discriminate | intros _ _; eexists; reflexivity].
Qed.

Lemma nothing_added (method : string) (simulated ok : bool)
  (before : list Request) :
  (simulated = false -> ok = false) -> adds method simulated ok before before.
Proof.
  intros F. exists []. rewrite app_nil_r. repeat split; auto.
  intros L O. rewrite (F L) in O. discriminate O.
Qed.

Lemma CreateNotification_adds (c : Client) (ctx : Context)
  (req : SAPNotificationRequest.t) (w : World) :
  adds "POST" (simulatorMode c)
    (succeeded (fst (CreateNotification c ctx req w)))
    (sent w) (sent (snd (CreateNotification c ctx req w))).
Proof.
  unfold CreateNotification, bind, enter.
  destruct (simulatorMode c); [apply nothing_added; discriminate|].
  destruct (Marshal_SAPNotificationRequest req);
    [|apply nothing_added; reflexivity].
  apply (roundTrip_adds ctx "POST"). reflexivity.
Qed.

Lemma CreateOrder_adds (c : Client) (ctx : Context)
  (req : SAPOrderRequest.t) (w : World) :
  adds "POST" (simulatorMode c)
    (succeeded (fst (CreateOrder c ctx req w)))
    (sent w) (sent (snd (CreateOrder c ctx req w))).
Proof.
  unfold CreateOrder, bind, enter.
  destruct (simulatorMode c); [apply nothing_added; discriminate|].
  destruct (Marshal_SAPOrderRequest req); [|apply nothing_added; reflexivity].
  apply (roundTrip_adds ctx "POST"). reflexivity.
Qed.

Lemma GetOrder_adds (c : Client) (ctx : Context) (orderID : string)
  (w : World) :
  adds "GET" (simulatorMode c)
    (succeeded (fst (GetOrder c ctx orderID w)))
    (sent w) (sent (snd (GetOrder c ctx orderID w))).
Proof.
  unfold GetOrder, bind, enter.
  destruct (simulatorMode c); [apply nothing_added; discriminate|].
  apply (roundTrip_adds ctx "GET"). reflexivity.
Qed.

End Traffic.

Section SubmissionTraffic.
Context `{Runtime} `{JSON}.

Ltac shape A rs E Sh Sim Live :=
  destruct A as (rs & E & Sh & Sim & Live).

Ltac methods :=
  repeat match goal with
         | Sh : _ = [] \/ _ |- _ => destruct Sh as [-> | (? & -> & ?)]
         end;
  cbn [map app];
  repeat match goal with
         | M : Method _ = _ |- _ => rewrite M; clear M
         end;
  cbn [In]; auto 6.

(** The requests of a submission. *)
Lemma submission_requests :
  forall (s : MaintenanceService) (ctx : Context)
         (event : MaintenanceOrderEvent.t) (w : World),
    let outcome := ProcessMaintenanceOrderEvent s ctx event w in
    exists rs : list Request,
      sent (snd outcome) = (sent w ++ rs)%list
      /\ In (map Method rs)
           [[]; ["POST"]; ["POST"; "POST"]; ["POST"; "POST"; "GET"]]
      /\ (simulatorMode (sapClient s) = true -> rs = [])
      /\ (simulatorMode (sapClient s) = false ->
          succeeded (fst outcome) = true ->
          map Method rs = ["POST"; "POST"; "GET"]).
Proof.
  intros s ctx event w outcome. subst outcome.
  unfold ProcessMaintenanceOrderEvent, bind, ret.
  set (c := sapClient s).
  pose proof (CreateNotification_adds c ctx
                (sap.ConvertMaintenanceOrderEventToNotificationRequest event) w)
    as A1.
  destruct (CreateNotification c ctx _ w) as [[notificationResp|e1] w1];
    cbn [fst snd succeeded] in *; shape A1 rs1 E1 Sh1 Sim1 Live1.
  2:{ exists rs1. split; [exact E1|]. split; [methods|].
      split; [exact Sim1 | discriminate]. }
  match goal with
  | |- context [CreateOrder c ctx ?req w1] =>
      pose proof (CreateOrder_adds c ctx req w1) as A2;
      destruct (CreateOrder c ctx req w1) as [[orderResp|e2] w2]
  end; cbn [fst snd succeeded] in *; shape A2 rs2 E2 Sh2 Sim2 Live2.
  2:{ exists (rs1 ++ rs2)%list. rewrite E2, E1, <- app_assoc.
      split; [reflexivity|]. split.
      - pose proof (fun L => Live1 L eq_refl) as One.
        destruct (simulatorMode c).
        + rewrite (Sim1 eq_refl), (Sim2 eq_refl). left. reflexivity.
        + destruct (One eq_refl) as (r1 & ->).
          destruct Sh1 as [? | (r & Er & M1)]; [discriminate|].
          injection Er as <-. clear Sim1 Live1 One. methods.
      - split; [|discriminate].
        intros S. rewrite (Sim1 S), (Sim2 S). reflexivity. }
  match goal with
  | |- context [GetOrder c ctx ?id w2] =>
      pose proof (GetOrder_adds c ctx id w2) as A3;
      destruct (GetOrder c ctx id w2) as [[verifyResp|e3] w3]
  end; cbn [fst snd succeeded] in *; shape A3 rs3 E3 Sh3 Sim3 Live3.
  - exists (rs1 ++ rs2 ++ rs3)%list.
    assert (sent w3 = (sent w ++ rs1 ++ rs2 ++ rs3)%list) as E.
    { rewrite E3, E2, E1, <- !app_assoc. reflexivity. }
    assert (simulatorMode c = false ->
            map Method (rs1 ++ rs2 ++ rs3)%list = ["POST"; "POST"; "GET"])
      as Three.
    { intros L.
      destruct (Live1 L eq_refl) as (r1 & ->).
      destruct (Live2 L eq_refl) as (r2 & ->).
      destruct (Live3 L eq_refl) as (r3 & ->).
      destruct Sh1 as [? | (? & Er1 & M1)]; [discriminate|].
      destruct Sh2 as [? | (? & Er2 & M2)]; [discriminate|].
      destruct Sh3 as [? | (? & Er3 & M3)]; [discriminate|].
      injection Er1 as <-. injection Er2 as <-. injection Er3 as <-.
      cbn [map app]. rewrite M1, M2, M3. reflexivity. }
    destruct (negb _); cbn [fst snd time_Now sent];
      (split; [exact E|]);
      (split; [destruct (simulatorMode c) eqn:S;
               [rewrite (Sim1 eq_refl), (Sim2 eq_refl), (Sim3 eq_refl);
                left; reflexivity
               |rewrite (Three eq_refl); cbn [In]; auto 6]|]);
      (split; [intros S; rewrite (Sim1 S), (Sim2 S), (Sim3 S); reflexivity|]);
      intros L _; apply Three; exact L.
  - exists (rs1 ++ rs2 ++ rs3)%list.
    split; [rewrite E3, E2, E1, <- !app_assoc; reflexivity|].
    split.
    + destruct (simulatorMode c) eqn:S.
      * rewrite (Sim1 eq_refl), (Sim2 eq_refl), (Sim3 eq_refl). left.
        reflexivity.
      * destruct (Live1 eq_refl eq_refl) as (r1 & ->).
        destruct (Live2 eq_refl eq_refl) as (r2 & ->).
        destruct Sh1 as [? | (? & Er1 & M1)]; [discriminate|].
        destruct Sh2 as [? | (? & Er2 & M2)]; [discriminate|].
        injection Er1 as <-. injection Er2 as <-.
        clear Sim1 Sim2 Live1 Live2.
        destruct Sh3 as [-> | (r3 & -> & M3)]; cbn [map app];
          rewrite M1, M2, ?M3; cbn [In]; auto 6.
    + split; [|discriminate].
      intros S. rewrite (Sim1 S), (Sim2 S), (Sim3 S). reflexivity.
Qed.

(** X10.  A submission hands at most three requests to the HTTP client,
    and they come in the order POST, POST, GET.  It stops at the first
    step that fails: the world it leaves is then the world that the
    failed step left, so no request is sent, no operation of the client
    is invoked and the clock is not read after the failure.  When the
    three steps succeed nothing follows them but one reading of the clock,
    and not even that when the order read back is another one.  On the
    simulator a submission sends no request.  A live submission that
    succeeds has sent exactly the three. *)
Theorem X10_submission_sends_at_most_three_requests :
  forall (s : MaintenanceService) (ctx : Context)
         (event : MaintenanceOrderEvent.t) (w : World),
    let c := sapClient s in
    let outcome := ProcessMaintenanceOrderEvent s ctx event w in
    (exists rs : list Request,
        sent (snd outcome) = (sent w ++ rs)%list
        /\ In (map Method rs)
             [[]; ["POST"]; ["POST"; "POST"]; ["POST"; "POST"; "GET"]]
        /\ (simulatorMode c = true -> rs = [])
        /\ (simulatorMode c = false ->
            succeeded (fst outcome) = true ->
            map Method rs = ["POST"; "POST"; "GET"]))
    /\ match
         CreateNotification c ctx
           (sap.ConvertMaintenanceOrderEventToNotificationRequest event) w
       with
       | (Err _, w1) => succeeded (fst outcome) = false /\ snd outcome = w1
       | (Ok notificationResp, w1) =>
           match
             CreateOrder c ctx
               (sap.ConvertMaintenanceOrderEventToOrderRequest event
                  (SAPNotificationResponse.Notification
                     (SAPNotificationResponse.D notificationResp))) w1
           with
           | (Err _, w2) => succeeded (fst outcome) = false /\ snd outcome = w2
           | (Ok orderResp, w2) =>
               let orderID :=
                 SAPOrderResponse.MaintenanceOrder
                   (SAPOrderResponse.D orderResp) in
               match GetOrder c ctx orderID w2 with
               | (Err _, w3) =>
                   succeeded (fst outcome) = false /\ snd outcome = w3
               | (Ok verifyResp, w3) =>
                   if SAPOrderResponse.MaintenanceOrder
                        (SAPOrderResponse.D verifyResp) =? orderID
                   then succeeded (fst outcome) = true
                        /\ snd outcome = snd (time_Now w3)
                   else succeeded (fst outcome) = false /\ snd outcome = w3
               end
           end
       end.
Proof.
  intros s ctx event w c outcome. split; [apply submission_requests|].
  subst outcome c. unfold ProcessMaintenanceOrderEvent, bind, ret.
  destruct (CreateNotification (sapClient s) ctx _ w)
    as [[notificationResp|e1] w1]; [|split; reflexivity].
  destruct (CreateOrder (sapClient s) ctx _ w1) as [[orderResp|e2] w2];
    [|split; reflexivity].
  cbv zeta.
  destruct (GetOrder (sapClient s) ctx _ w2) as [[verifyResp|e3] w3];
    [|split; reflexivity].
  destruct (_ =? _); cbn [negb]; [|split; reflexivity].
  destruct (time_Now w3) as [createdAt w4]. split; reflexivity.
Qed.

End SubmissionTraffic.

(* ===================================================================== *)
(** * Further properties: the handlers *)
(* ===================================================================== *)

Section HandlerOfReads.
Context `{Runtime} `{JSON}.

(** X11.  [GetMaintenanceOrder] answers 400, 500 or 200 and nothing
    else.  An empty id is answered 400 with the code MISSING_ORDER_ID
    and the client is not touched.  Any other id leads to one read of
    that order; the answer is 200 with the view when the read succeeds and
    500 with the code RETRIEVAL_ERROR and the message of the error as
    details when it fails. *)
Theorem X11_read_handler_answers :
  forall (h : MaintenanceHandler) (ctx : Context) (id : string) (w : World),
    let answer := GetMaintenanceOrder h ctx id w in
    In (code (fst answer))
      [StatusBadRequest; StatusInternalServerError; StatusOK]
    /\ (id = "" ->
        snd answer = w
        /\ fst answer
           = {| code := StatusBadRequest;
                obj := ErrorJSON
                         {| ErrorResponse.Error := "Order ID is required";
                            ErrorResponse.Code := "MISSING_ORDER_ID";
                            ErrorResponse.Details := None |} |})
    /\ (id <> "" ->
        issued w (snd answer) = [CallGetOrder id]
        /\ match fst (GetMaintenanceOrderStatus (maintenanceService h) ctx id w)
           with
           | Ok view =>
               fst answer = {| code := StatusOK; obj := StatusJSON view |}
           | Err err =>
               fst answer
               = {| code := StatusInternalServerError;
                    obj := ErrorJSON
                             {| ErrorResponse.Error :=
                                  "Failed to retrieve maintenance order";
                                ErrorResponse.Code := "RETRIEVAL_ERROR";
                                ErrorResponse.Details := Some (Error err) |} |}
           end).
Proof.
  intros h ctx id w answer. subst answer. unfold GetMaintenanceOrder, bind, ret.
  destruct (String.eqb_spec id "") as [->|NE].
  - split; [left; reflexivity|]. split; [auto | congruence].
  - assert (issued w (snd (GetMaintenanceOrderStatus (maintenanceService h)
                             ctx id w)) = [CallGetOrder id]) as Calls.
    { apply issued_app. unfold GetMaintenanceOrderStatus, bind, ret.
      pose proof (GetOrder_calls (sapClient (maintenanceService h)) ctx id w)
        as C.
      destruct (GetOrder _ ctx id w) as [[resp|err] w1]; exact C. }
    unfold GetMaintenanceOrderStatus, bind, ret in *.
    destruct (GetOrder _ ctx id w) as [[resp|err] w1]; cbn [fst snd] in *.
    + split; [right; right; left; reflexivity|].
      split; [congruence | intros _; split; [exact Calls | reflexivity]].
    + split; [right; left; reflexivity|].
      split; [congruence | intros _; split; [exact Calls | reflexivity]].
Qed.

End HandlerOfReads.

Section HandlersOfPosts.
Context `{Runtime} `{JSON} `{!Gin}.

(** X12.  [CreateMaintenanceOrder] answers 400, 500 or 201 and nothing
    else.  A request that does not bind or does not pass the validator is
    answered 400 and leaves the world as it was: it never reaches the
    client.  The answer is 201 exactly when the request binds, passes the
    validator and the service succeeds, and then it carries the response
    of the service.  Where the validator keeps the tags of the event, a
    request without equipment, plant or description is answered 400. *)
Theorem X12_create_handler_answers :
  forall (h : MaintenanceHandler) (ctx : Context) (request : string) (w : World),
    let answer := CreateMaintenanceOrder h ctx request w in
    In (status (fst answer))
      [StatusBadRequest; StatusInternalServerError; StatusCreated]
    /\ (status (fst answer) = StatusBadRequest -> snd answer = w)
    /\ (status (fst answer) = StatusCreated <->
        exists event response,
          ShouldBindJSON_MaintenanceOrderEvent request = Ok event
          /\ validator_Struct_MaintenanceOrderEvent event = None
          /\ fst (ProcessMaintenanceOrderEvent (maintenanceService h) ctx event w)
             = Ok response
          /\ body (fst answer) = OrderBody response)
    /\ (required_enforced ->
        forall event,
          ShouldBindJSON_MaintenanceOrderEvent request = Ok event ->
          MaintenanceOrderEvent.EquipmentID event = ""
          \/ MaintenanceOrderEvent.Plant event = ""
          \/ MaintenanceOrderEvent.Description event = "" ->
          status (fst answer) = StatusBadRequest /\ snd answer = w).
Proof.
  intros h ctx request w answer. subst answer.
  unfold CreateMaintenanceOrder, bind, ret.
  destruct (ShouldBindJSON_MaintenanceOrderEvent request) as [event|err].
  2:{ cbn. repeat split; auto; try discriminate.
      intros (? & ? & E & _). discriminate E. }
  split; [|split; [|split]].
  - destruct (validator_Struct_MaintenanceOrderEvent event);
      [left; reflexivity|].
    destruct (ProcessMaintenanceOrderEvent _ ctx event w) as [[r|e] w1]; cbn;
      auto.
  - destruct (validator_Struct_MaintenanceOrderEvent event); [reflexivity|].
    destruct (ProcessMaintenanceOrderEvent _ ctx event w) as [[r|e] w1]; cbn;
      discriminate.
  - destruct (validator_Struct_MaintenanceOrderEvent event) eqn:V.
    + cbn. split; [discriminate|].
      intros (ev & r & B & V' & _). injection B as <-. congruence.
    + destruct (ProcessMaintenanceOrderEvent _ ctx event w) as [[r|e] w1]
        eqn:P; cbn.
      * split; [|reflexivity]. intros _. exists event, r. rewrite P.
        split; [reflexivity | split; [exact V | split; reflexivity]].
      * split; [discriminate|].
        intros (ev & r & B & _ & P' & _). injection B as <-.
        rewrite P in P'. discriminate P'.
  - intros Req ev B Missing. injection B as <-.
    destruct (Req event Missing) as (err & ->). cbn. auto.
Qed.

(** X13.  [HandleMaintenanceDone] answers 400, 500 or 200 and nothing
    else.  A request that does not bind or does not pass the validator is
    answered 400 and never reaches the client.  The answer is 200 exactly
    when the request binds, passes the validator and the order of the
    event can be read; on the simulator that is every request that binds
    and passes the validator, whatever order and status it names. *)
Theorem X13_done_handler_answers :
  forall (h : MaintenanceHandler) (ctx : Context) (request : string) (w : World),
    let answer := HandleMaintenanceDone h ctx request w in
    In (status (fst answer))
      [StatusBadRequest; StatusInternalServerError; StatusOK]
    /\ (status (fst answer) = StatusBadRequest -> snd answer = w)
    /\ (status (fst answer) = StatusOK <->
        exists event resp,
          ShouldBindJSON_MaintenanceDoneEvent request = Ok event
          /\ validator_Struct_MaintenanceDoneEvent event = None
          /\ fst (GetOrder (sapClient (maintenanceService h)) ctx
                    (MaintenanceDoneEvent.OrderID event) w) = Ok resp)
    /\ (simulatorMode (sapClient (maintenanceService h)) = true ->
        forall event,
          ShouldBindJSON_MaintenanceDoneEvent request = Ok event ->
          validator_Struct_MaintenanceDoneEvent event = None ->
          status (fst answer) = StatusOK).
Proof.
  intros h ctx request w answer. subst answer.
  unfold HandleMaintenanceDone, HandleMaintenanceDoneEvent,
    GetMaintenanceOrderStatus, bind, ret.
  destruct (ShouldBindJSON_MaintenanceDoneEvent request) as [event|err].
  2:{ cbn. repeat split; auto; try discriminate.
      intros (? & ? & E & _). discriminate E. }
  split; [|split; [|split]].
  - destruct (validator_Struct_MaintenanceDoneEvent event);
      [left; reflexivity|].
    destruct (GetOrder _ ctx _ w) as [[r|e] w1]; cbn; auto.
  - destruct (validator_Struct_MaintenanceDoneEvent event); [reflexivity|].
    destruct (GetOrder _ ctx _ w) as [[r|e] w1]; cbn; discriminate.
  - destruct (validator_Struct_MaintenanceDoneEvent event) eqn:V.
    + cbn. split; [discriminate|].
      intros (ev & r & B & V' & _). injection B as <-. congruence.
    + destruct (GetOrder _ ctx _ w) as [[r|e] w1] eqn:G;
        cbn [fst snd status body].
      * split; [|reflexivity]. intros _. exists event, r. rewrite G.
        split; [reflexivity | split; [exact V | reflexivity]].
      * split; [discriminate|].
        intros (ev & r & B & _ & P). injection B as <-.
        rewrite G in P. discriminate P.
  - intros Sim ev B V. injection B as <-. rewrite V.
    destruct (GetOrder_simulated (sapClient (maintenanceService h)) ctx
                (MaintenanceDoneEvent.OrderID event) w Sim) as (resp & E & _).
    destruct (GetOrder _ ctx _ w) as [r w1]. cbn [fst] in E. subst r.
    reflexivity.
Qed.

End HandlersOfPosts.

(* ===================================================================== *)
(** * Further properties: the monitor *)
(* ===================================================================== *)

Section MonitorRuns.
Context `{Runtime} `{JSON}.

Variable s : MaintenanceService.
Variable orderID : string.

#[local] Abbreviation handler := (option (MaintenanceOrderStatus.t -> option error)).

(** What every step keeps, every run keeps. *)
Lemma run_invariant (callback : handler) (P : Monitor -> Prop) :
  (forall e m m', P m -> step s orderID callback e m = Some m' -> P m') ->
  forall es m m', P m -> run s orderID callback es m = Some m' -> P m'.
Proof.
  intros Keep es. induction es as [|e es IH]; intros m m' Pm R; cbn [run] in R.
  - injection R as <-. exact Pm.
  - destruct (step s orderID callback e m) as [m1|] eqn:St; [|discriminate R].
    apply (IH m1 m'); [apply (Keep e m m1 Pm St) | exact R].
Qed.

Lemma step_outcome (callback : handler) (e : Event) (m m' : Monitor) :
  Outcome callback m -> step s orderID callback e m = Some m' ->
  Outcome callback m'.
Proof.
  intros O St.
  destruct O as [NR Hd | err C P Hd | f st Cb Done Hd P | Cb P Hd];
    try (rewrite (step_returned s orderID callback e m _ P) in St;
         discriminate St).
  destruct (Event_eq_dec e FetchReturns) as [->|NF].
  - apply step_FetchReturns in St. destruct St as (P & ->).
    destruct (GetMaintenanceOrderStatus s (ctx m) orderID (world m))
      as [[st|err] w1]; cbn [fst snd]; unfold afterFetch.
    + destruct (isCompleted st) eqn:Done.
      * destruct callback as [f|].
        -- apply (CallbackCalled _ _ f st);
             [reflexivity | exact Done | cbn [handled]; rewrite Hd; reflexivity
             | reflexivity].
        -- apply NoCallback; [reflexivity | reflexivity | exact Hd].
      * apply Looping; [intros r; discriminate | exact Hd].
    + apply Looping; [intros r; discriminate | exact Hd].
  - destruct (Event_eq_dec e ReceiveDone) as [->|ND].
    + apply step_ReceiveDone in St.
      destruct St as (err & C & P & P' & C' & W & Hd').
      apply (ContextEnded _ _ err); [exact C' | exact P' | congruence].
    + destruct (step_quiet s orderID callback e m m' NF ND St)
        as (_ & Hd' & _ & NR' & _).
      apply Looping; [exact NR' | congruence].
Qed.

(** X14.  However its events fall, cancellations among them, a call of
    [MonitorOrderStatus] that has returned has returned in one of three
    ways: the error of its context, with the callback not called; the
    result of the callback, called once, with a status that is TECO or
    CLSD; or [nil] with no callback given.  Until it returns the callback
    is not called, and the error of a failed fetch is never returned. *)
Theorem X14_monitor_returns_in_three_ways :
  forall (callback : handler) (ctx0 : Context) (w : World) (es : list Event)
         (m : Monitor),
    MonitorOrderStatus s ctx0 orderID callback w es = Some m ->
    Outcome callback m.
Proof.
  intros callback ctx0 w es m R.
  apply (run_invariant callback (Outcome callback) (step_outcome callback)
           es (enterMonitor ctx0 w) m); [|exact R].
  apply Looping; [intros r; discriminate | reflexivity].
Qed.

Lemma GetMaintenanceOrderStatus_frame (ctx0 : Context) (w : World) :
  let read := GetMaintenanceOrderStatus s ctx0 orderID w in
  calls (snd read) = (calls w ++ [CallGetOrder orderID])%list
  /\ adds "GET" (simulatorMode (sapClient s)) (succeeded (fst read))
       (sent w) (sent (snd read)).
Proof.
  unfold GetMaintenanceOrderStatus, bind, ret.
  pose proof (GetOrder_calls (sapClient s) ctx0 orderID w) as C.
  pose proof (GetOrder_adds (sapClient s) ctx0 orderID w) as A.
  destruct (GetOrder (sapClient s) ctx0 orderID w) as [[resp|err] w1];
    split; assumption.
Qed.

Lemma afterFetch_frame (callback : handler)
  (fetched : result MaintenanceOrderStatus.t) (w1 : World) (m : Monitor) :
  let m' := afterFetch callback fetched w1 m in
  world m' = w1 /\ elapsed m' = elapsed m /\ tickerC m' = tickerC m
  /\ ctx m' = ctx m /\ point m' <> InFetch.
Proof.
  unfold afterFetch. destruct fetched as [st|err];
    [destruct (isCompleted st); [destruct callback|]|];
    cbn [world elapsed tickerC ctx point]; repeat split; discriminate.
Qed.

Lemma interval_positive : interval <> 0%N.
Proof. unfold interval. lia. Qed.

Lemma step_paced (callback : handler) (w : World) (e : Event)
  (m m' : Monitor) :
  (exists (k : nat) (rs : list Request),
      calls (world m) = (calls w ++ repeat (CallGetOrder orderID) k)%list
      /\ (N.of_nat k + owed m <= elapsed m / interval)%N
      /\ sent (world m) = (sent w ++ rs)%list
      /\ length rs <= k
      /\ Forall (fun r => Method r = "GET") rs) ->
  step s orderID callback e m = Some m' ->
  exists (k : nat) (rs : list Request),
    calls (world m') = (calls w ++ repeat (CallGetOrder orderID) k)%list
    /\ (N.of_nat k + owed m' <= elapsed m' / interval)%N
    /\ sent (world m') = (sent w ++ rs)%list
    /\ length rs <= k
    /\ Forall (fun r => Method r = "GET") rs.
Proof.
  intros (k & rs & C & O & S & L & G) St.
  destruct (Event_eq_dec e FetchReturns) as [->|NF].
  - apply step_FetchReturns in St. destruct St as (P & ->).
    destruct (GetMaintenanceOrderStatus_frame (ctx m) (world m)) as (C1 & A).
    destruct (afterFetch_frame callback
                (fst (GetMaintenanceOrderStatus s (ctx m) orderID (world m)))
                (snd (GetMaintenanceOrderStatus s (ctx m) orderID (world m))) m)
      as (W & E & T & _ & NI).
    destruct A as (rs1 & S1 & Shape & _).
    exists (Datatypes.S k), (rs ++ rs1)%list. rewrite W, E. unfold owed in *.
    rewrite T. rewrite P in O.
    split; [|split; [|split; [|split]]].
    + rewrite C1, C, <- app_assoc. f_equal. symmetry. apply repeat_cons.
    + destruct (point (afterFetch _ _ _ _)); [|congruence|]; lia.
    + rewrite S1, S, app_assoc. reflexivity.
    + rewrite length_app.
      destruct Shape as [->|(r & -> & _)]; cbn [length]; lia.
    + apply Forall_app. split; [exact G|].
      destruct Shape as [->|(r & -> & M)]; [constructor|].
      constructor; [exact M | constructor].
  - exists k, rs. unfold step in St. unfold owed in *.
    destruct (point m) eqn:P; [ | |discriminate St];
      destruct e as [r|d| | |]; try congruence; try discriminate St;
      try (destruct (ctx m); [|discriminate St]);
      try (destruct (tickerC m) eqn:T; [|discriminate St]);
      injection St as <-;
      cbn [world elapsed tickerC ctx point] in *;
      (split; [exact C|]); (split; [|split; [exact S|split; [exact L|exact G]]]);
      try exact O; try (cbn [N.b2n] in *; lia).
    all: pose proof (N.Div0.div_le_mono (elapsed m) (elapsed m + d) interval
                       ltac:(lia)) as Mono;
      set (q := (elapsed m / interval)%N) in *;
      set (q' := ((elapsed m + d) / interval)%N) in *;
      destruct (tickerC m); cbn [orb N.b2n] in *; [lia|];
      destruct (N.ltb_spec q q'); cbn [N.b2n]; lia.
Qed.

(** X15.  A call of [MonitorOrderStatus] reads the order at most once
    for each period of thirty seconds that has passed since it began, and
    nothing else: its calls on the client are reads of the order it
    watches, no more of them than whole periods have passed, and each
    sends at most one request, a GET. *)
Theorem X15_monitor_reads_once_per_period :
  forall (callback : handler) (ctx0 : Context) (w : World) (es : list Event)
         (m : Monitor),
    MonitorOrderStatus s ctx0 orderID callback w es = Some m ->
    exists (k : nat) (rs : list Request),
      issued w (world m) = repeat (CallGetOrder orderID) k
      /\ (N.of_nat k * interval <= elapsed m)%N
      /\ sent (world m) = (sent w ++ rs)%list
      /\ length rs <= k
      /\ Forall (fun r => Method r = "GET") rs.
Proof.
  intros callback ctx0 w es m R.
  destruct (run_invariant callback _ (step_paced callback w)
              es (enterMonitor ctx0 w) m) as (k & rs & C & O & S & L & G);
    [|exact R|].
  - exists 0, []. cbn. rewrite !app_nil_r. repeat split; try lia.
    constructor.
  - exists k, rs. split; [apply issued_app; exact C|].
    split; [|split; [exact S|split; [exact L|exact G]]].
    pose proof (N.Div0.mul_div_le (elapsed m) interval) as Le.
    assert (N.of_nat k <= elapsed m / interval)%N as K
      by (unfold owed in O; lia).
    apply (N.mul_le_mono_r _ _ interval) in K. lia.
Qed.

End MonitorRuns.

Section SimulatedMonitor.
Context `{Runtime} `{JSON}.

Lemma statusOfLastDigit_completed (last : ascii) :
  (statusOfLastDigit last =? "TECO") || (statusOfLastDigit last =? "CLSD")
  = true ->
  In last ["6"; "7"; "8"; "9"]%char.
Proof.
  unfold statusOfLastDigit.
  destruct (last =? "0")%char; [cbn; discriminate|].
  destruct (last =? "1")%char; [cbn; discriminate|].
  destruct (last =? "2")%char; [cbn; discriminate|].
  destruct (last =? "3")%char; [cbn; discriminate|].
  destruct (last =? "4")%char; [cbn; discriminate|].
  destruct (last =? "5")%char; [cbn; discriminate|].
  destruct (last =? "6")%char eqn:E6;
    [apply Ascii.eqb_eq in E6; subst; intros _; cbn; auto|].
  destruct (last =? "7")%char eqn:E7;
    [apply Ascii.eqb_eq in E7; subst; intros _; cbn; auto|].
  destruct (last =? "8")%char eqn:E8;
    [apply Ascii.eqb_eq in E8; subst; intros _; cbn; auto|].
  destruct (last =? "9")%char eqn:E9;
    [apply Ascii.eqb_eq in E9; subst; intros _; cbn; auto 6|].
  cbn. discriminate.
Qed.

Lemma GetMaintenanceOrderStatus_simulated (s : MaintenanceService)
  (ctx0 : Context) (orderID : string) (w : World) :
  simulatorMode (sapClient s) = true ->
  exists status : MaintenanceOrderStatus.t,
    fst (GetMaintenanceOrderStatus s ctx0 orderID w) = Ok status
    /\ MaintenanceOrderStatus.OrderID status = orderID
    /\ MaintenanceOrderStatus.Status status = mockStatus orderID
    /\ sent (snd (GetMaintenanceOrderStatus s ctx0 orderID w)) = sent w.
Proof.
  intros Sim. unfold GetMaintenanceOrderStatus, bind, ret.
  destruct (GetOrder_simulated (sapClient s) ctx0 orderID w Sim)
    as (resp & E & Id & St).
  destruct (simulated_sends_nothing (sapClient s) ctx0 w Sim) as (_ & _ & S).
  specialize (S orderID).
  destruct (GetOrder (sapClient s) ctx0 orderID w) as [r w1].
  cbn [fst snd] in *. subst r. eexists. split; [reflexivity|].
  split; [exact Id|]. split; [exact St | exact S].
Qed.

(** The first round of a monitor, whatever its context. *)
Lemma first_round (s : MaintenanceService) (orderID : string)
  (callback : option (MaintenanceOrderStatus.t -> option error))
  (ctx0 : Context) (w : World) :
  MonitorOrderStatus s ctx0 orderID callback w (rounds 1)
  = Some (afterFetch callback
            (fst (GetMaintenanceOrderStatus s ctx0 orderID w))
            (snd (GetMaintenanceOrderStatus s ctx0 orderID w))
            {| ctx := ctx0; elapsed := interval; tickerC := false;
               point := InFetch; world := w; handled := [] |}).
Proof.
  unfold MonitorOrderStatus. cbn [rounds run].
  change (step s orderID callback (Elapse interval) (enterMonitor ctx0 w))
    with (Some {| ctx := ctx0; elapsed := interval; tickerC := true;
                  point := AtSelect; world := w; handled := [] |}).
  cbv iota.
  change (step s orderID callback ReceiveTick
            {| ctx := ctx0; elapsed := interval; tickerC := true;
               point := AtSelect; world := w; handled := [] |})
    with (Some {| ctx := ctx0; elapsed := interval; tickerC := false;
                  point := InFetch; world := w; handled := [] |}).
  cbv iota. unfold step. cbn [point ctx world].
  destruct (GetMaintenanceOrderStatus s ctx0 orderID w) as [fetched w1].
  reflexivity.
Qed.

(** The runs of a monitor on the simulator, by the status the simulator
    gives the order. *)
Lemma simulated_run_open (s : MaintenanceService) (orderID : string)
  (callback : option (MaintenanceOrderStatus.t -> option error))
  (ctx0 : Context) (w : World) (es : list Event) (m : Monitor) :
  simulatorMode (sapClient s) = true ->
  (mockStatus orderID =? "TECO") || (mockStatus orderID =? "CLSD") = false ->
  MonitorOrderStatus s ctx0 orderID callback w es = Some m ->
  handled m = []
  /\ sent (world m) = sent w
  /\ (forall r, point m = Returned r ->
                exists err, ctx m = Some err /\ r = Some err).
Proof.
  intros Sim Open R.
  apply (run_invariant s orderID callback
           (fun m => handled m = [] /\ sent (world m) = sent w
                     /\ (forall r, point m = Returned r ->
                                   exists err, ctx m = Some err /\ r = Some err)))
    with (es := es) (m := enterMonitor ctx0 w); [| |exact R].
  - clear R m es. intros e m m' (Hd & S & Ret) St.
    destruct (Event_eq_dec e FetchReturns) as [->|NF].
    + apply step_FetchReturns in St. destruct St as (P & ->).
      destruct (GetMaintenanceOrderStatus_simulated s (ctx m) orderID (world m)
                  Sim) as (st & E & _ & Status & S1).
      rewrite E. unfold afterFetch, isCompleted. rewrite Status, Open.
      cbn [handled world point].
      split; [exact Hd|]. split; [congruence|]. intros r Pt. discriminate Pt.
    + destruct (Event_eq_dec e ReceiveDone) as [->|ND].
      * apply step_ReceiveDone in St.
        destruct St as (err & C & P & P' & C' & W & Hd').
        split; [congruence|]. split; [congruence|].
        intros r Pt. exists err. split; [exact C'|congruence].
      * destruct (step_quiet s orderID callback e m m' NF ND St)
          as (W & Hd' & _ & NR' & _).
        split; [congruence|]. split; [congruence|].
        intros r Pt. destruct (NR' r Pt).
  - split; [reflexivity|]. split; [reflexivity|]. intros r Pt. discriminate Pt.
Qed.

Lemma simulated_run_completed (s : MaintenanceService) (orderID : string)
  (f : MaintenanceOrderStatus.t -> option error)
  (ctx0 : Context) (w : World) (es : list Event) (m : Monitor) :
  simulatorMode (sapClient s) = true ->
  (mockStatus orderID =? "TECO") || (mockStatus orderID =? "CLSD") = true ->
  MonitorOrderStatus s ctx0 orderID (Some f) w es = Some m ->
  (issued w (world m) = [] /\ handled m = []
   /\ forall r, point m = Returned r ->
                exists err, ctx m = Some err /\ r = Some err)
  \/ (exists status : MaintenanceOrderStatus.t,
         issued w (world m) = [CallGetOrder orderID]
         /\ handled m = [status] /\ point m = Returned (f status)
         /\ MaintenanceOrderStatus.OrderID status = orderID
         /\ MaintenanceOrderStatus.Status status = mockStatus orderID).
Proof.
  intros Sim Done R.
  assert ((calls (world m) = calls w /\ handled m = []
           /\ forall r, point m = Returned r ->
                        exists err, ctx m = Some err /\ r = Some err)
          \/ (exists status : MaintenanceOrderStatus.t,
                 calls (world m) = (calls w ++ [CallGetOrder orderID])%list
                 /\ handled m = [status] /\ point m = Returned (f status)
                 /\ MaintenanceOrderStatus.OrderID status = orderID
                 /\ MaintenanceOrderStatus.Status status = mockStatus orderID))
    as [(C & Rest)|(st & C & Rest)].
  { apply (run_invariant s orderID (Some f)
             (fun m =>
                (calls (world m) = calls w /\ handled m = []
                 /\ forall r, point m = Returned r ->
                              exists err, ctx m = Some err /\ r = Some err)
                \/ (exists status : MaintenanceOrderStatus.t,
                       calls (world m)
                       = (calls w ++ [CallGetOrder orderID])%list
                       /\ handled m = [status] /\ point m = Returned (f status)
                       /\ MaintenanceOrderStatus.OrderID status = orderID
                       /\ MaintenanceOrderStatus.Status status
                          = mockStatus orderID)))
      with (es := es) (m := enterMonitor ctx0 w); [| |exact R].
    - clear R m es. intros e m m' [(C & Hd & Ret)|(st & _ & _ & P & _)] St;
        [|rewrite (step_returned s orderID (Some f) e m _ P) in St;
          discriminate St].
      destruct (Event_eq_dec e FetchReturns) as [->|NF].
      + right. apply step_FetchReturns in St. destruct St as (P & ->).
        destruct (GetMaintenanceOrderStatus_simulated s (ctx m) orderID
                    (world m) Sim) as (st & E & Id & Status & _).
        destruct (GetMaintenanceOrderStatus_frame s orderID (ctx m) (world m))
          as (C1 & _).
        rewrite E. unfold afterFetch, isCompleted. rewrite Status, Done.
        exists st. cbn [handled world point]. rewrite C1, C, Hd.
        repeat split; assumption.
      + left. destruct (Event_eq_dec e ReceiveDone) as [->|ND].
        * apply step_ReceiveDone in St.
          destruct St as (err & C0 & P & P' & C' & W & Hd').
          split; [congruence|]. split; [congruence|].
          intros r Pt. exists err. split; [exact C'|congruence].
        * destruct (step_quiet s orderID (Some f) e m m' NF ND St)
            as (W & Hd' & _ & NR' & _).
          split; [congruence|]. split; [congruence|].
          intros r Pt. destruct (NR' r Pt).
    - left. split; [reflexivity|]. split; [reflexivity|].
      intros r Pt. discriminate Pt. }
  - left. split; [|exact Rest]. unfold issued. rewrite C. apply skipn_all.
  - right. exists st. split; [|exact Rest]. apply issued_app. exact C.
Qed.

(** X16.  On the simulator a monitor of an order whose id is empty or
    ends in a character other than 6, 7, 8 and 9 never sees the order
    completed: however long it runs it never calls the callback, it sends
    no request, and it returns only when its context ends, with the error
    of the context. *)
Theorem X16_simulated_monitor_of_an_open_order :
  forall (s : MaintenanceService) (orderID : string)
         (callback : option (MaintenanceOrderStatus.t -> option error))
         (ctx0 : Context) (w : World) (es : list Event) (m : Monitor),
    simulatorMode (sapClient s) = true ->
    (forall last, last_byte orderID = Some last ->
                  ~ In last ["6"; "7"; "8"; "9"]%char) ->
    MonitorOrderStatus s ctx0 orderID callback w es = Some m ->
    handled m = []
    /\ sent (world m) = sent w
    /\ (forall r, point m = Returned r ->
                  exists err, ctx m = Some err /\ r = Some err).
Proof.
  intros s orderID callback ctx0 w es m Sim Open R.
  apply (simulated_run_open s orderID callback ctx0 w es m Sim); [|exact R].
  unfold mockStatus.
  destruct (last_byte orderID) as [last|]; [|reflexivity].
  destruct ((statusOfLastDigit last =? "TECO")
            || (statusOfLastDigit last =? "CLSD")) eqn:D; [|reflexivity].
  exfalso. apply (Open last eq_refl).
  apply statusOfLastDigit_completed. exact D.
Qed.

(** X17.  On the simulator a monitor of an order whose id ends in 6, 7,
    8 or 9 ends at its first fetch, cancelled meanwhile or not: one round
    of the ticker makes it call the callback and return; and in every run
    either it has not read the order, has not called the callback and has
    returned at most the error of its context, or it has read the order
    exactly once, has called the callback once, with a status that
    carries the id and TECO (CLSD for 9), and has returned the result of
    the callback. *)
Theorem X17_simulated_monitor_of_a_completed_order :
  forall (s : MaintenanceService) (orderID : string) (last : ascii)
         (f : MaintenanceOrderStatus.t -> option error) (w : World),
    simulatorMode (sapClient s) = true ->
    last_byte orderID = Some last ->
    In last ["6"; "7"; "8"; "9"]%char ->
    let completed (status : MaintenanceOrderStatus.t) : Prop :=
      MaintenanceOrderStatus.OrderID status = orderID
      /\ MaintenanceOrderStatus.Status status
         = (if (last =? "9")%char then "CLSD" else "TECO") in
    (forall ctx0 : Context,
        exists (m : Monitor) (status : MaintenanceOrderStatus.t),
          MonitorOrderStatus s ctx0 orderID (Some f) w (rounds 1) = Some m
          /\ handled m = [status] /\ point m = Returned (f status)
          /\ completed status)
    /\ forall (ctx0 : Context) (es : list Event) (m : Monitor),
        MonitorOrderStatus s ctx0 orderID (Some f) w es = Some m ->
        (issued w (world m) = [] /\ handled m = []
         /\ forall r, point m = Returned r ->
                      exists err, ctx m = Some err /\ r = Some err)
        \/ (exists status : MaintenanceOrderStatus.t,
               issued w (world m) = [CallGetOrder orderID]
               /\ handled m = [status] /\ point m = Returned (f status)
               /\ completed status).
Proof.
  intros s orderID last f w Sim Last Digit completed.
  assert (mockStatus orderID = if (last =? "9")%char then "CLSD" else "TECO")
    as Status.
  { unfold mockStatus. rewrite Last.
    destruct Digit as [<-|[<-|[<-|[<-|[]]]]]; reflexivity. }
  assert ((mockStatus orderID =? "TECO") || (mockStatus orderID =? "CLSD")
          = true) as Done.
  { rewrite Status. destruct (last =? "9")%char; reflexivity. }
  split.
  - intros ctx0. rewrite first_round.
    destruct (GetMaintenanceOrderStatus_simulated s ctx0 orderID w Sim)
      as (st & E & Id & St & _).
    rewrite E. unfold afterFetch, isCompleted. rewrite St, Done.
    eexists. exists st. split; [reflexivity|]. cbn [handled point].
    split; [reflexivity|]. split; [reflexivity|].
    split; [exact Id | rewrite St; exact Status].
  - intros ctx0 es m R.
    destruct (simulated_run_completed s orderID f ctx0 w es m Sim Done R)
      as [Idle|(st & C & Hd & P & Id & St)]; [left; exact Idle|].
    right. exists st. split; [exact C|]. split; [exact Hd|].
    split; [exact P|]. split; [exact Id | rewrite St; exact Status].
Qed.

Lemma simulated_id_last_digit (r : Z) :
  (0 <= r < 1000)%Z ->
  last_byte ("400000" ++ fmt_0d 3 r)
  = Some (ascii_of_nat (48 + Z.to_nat (r mod 10))).
Proof.
  intros R.
  assert (forallb
            (fun k =>
               match last_byte ("400000" ++ fmt_0d 3 (Z.of_nat k)) with
               | Some c =>
                   (c =? ascii_of_nat (48 + Z.to_nat (Z.of_nat k mod 10)))%char
               | None => false
               end) (seq 0 1000) = true) as All by (vm_compute; reflexivity).
  rewrite forallb_forall in All.
  specialize (All (Z.to_nat r)). rewrite Z2Nat.id in All by lia.
  assert (In (Z.to_nat r) (seq 0 1000)) as Mem by (apply in_seq; lia).
  specialize (All Mem).
  destruct (last_byte ("400000" ++ fmt_0d 3 r)) as [c|]; [|discriminate All].
  apply Ascii.eqb_eq in All. rewrite All. reflexivity.
Qed.

(** X18.  A submission to the simulator followed by a monitor of the
    order it returned, as in the polling demonstration: what the monitor
    finds is fixed by the clock at the submission.  The id of the order
    ends in the last digit of the seconds of the clock when the order was
    made.  When that digit is below 6 the monitor never calls the callback
    and returns only the error of its context; when it is 6 or more the
    first fetch ends the monitor with one call of the callback, on TECO,
    or on CLSD when the digit is 9. *)
Theorem X18_demonstration_follows_the_clock :
  forall (s : MaintenanceService) (background : Context)
         (event : MaintenanceOrderEvent.t)
         (f : MaintenanceOrderStatus.t -> option error) (w : World),
    simulatorMode (sapClient s) = true ->
    let seconds := time_Unix (now w (S (clock_reads w))) in
    (0 <= seconds)%Z ->
    let submitted := ProcessMaintenanceOrderEvent s background event w in
    exists resp : MaintenanceOrderResponse.t,
      fst submitted = Ok resp
      /\ last_byte (MaintenanceOrderResponse.OrderID resp)
         = Some (ascii_of_nat (48 + Z.to_nat (seconds mod 10)))
      /\ forall (ctx0 : Context) (es : list Event) (m : Monitor),
          MonitorOrderStatus s ctx0 (MaintenanceOrderResponse.OrderID resp)
            (Some f) (snd submitted) es = Some m ->
          ((seconds mod 10 < 6)%Z ->
           handled m = []
           /\ forall r, point m = Returned r ->
                        exists err, ctx m = Some err /\ r = Some err)
          /\ ((6 <= seconds mod 10)%Z ->
              issued (snd submitted) (world m) <> [] ->
              exists status : MaintenanceOrderStatus.t,
                handled m = [status] /\ point m = Returned (f status)
                /\ MaintenanceOrderStatus.Status status
                   = (if (seconds mod 10 =? 9)%Z then "CLSD" else "TECO")).
Proof.
  intros s background event f w Sim seconds Epoch submitted.
  destruct (Process_simulated s background event w Sim) as (E & _).
  subst submitted. rewrite E. eexists. split; [reflexivity|].
  cbn [MaintenanceOrderResponse.OrderID].
  fold seconds.
  set (orderID := "400000" ++ fmt_0d 3 (Z.rem seconds 1000)).
  assert (0 <= Z.rem seconds 1000 < 1000)%Z as R
    by (apply Z.rem_bound_pos; lia).
  assert (Z.rem seconds 1000 mod 10 = seconds mod 10)%Z as M.
  { rewrite Z.rem_mod_nonneg by lia.
    apply Z.mod_mod_divide. exists 100%Z. reflexivity. }
  assert (last_byte orderID
          = Some (ascii_of_nat (48 + Z.to_nat (seconds mod 10)))) as Last.
  { subst orderID. rewrite simulated_id_last_digit by exact R.
    rewrite M. reflexivity. }
  split; [exact Last|].
  pose proof (Z.mod_pos_bound seconds 10 ltac:(lia)) as D.
  set (w1 := snd (ProcessMaintenanceOrderEvent s background event w)).
  intros ctx0 es m Run. split.
  - intros Low.
    destruct (simulated_run_open s orderID (Some f) ctx0 w1 es m Sim)
      as (Hd & _ & Ret); [|exact Run|split; [exact Hd|exact Ret]].
    unfold mockStatus. rewrite Last.
    assert (seconds mod 10 = 0 \/ seconds mod 10 = 1 \/ seconds mod 10 = 2
            \/ seconds mod 10 = 3 \/ seconds mod 10 = 4
            \/ seconds mod 10 = 5)%Z as [->|[->|[->|[->|[->| ->]]]]] by lia;
      reflexivity.
  - intros High Read.
    assert (mockStatus orderID
            = if (seconds mod 10 =? 9)%Z then "CLSD" else "TECO") as Status.
    { unfold mockStatus. rewrite Last.
      assert (seconds mod 10 = 6 \/ seconds mod 10 = 7 \/ seconds mod 10 = 8
              \/ seconds mod 10 = 9)%Z as [->|[->|[->| ->]]] by lia;
        reflexivity. }
    destruct (simulated_run_completed s orderID f ctx0 w1 es m Sim)
      as [(Idle & _)|(st & _ & Hd & P & _ & St)]; [|exact Run| |].
    + rewrite Status. destruct (seconds mod 10 =? 9)%Z; reflexivity.
    + contradiction.
    + exists st. split; [exact Hd|]. split; [exact P|].
      rewrite St. exact Status.
Qed.

End SimulatedMonitor.

(* ===================================================================== *)
(** * Runs of the further properties *)
(* ===================================================================== *)

Section FurtherRuns.

#[local] Existing Instance Ref.runtime.
#[local] Existing Instance Ref.json.
#[local] Existing Instance RefApi.gin.

(** The validator of the small runtime keeps the tags of the event. *)
Example RefApi_required_enforced : required_enforced.
Proof.
  intros event Missing. unfold validator_Struct_MaintenanceOrderEvent.
  cbn [RefApi.gin]. unfold RefApi.validateOrder.
  destruct Missing as [-> | [-> | ->]].
  - eexists. reflexivity.
  - destruct (MaintenanceOrderEvent.EquipmentID event =? "");
      eexists; reflexivity.
  - destruct (MaintenanceOrderEvent.EquipmentID event =? "");
      [eexists; reflexivity|].
    destruct (MaintenanceOrderEvent.Plant event =? ""); eexists; reflexivity.
Qed.

(** A request without a plant is turned away before the client is
    touched; a complete one is submitted, here to the simulator. *)
Example create_handler_runs :
  let h := RefApi.handler Ref.simulated in
  let turnedAway := CreateMaintenanceOrder h None "10000045||Pump leaks"
                      (Ref.world []) in
  let taken := CreateMaintenanceOrder h None "10000045|1000|Pump leaks"
                 (Ref.world []) in
  status (fst turnedAway) = StatusBadRequest
  /\ snd turnedAway = Ref.world []
  /\ status (fst taken) = StatusCreated
  /\ issued (Ref.world []) (snd taken)
     = [CallCreateNotification
          (sap.ConvertMaintenanceOrderEventToNotificationRequest
             {| MaintenanceOrderEvent.EquipmentID := "10000045";
                MaintenanceOrderEvent.FunctionalLocation := "";
                MaintenanceOrderEvent.Plant := "1000";
                MaintenanceOrderEvent.Description := "Pump leaks";
                MaintenanceOrderEvent.Priority := "";
                MaintenanceOrderEvent.MaintenanceOrderType := "";
                MaintenanceOrderEvent.PlannedStartTime := None;
                MaintenanceOrderEvent.PlannedEndTime := None;
                MaintenanceOrderEvent.Operations := [] |});
        CallCreateOrder
          (sap.ConvertMaintenanceOrderEventToOrderRequest
             {| MaintenanceOrderEvent.EquipmentID := "10000045";
                MaintenanceOrderEvent.FunctionalLocation := "";
                MaintenanceOrderEvent.Plant := "1000";
                MaintenanceOrderEvent.Description := "Pump leaks";
                MaintenanceOrderEvent.Priority := "";
                MaintenanceOrderEvent.MaintenanceOrderType := "";
                MaintenanceOrderEvent.PlannedStartTime := None;
                MaintenanceOrderEvent.PlannedEndTime := None;
                MaintenanceOrderEvent.Operations := [] |} "200000200");
        CallGetOrder "400000201"].
Proof.
  split; [reflexivity|]. split; [reflexivity|]. split; reflexivity.
Qed.

(** X2 at a live client whose plant system answers the read of the order
    4711 with 404 and the body [gone]. *)
Lemma X2_witness :
  let c := sapClient (Ref.service Ref.live) in
  let w := Ref.world [Response 404 "gone"] in
  simulatorMode c = false
  /\ fst (GetOrder c None "4711" w)
     = Err (errorString "SAP API returned status 404: gone").
Proof.
  split; [reflexivity|].
  destruct (X2_success_is_one_status_code
              (sapClient (Ref.service Ref.live)) None
              (Ref.world [Response 404 "gone"]) 404 "gone" eq_refl)
    as (_ & _ & Read & _).
  exact (Read "4711" eq_refl eq_refl).
Defined.

(** X4 at the simulator and the clock of the small runtime. *)
Lemma X4_witness :
  let c := sapClient (Ref.service Ref.simulated) in
  exists (notification : SAPNotificationResponse.t) (order : SAPOrderResponse.t)
         (digits digits' : string),
    fst (CreateNotification c None
           (sap.ConvertMaintenanceOrderEventToNotificationRequest Ref.pumpSeal)
           (Ref.world [])) = Ok notification
    /\ SAPNotificationResponse.Notification
         (SAPNotificationResponse.D notification) = "200000" ++ digits
    /\ threeDigits digits = true
    /\ fst (CreateOrder c None
              (sap.ConvertMaintenanceOrderEventToOrderRequest Ref.pumpSeal
                 "200000200")
              (Ref.world [])) = Ok order
    /\ SAPOrderResponse.MaintenanceOrder (SAPOrderResponse.D order)
       = "400000" ++ digits'
    /\ threeDigits digits' = true.
Proof.
  destruct (X4_simulated_ids_have_nine_digits
              (sapClient (Ref.service Ref.simulated)) None (Ref.world [])
              (sap.ConvertMaintenanceOrderEventToNotificationRequest Ref.pumpSeal)
              (sap.ConvertMaintenanceOrderEventToOrderRequest Ref.pumpSeal
                 "200000200") eq_refl)
    as ((notification & digits & N & NId & ND)
        & (order & digits' & O & OId & OD)).
  - apply Z.leb_le. reflexivity.
  - exists notification, order, digits, digits'.
    split; [exact N|]. split; [exact NId|]. split; [exact ND|].
    split; [exact O|]. split; [exact OId | exact OD].
Defined.

(** X5 at the order request of the test script. *)
Lemma X5_witness :
  exists resp : SAPOrderResponse.t,
    fst (CreateOrder (sapClient (Ref.service Ref.simulated)) None
           (sap.ConvertMaintenanceOrderEventToOrderRequest Ref.pumpSeal
              "200000200") (Ref.world [])) = Ok resp
    /\ SAPOrderResponse.OrderStatus (SAPOrderResponse.D resp) = "CRTD"
    /\ SAPOrderResponse.Equipment (SAPOrderResponse.D resp) = "10000045"
    /\ length (SAPOrderResponse.Results (SAPOrderResponse.D resp)) = 1.
Proof.
  destruct (X5_simulated_order_echoes_request
              (sapClient (Ref.service Ref.simulated)) None
              (sap.ConvertMaintenanceOrderEventToOrderRequest Ref.pumpSeal
                 "200000200") (Ref.world []) eq_refl)
    as (resp & E & St & _ & _ & Eq & _ & _ & _ & _ & Len & _).
  exists resp. split; [exact E|]. split; [exact St|].
  split; [exact Eq | exact Len].
Defined.

(** X6 at the empty id. *)
Lemma X6_witness :
  exists resp : SAPOrderResponse.t,
    fst (GetOrder (sapClient (Ref.service Ref.simulated)) None ""
           (Ref.world [])) = Ok resp
    /\ SAPOrderResponse.OrderStatus (SAPOrderResponse.D resp) = "CRTD".
Proof.
  destruct (X6_simulated_status_of_any_id
              (sapClient (Ref.service Ref.simulated)) None "" (Ref.world [])
              eq_refl)
    as (resp & E & _ & Empty & _).
  exists resp. split; [exact E | exact (Empty eq_refl)].
Defined.

(** X7 at the request of the test script: the plant 1000 of the view is
    that of the stock order, not that of the request. *)
Lemma X7_witness :
  exists (resp : MaintenanceOrderResponse.t) (view : MaintenanceOrderStatus.t),
    fst (ProcessMaintenanceOrderEvent (Ref.service Ref.simulated) None
           Ref.pumpSeal (Ref.world [])) = Ok resp
    /\ fst (GetMaintenanceOrderStatus (Ref.service Ref.simulated) None
              (MaintenanceOrderResponse.OrderID resp)
              (snd (ProcessMaintenanceOrderEvent (Ref.service Ref.simulated)
                      None Ref.pumpSeal (Ref.world [])))) = Ok view
    /\ MaintenanceOrderStatus.Description view = "Mock maintenance order".
Proof.
  destruct (X7_simulator_keeps_no_order (Ref.service Ref.simulated) None None
              Ref.pumpSeal (Ref.world []) eq_refl)
    as (resp & view & E & R & _ & _ & _ & D & _).
  exists resp, view. split; [exact E|]. split; [exact R | exact D].
Defined.

(** X14 and X15 at one round of a monitor of the order 400000007 on
    the simulator, with a callback that fails. *)
Lemma X14_witness :
  exists m : Monitor,
    MonitorOrderStatus (Ref.service Ref.simulated) None "400000007"
      (Some Ref.reject) (Ref.world []) (rounds 1) = Some m
    /\ Outcome (Some Ref.reject) m.
Proof.
  assert (exists m : Monitor,
             MonitorOrderStatus (Ref.service Ref.simulated) None "400000007"
               (Some Ref.reject) (Ref.world []) (rounds 1) = Some m)
    as (m & R) by (eexists; rewrite first_round; reflexivity).
  exists m. split; [exact R|].
  exact (X14_monitor_returns_in_three_ways (Ref.service Ref.simulated)
           "400000007" (Some Ref.reject) None (Ref.world []) (rounds 1) m R).
Defined.

Lemma X15_witness :
  exists (m : Monitor) (k : nat) (rs : list Request),
    MonitorOrderStatus (Ref.service Ref.simulated) None "400000007"
      (Some Ref.reject) (Ref.world []) (rounds 1) = Some m
    /\ issued (Ref.world []) (world m) = repeat (CallGetOrder "400000007") k
    /\ (N.of_nat k * interval <= elapsed m)%N
    /\ sent (world m) = rs.
Proof.
  assert (exists m : Monitor,
             MonitorOrderStatus (Ref.service Ref.simulated) None "400000007"
               (Some Ref.reject) (Ref.world []) (rounds 1) = Some m)
    as (m & R) by (eexists; rewrite first_round; reflexivity).
  destruct (X15_monitor_reads_once_per_period (Ref.service Ref.simulated)
              "400000007" (Some Ref.reject) None (Ref.world []) (rounds 1) m R)
    as (k & rs & Calls & Pace & Sent & _).
  exists m, k, rs. split; [exact R|]. split; [exact Calls|].
  split; [exact Pace | exact Sent].
Defined.

(** X16 at one round of a monitor of the order 400000003. *)
Lemma X16_witness :
  exists m : Monitor,
    MonitorOrderStatus (Ref.service Ref.simulated) None "400000003"
      (Some Ref.accept) (Ref.world []) (rounds 1) = Some m
    /\ handled m = [] /\ sent (world m) = [].
Proof.
  assert (exists m : Monitor,
             MonitorOrderStatus (Ref.service Ref.simulated) None "400000003"
               (Some Ref.accept) (Ref.world []) (rounds 1) = Some m)
    as (m & R) by (eexists; rewrite first_round; reflexivity).
  destruct (X16_simulated_monitor_of_an_open_order (Ref.service Ref.simulated)
              "400000003" (Some Ref.accept) None (Ref.world []) (rounds 1)
              m eq_refl)
    as (Hd & Sent & _).
  - intros last E Member. injection E as <-.
    repeat (destruct Member as [D|Member]; [discriminate D|]). exact Member.
  - exact R.
  - exists m. split; [exact R|]. split; [exact Hd | exact Sent].
Defined.

(** X17 at the order 400000009. *)
Lemma X17_witness :
  exists (m : Monitor) (status : MaintenanceOrderStatus.t),
    MonitorOrderStatus (Ref.service Ref.simulated) None "400000009"
      (Some Ref.reject) (Ref.world []) (rounds 1) = Some m
    /\ handled m = [status] /\ point m = Returned (Ref.reject status)
    /\ MaintenanceOrderStatus.Status status = "CLSD".
Proof.
  destruct (X17_simulated_monitor_of_a_completed_order
              (Ref.service Ref.simulated) "400000009" "9"%char Ref.reject
              (Ref.world []) eq_refl eq_refl)
    as (Round & _).
  - right. right. right. left. reflexivity.
  - destruct (Round None) as (m & status & R & Hd & P & _ & St).
    exists m, status. split; [exact R|]. split; [exact Hd|].
    split; [exact P | exact St].
Defined.

(** X18 at the clock of the small runtime, which reads a second that
    ends in 1 when the order is made. *)
Lemma X18_witness :
  exists resp : MaintenanceOrderResponse.t,
    fst (ProcessMaintenanceOrderEvent (Ref.service Ref.simulated) None
           Ref.pumpSeal (Ref.world [])) = Ok resp
    /\ last_byte (MaintenanceOrderResponse.OrderID resp) = Some "1"%char.
Proof.
  destruct (X18_demonstration_follows_the_clock (Ref.service Ref.simulated)
              None Ref.pumpSeal Ref.accept (Ref.world []) eq_refl)
    as (resp & E & Last & _).
  - apply Z.leb_le. reflexivity.
  - exists resp. split; [exact E | exact Last].
Defined.

End FurtherRuns.
